(** * gnn_tracking: point-cloud builder and TCN trainer

    A shallow embedding of

      - [src/gnn_tracking/preprocessing/point_cloud_builder.py]
        (class [PointCloudBuilder]), and
      - [src/gnn_tracking/training/tcn_trainer.py] (class [TCNTrainer]),

    followed by the properties of the specification that concern them.

    Conventions.  Python exceptions are values of [Py.exn] and a call that
    may raise returns a [Py.result].  A Python [dict] keeps its insertion
    order, so it is an association list with unique keys ([Py.dict]).
    Attributes of [self] that a method assigns are threaded explicitly.
    Detector coordinates are real numbers ([R]); momenta, edge scores and
    labels are rationals ([Q]); loss values are IEEE binary64 numbers
    ([float]), because not-a-number and infinity are what the loss check
    is about. *)

From Stdlib Require Import List String Ascii Bool Arith ZArith Lia DecimalString.
From Stdlib Require Import QArith Reals Lra Floats.PrimFloat.
From Stdlib Require Floats.SpecFloat Floats.FloatAxioms.
From Stdlib Require DecimalZ DecimalPos.
Import ListNotations.

(* ================================================================== *)
(** * Part I: the embedding *)
(* ================================================================== *)

(** ** Python values used by both classes *)

Module Py.

(** The exceptions the two files can raise or let through.
    [RuntimeError] carries [str(e)]; it also stands for instances of its
    subclasses, which an [except RuntimeError] clause catches too. *)
Inductive exn : Type :=
| RuntimeError (msg : string)
| KeyError (key : string)
| IndexError
| ValueError
| TypeError
| AttributeError
| AssertionError
| ZeroDivisionError
| FileNotFoundError (path : string).

Inductive result (A : Type) : Type :=
| Ok (a : A)
| Raise (e : exn).
Arguments Ok {A} a.
Arguments Raise {A} e.

Definition bind {A B : Type} (m : result A) (k : A -> result B) : result B :=
  match m with
  | Ok a => k a
  | Raise e => Raise e
  end.

(** [mapM f l]: a comprehension [[f(x) for x in l]] whose body may raise. *)
Fixpoint mapM {A B : Type} (f : A -> result B) (l : list A) : result (list B) :=
  match l with
  | [] => Ok []
  | x :: l' =>
      bind (f x) (fun y => bind (mapM f l') (fun ys => Ok (y :: ys)))
  end.

(** [t[mask]]: the entries of [t] at which the boolean mask is true. *)
Fixpoint masked {A : Type} (mask : list bool) (t : list A) : list A :=
  match mask, t with
  | b :: mask', a :: t' => if b then a :: masked mask' t' else masked mask' t'
  | _, _ => []
  end.

(** *** Insertion-ordered dictionaries with string keys *)
Section Dict.
Variable V : Type.

Definition dict : Type := list (string * V).

(** [d.get(k)] *)
Fixpoint get (d : dict) (k : string) : option V :=
  match d with
  | [] => None
  | (k', v) :: d' => if String.eqb k' k then Some v else get d' k
  end.

(** [d[k]] *)
Definition getitem (d : dict) (k : string) : result V :=
  match get d k with
  | Some v => Ok v
  | None => Raise (KeyError k)
  end.

(** [d[k] = v]: an existing key keeps its position, a new one goes last. *)
Fixpoint setitem (d : dict) (k : string) (v : V) : dict :=
  match d with
  | [] => [(k, v)]
  | (k', v') :: d' =>
      if String.eqb k' k then (k', v) :: d' else (k', v') :: setitem d' k v
  end.

(** [d.update(e)] *)
Definition update (d e : dict) : dict :=
  fold_left (fun acc kv => setitem acc (fst kv) (snd kv)) e d.

(** [d.pop(k)] without the returned value: the dictionary that is left. *)
Fixpoint remove (d : dict) (k : string) : dict :=
  match d with
  | [] => []
  | (k', v) :: d' =>
      if String.eqb k' k then d' else (k', v) :: remove d' k
  end.

Definition keys (d : dict) : list string := map fst d.

(** The invariant of a Python dictionary. *)
Definition wf (d : dict) : Prop := NoDup (keys d).
End Dict.
Arguments get {V} d k.
Arguments getitem {V} d k.
Arguments setitem {V} d k v.
Arguments update {V} d e.
Arguments remove {V} d k.
Arguments keys {V} d.
Arguments wf {V} d.

(** *** Strings *)

(** [str.casefold] on ASCII text: upper-case letters become lower-case. *)
Definition casefold_ascii (c : ascii) : ascii :=
  let n := nat_of_ascii c in
  if (65 <=? n) && (n <=? 90) then ascii_of_nat (n + 32) else c.

Fixpoint casefold (s : string) : string :=
  match s with
  | EmptyString => EmptyString
  | String c s' => String (casefold_ascii c) (casefold s')
  end.

(** [pat in s] for strings. *)
Fixpoint contains (pat s : string) : bool :=
  String.prefix pat s ||
  match s with
  | EmptyString => false
  | String _ s' => contains pat s'
  end.

(** [s.endswith(suf)] *)
Definition endswith (s suf : string) : bool :=
  let n := String.length s in
  let m := String.length suf in
  (m <=? n) && String.eqb (String.substring (n - m) m s) suf.

(** [s.replace(pat, "")] for a non-empty [pat]: every non-overlapping
    occurrence, scanned from the left, is deleted.  [skip] counts the
    characters of the current occurrence that are still to be dropped. *)
Fixpoint delete_all_from (skip : nat) (pat s : string) : string :=
  match s with
  | EmptyString => EmptyString
  | String c s' =>
      match skip with
      | S k => delete_all_from k pat s'
      | O =>
          if String.prefix pat s
          then delete_all_from (String.length pat - 1) pat s'
          else String c (delete_all_from 0 pat s')
      end
  end.

Definition delete_all (pat s : string) : string := delete_all_from 0 pat s.

(** [s[-n:]] for [n > 0]. *)
Definition last_chars (n : nat) (s : string) : string :=
  let len := String.length s in
  String.substring (len - n) (Nat.min n len) s.

(** [str(z)] and the [{z}] of an f-string, for an [int]. *)
Definition str_of_int (z : Z) : string :=
  DecimalString.NilZero.string_of_int (Z.to_int z).

(** [int(s)] on an optional sign followed by decimal digits; every other
    text is the [ValueError] case.  (Python also accepts surrounding
    white space and single underscores between digits; event file names
    do not have them.) *)
Definition digit_of (c : ascii) : option Z :=
  let n := nat_of_ascii c in
  if (48 <=? n) && (n <=? 57) then Some (Z.of_nat (n - 48)) else None.

Fixpoint digits_value (acc : Z) (s : string) : option Z :=
  match s with
  | EmptyString => Some acc
  | String c s' =>
      match digit_of c with
      | Some d => digits_value (10 * acc + d) s'
      | None => None
      end
  end.

Definition int_of_str (s : string) : result Z :=
  let unsigned (t : string) : option Z :=
    match t with
    | EmptyString => None
    | _ => digits_value 0 t
    end in
  let r :=
    match s with
    | String "-"%char t => option_map Z.opp (unsigned t)
    | String "+"%char t => unsigned t
    | _ => unsigned s
    end in
  match r with
  | Some z => Ok z
  | None => Raise ValueError
  end.

(** [os.path.join(a, b)] for a [b] that is a plain file name. *)
Definition path_join (a b : string) : string :=
  if String.eqb a EmptyString then b
  else if endswith a "/" then String.append a b
  else String.append a (String.append "/" b).

End Py.

Notation "x <- m ;; k" := (Py.bind m (fun x => k))
  (at level 61, m at next level, right associativity).
Notation "' pat <- m ;; k" :=
  (Py.bind m (fun x => match x with pat => k end))
  (at level 61, pat pattern, m at next level, right associativity).

(* ================================================================== *)
(** ** [tcn_trainer.py]: class [TCNTrainer] *)
(* ================================================================== *)

Module TCNTrainer.
Import Py.

(** *** [training_step] (lines 259-288) *)

(** The attributes [training_step] reads or assigns: the counter
    [_n_oom_errors_in_a_row] and the warnings sent to [self.logg]. *)
Record step_state : Type := {
  n_oom_errors_in_a_row : Z;
  warnings : list string
}.

(** [__init__], line 110. *)
Definition init_step_state : step_state :=
  {| n_oom_errors_in_a_row := 0; warnings := [] |}.

Definition oom_warning : string :=
  "WARNING: ran out of memory (OOM), skipping batch. If this happens frequently, decrease the batch size. Will abort if we get 10 consecutive OOM errors.".

(** ["out of memory" in str(e).casefold()] *)
Definition is_oom (msg : string) : bool :=
  contains "out of memory" (casefold msg).

(** What [training_step] hands back: the loss, [None], or an exception. *)
Inductive step_outcome (L : Type) : Type :=
| Returned (loss : L)
| ReturnedNone
| Raised (e : exn).
Arguments Returned {L} loss.
Arguments ReturnedNone {L}.
Arguments Raised {L} e.

(** [body] is the outcome of the [try] block (lines 270-272):
    [data_preproc], [evaluate_model] and [get_batch_losses] on the batch. *)
Definition training_step {L : Type} (st : step_state) (body : result L)
  : step_state * step_outcome L :=
  match body with
  | Raise (RuntimeError msg) =>
      if is_oom msg then
        let st' := {| n_oom_errors_in_a_row := n_oom_errors_in_a_row st + 1;
                      warnings := warnings st ++ [oom_warning] |} in
        if (n_oom_errors_in_a_row st' >? 10)%Z
        then (st', Raised (RuntimeError msg))
        else (st', ReturnedNone)
      else (st, Raised (RuntimeError msg))
  | Raise e => (st, Raised e)
  | Ok batch_loss =>
      ({| n_oom_errors_in_a_row := 0; warnings := warnings st |},
       Returned batch_loss)
  end.

(** A sequence of calls on the same trainer object.  The caller decides
    what to do with a raised exception; the object itself lives on, so
    the run continues with the state the failing call left. *)
Fixpoint training_steps {L : Type} (st : step_state) (bodies : list (result L))
  : step_state * list (step_outcome L) :=
  match bodies with
  | [] => (st, [])
  | b :: bs =>
      let '(st1, o) := training_step st b in
      let '(st2, os) := training_steps st1 bs in
      (st2, o :: os)
  end.

(** *** Tensors of a model-output bundle

    [evaluate_model] returns a [dict[str, Tensor]].  The trainer looks
    inside four of its entries: ["pt"] (one momentum per hit),
    ["edge_index"] (a 2 x E integer tensor, kept here as its E columns),
    ["w"] (one score per edge, or [None]) and ["y"] (one label per edge).
    The other entries are only passed on. *)
Inductive tensor : Type :=
| TNone
| TFloat (v : list Q)
| TLong (v : list Z)
| TBool (v : list bool)
| TEdges (cols : list (Z * Z))
| TMatrix (rows : list (list Q)).

Definition model_output : Type := dict tensor.

(** [x > y] on numbers. *)
Definition Qgtb (x y : Q) : bool := negb (Qle_bool x y).

(** [t[i]] for an integer [i] taken from an index tensor: negative indices
    count from the end, anything outside raises [IndexError]. *)
Definition index_at {A : Type} (t : list A) (i : Z) : result A :=
  let n := Z.of_nat (List.length t) in
  let j := if (i <? 0)%Z then (i + n)%Z else i in
  if ((0 <=? j)%Z && (j <? n)%Z)%bool then
    match nth_error t (Z.to_nat j) with
    | Some a => Ok a
    | None => Raise IndexError
    end
  else Raise IndexError.

(** [t[idx]] for an index tensor [idx]. *)
Definition gather {A : Type} (t : list A) (idx : list Z) : result (list A) :=
  mapM (index_at t) idx.

(** [t[mask]] for a boolean mask, which must have the length of [t]. *)
Definition select {A : Type} (mask : list bool) (t : list A) : result (list A) :=
  if (List.length mask =? List.length t)%nat then Ok (masked mask t)
  else Raise IndexError.

(** Element-wise [a | b] of two masks of one length. *)
Fixpoint mask_or (a b : list bool) : list bool :=
  match a, b with
  | x :: a', y :: b' => (x || y)%bool :: mask_or a' b'
  | _, _ => []
  end.

(** *** [_edge_pt_mask] (lines 290-295) *)
Definition _edge_pt_mask (edge_index : list (Z * Z)) (pt : list Q) (pt_min : Q)
  : result (list bool) :=
  pt_a <- gather pt (map fst edge_index) ;;
  pt_b <- gather pt (map snd edge_index) ;;
  Ok (mask_or (map (fun p => Qgtb p pt_min) pt_a)
              (map (fun p => Qgtb p pt_min) pt_b)).

(** [Tensor.long()] on one element of a float tensor: truncation. *)
Definition Qtrunc (q : Q) : Z := Z.quot (Qnum q) (Zpos (Qden q)).

(** [model_output[key]] read as scores, labels, momenta or edges. *)
Definition as_scores (t : tensor) : result (list Q) :=
  match t with
  | TFloat v => Ok v
  | _ => Raise TypeError
  end.

Definition as_edges (t : tensor) : result (list (Z * Z)) :=
  match t with
  | TEdges cols => Ok cols
  | _ => Raise TypeError
  end.

(** [model_output["y"][mask].long()] *)
Definition select_long (mask : list bool) (t : tensor) : result (list Z) :=
  match t with
  | TFloat v => r <- select mask v ;; Ok (map Qtrunc r)
  | TLong v => select mask v
  | TBool v => r <- select mask v ;; Ok (map (fun b : bool => if b then 1%Z else 0%Z) r)
  | _ => Raise TypeError
  end.

(** *** Results of loss functions and weight specifications *)
Inductive loss_returns (T : Type) : Type :=
| LScalar (x : T)
| LList (xs : list T)
| LDict (d : dict T).
Arguments LScalar {T} x.
Arguments LList {T} xs.
Arguments LDict {T} d.

(** A loss function is called as [loss_func( **model_output )]. *)
Definition loss_function : Type := model_output -> result (loss_returns float).

(** A clustering function is called with the accumulated arrays, [epoch]
    and [start_params]; it returns [None] or an object with [.metrics]
    and [.best_params]. *)
Record cluster_result (V : Type) : Type := {
  metrics : dict V;
  best_params : dict V
}.
Arguments metrics {V} c.
Arguments best_params {V} c.

Definition cluster_function (V : Type) : Type :=
  dict (list tensor) -> Z -> option (dict V) -> result (option (cluster_result V)).

(** *** The trainer's methods

    The collaborators that live outside the two files are the variables
    of this section: the model behind [evaluate_model], the helper
    [unpack_loss_returns] of [gnn_tracking.metrics.losses], the metric
    functions of [gnn_tracking.metrics.binary_classification],
    [denote_pt] of [gnn_tracking.utils.nomenclature] and the class
    attribute [ClusterFctType.required_model_outputs]. *)
Section Methods.

Variable Data : Type.
Variable evaluate_model : Data -> bool -> result model_output.
Variable unpack_loss_returns : string -> loss_returns float -> dict float.
Variable BinaryClassificationStats_get_all :
  list Q -> list Z -> Q -> result (dict float).
Variable get_maximized_bcs : list Q -> list Z -> result (dict float).
Variable roc_auc_score : list Z -> list Q -> option Q -> result float.
Variable denote_pt : string -> Q -> string.
Variable required_model_outputs : dict string.

(** The attributes set by [__init__] that the methods below read. *)
Record trainer : Type := {
  loss_functions : dict (loss_function * loss_returns float);
  clustering_functions : dict (cluster_function float);
  max_batches_for_clustering : Z;
  ec_eval_pt_thlds : list Q;
  ec_threshold : Q;
  _epoch : Z
}.

Variable self : trainer.

(** **** [get_batch_losses] (lines 164-187) *)

(** The loop of lines 177-181. *)
Fixpoint collect_losses (mo : model_output)
    (fns : dict (loss_function * loss_returns float))
    (losses weights : dict float) : result (dict float * dict float) :=
  match fns with
  | [] => Ok (losses, weights)
  | (key, (loss_func, these_weights)) :: rest =>
      r <- loss_func mo ;;
      collect_losses mo rest
        (update losses (unpack_loss_returns key r))
        (update weights (unpack_loss_returns key these_weights))
  end.

(** [weights[k]] on the [defaultdict(lambda: 1.0)]: a missing key is
    entered with the value 1.0. *)
Definition weights_getitem (weights : dict float) (k : string)
  : dict float * float :=
  match get weights k with
  | Some w => (weights, w)
  | None => (setitem weights k 1%float, 1%float)
  end.

(** [sum(weights[k] * losses[k] for k in losses)]: from 0, left to right,
    in the order of [losses]. *)
Fixpoint weighted_sum (losses : dict float) (weights : dict float) (acc : float)
  : dict float * float :=
  match losses with
  | [] => (weights, acc)
  | (k, l) :: rest =>
      let '(weights', w) := weights_getitem weights k in
      weighted_sum rest weights' (PrimFloat.add acc (PrimFloat.mul w l))
  end.

(** The text of the error of line 184, without the rendering of the two
    dictionaries that follows it. *)
Definition nan_loss_message : string := "NaN loss encountered in test step.".

(** With no sub-loss at all the total is the integer 0 that [sum] starts
    from, and [torch.isnan] refuses it. *)
Definition get_batch_losses (mo : model_output)
  : result (float * dict float * dict float) :=
  ' (losses, weights) <- collect_losses mo (loss_functions self) [] [] ;;
  let '(weights', total) := weighted_sum losses weights 0%float in
  match losses with
  | [] => Raise TypeError
  | _ :: _ =>
      if PrimFloat.is_nan total
      then Raise (RuntimeError nan_loss_message)
      else Ok (total, losses, weights')
  end.

(** **** [evaluate_ec_metrics_with_pt_thld] (lines 401-440) *)
Definition evaluate_ec_metrics_with_pt_thld (mo : model_output)
    (pt_min ec_threshold : Q) : result (dict float) :=
  edge_index <- getitem mo "edge_index" ;;
  pt <- getitem mo "pt" ;;
  edge_index <- as_edges edge_index ;;
  pt <- as_scores pt ;;
  edge_pt_mask <- _edge_pt_mask edge_index pt pt_min ;;
  w <- getitem mo "w" ;;
  w <- as_scores w ;;
  predicted <- select edge_pt_mask w ;;
  y <- getitem mo "y" ;;
  true <- select_long edge_pt_mask y ;;
  bcs <- BinaryClassificationStats_get_all predicted true ec_threshold ;;
  maximized <- get_maximized_bcs predicted true ;;
  let metrics := update bcs maximized in
  auc <- roc_auc_score true predicted None ;;
  let metrics := setitem metrics "roc_auc" auc in
  auc1 <- roc_auc_score true predicted (Some (1 # 1000)) ;;
  let metrics := setitem metrics "roc_auc_0.001FPR" auc1 in
  auc2 <- roc_auc_score true predicted (Some (1 # 100)) ;;
  let metrics := setitem metrics "roc_auc_0.01FPR" auc2 in
  auc3 <- roc_auc_score true predicted (Some (1 # 10)) ;;
  let metrics := setitem metrics "roc_auc_0.1FPR" auc3 in
  Ok (update [] (map (fun kv => (denote_pt (fst kv) pt_min, snd kv)) metrics)).

(** **** [evaluate_ec_metrics] (lines 442-458) *)
Fixpoint evaluate_ec_metrics_loop (mo : model_output) (ec_thr : Q)
    (thlds : list Q) (ret : dict float) : result (dict float) :=
  match thlds with
  | [] => Ok ret
  | pt_min :: rest =>
      m <- evaluate_ec_metrics_with_pt_thld mo pt_min ec_thr ;;
      evaluate_ec_metrics_loop mo ec_thr rest (update ret m)
  end.

Definition evaluate_ec_metrics (mo : model_output) (ec_thr : option Q)
  : result (dict float) :=
  let ec_thr := match ec_thr with
                | None => ec_threshold self
                | Some t => t
                end in
  w <- getitem mo "w" ;;
  match w with
  | TNone => Ok []
  | _ => evaluate_ec_metrics_loop mo ec_thr (ec_eval_pt_thlds self) []
  end.

(** **** The loop of [test_step] (lines 310-352) *)

(** [d[k].append(v)] on a [defaultdict(list)]. *)
Definition append_to {A : Type} (d : dict (list A)) (k : string) (v : A)
  : dict (list A) :=
  match get d k with
  | Some l => setitem d k (l ++ [v])
  | None => setitem d k [v]
  end.

(** [t.detach().cpu().numpy()]: the same numbers as an array; [None] has
    no such method. *)
Definition to_numpy (t : tensor) : result tensor :=
  match t with
  | TNone => Raise AttributeError
  | _ => Ok t
  end.

(** Lines 349-352. *)
Fixpoint collect_cluster_inputs (mo : model_output) (required : dict string)
    (cluster_eval_input : dict (list tensor)) : result (dict (list tensor)) :=
  match required with
  | [] => Ok cluster_eval_input
  | (mo_key, cf_key) :: rest =>
      t <- getitem mo mo_key ;;
      a <- to_numpy t ;;
      collect_cluster_inputs mo rest (append_to cluster_eval_input cf_key a)
  end.

(** Lines 331-336. *)
Definition record_losses (batch_loss : float) (these_batch_losses : dict float)
    (loss_weights : dict float) (batch_metrics : dict (list float))
  : dict (list float) :=
  fold_left
    (fun bm kv =>
       let bm := append_to bm (fst kv) (snd kv) in
       append_to bm (String.append (fst kv) "_weighted")
         (PrimFloat.mul (snd kv) (snd (weights_getitem loss_weights (fst kv)))))
    these_batch_losses
    (append_to batch_metrics "total" batch_loss).

(** [max_batches and _batch_idx > max_batches] *)
Definition past_max_batches (max_batches : option Z) (batch_idx : Z) : bool :=
  match max_batches with
  | None => false
  | Some m => (negb (m =? 0)%Z && (batch_idx >? m)%Z)%bool
  end.

(** [self.clustering_functions and
     _batch_idx <= self.max_batches_for_clustering] *)
Definition collects_for_clustering (batch_idx : Z) : bool :=
  match clustering_functions self with
  | [] => false
  | _ :: _ => (batch_idx <=? max_batches_for_clustering self)%Z
  end.

(** The [for] loop over [enumerate(loader)]; [data.to(device)] and the
    default [data_preproc] leave the batch as it is. *)
Fixpoint test_step_loop (max_batches : option Z) (batch_idx : Z)
    (loader : list Data) (batch_metrics : dict (list float))
    (cluster_eval_input : dict (list tensor))
  : result (dict (list float) * dict (list tensor)) :=
  match loader with
  | [] => Ok (batch_metrics, cluster_eval_input)
  | data :: rest =>
      if past_max_batches max_batches batch_idx
      then Ok (batch_metrics, cluster_eval_input)
      else
        mo <- evaluate_model data false ;;
        ' (batch_loss, these_batch_losses, loss_weights) <- get_batch_losses mo ;;
        let batch_metrics :=
          record_losses batch_loss these_batch_losses loss_weights batch_metrics in
        ec <- evaluate_ec_metrics mo None ;;
        let batch_metrics :=
          fold_left (fun bm kv => append_to bm (fst kv) (snd kv)) ec batch_metrics in
        cluster_eval_input <-
          (if collects_for_clustering batch_idx
           then collect_cluster_inputs mo required_model_outputs cluster_eval_input
           else Ok cluster_eval_input) ;;
        test_step_loop max_batches (batch_idx + 1) rest
          batch_metrics cluster_eval_input
  end.

(** Lines 310-352 of [test_step]: the two accumulators start empty and
    [loader] must not be [None]. *)
Definition test_step_accumulate (max_batches : option Z)
    (loader : option (list Data))
  : result (dict (list float) * dict (list tensor)) :=
  match loader with
  | None => Raise AssertionError
  | Some batches => test_step_loop max_batches 0 batches [] []
  end.

End Methods.
Arguments test_step_loop {Data} evaluate_model unpack_loss_returns
  BinaryClassificationStats_get_all get_maximized_bcs roc_auc_score denote_pt
  required_model_outputs self max_batches batch_idx loader batch_metrics
  cluster_eval_input.
Arguments test_step_accumulate {Data} evaluate_model unpack_loss_returns
  BinaryClassificationStats_get_all get_maximized_bcs roc_auc_score denote_pt
  required_model_outputs self max_batches loader.

(** **** [_evaluate_cluster_metrics] (lines 370-399)

    The method reads and assigns [self._best_cluster_params]; the cache
    goes in and comes out, also when a clustering function raises. *)
Section ClusterMetrics.

Variable V : Type.

(** [fct( **cluster_eval_input, epoch=..., start_params=... )] *)
Definition call_cluster_function (fct : cluster_function V)
    (cluster_eval_input : dict (list tensor)) (epoch : Z)
    (start_params : option (dict V)) : result (option (cluster_result V)) :=
  if existsb (fun k => (String.eqb k "epoch" || String.eqb k "start_params")%bool)
       (keys cluster_eval_input)
  then Raise TypeError
  else fct cluster_eval_input epoch start_params.

(** [{f"best_{fct_name}_{param}": val for param, val in best_params.items()}] *)
Definition best_param_metrics (fct_name : string) (params : dict V) : dict V :=
  update []
    (map (fun pv =>
            (String.append "best_"
               (String.append fct_name (String.append "_" (fst pv))), snd pv))
         params).

Fixpoint _evaluate_cluster_metrics_loop
    (fns : dict (cluster_function V))
    (cluster_eval_input : dict (list tensor)) (epoch : Z)
    (_best_cluster_params : dict (dict V)) (metrics : dict V)
  : dict (dict V) * result (dict V) :=
  match fns with
  | [] => (_best_cluster_params, Ok metrics)
  | (fct_name, fct) :: rest =>
      match call_cluster_function fct cluster_eval_input epoch
              (get _best_cluster_params fct_name) with
      | Raise e => (_best_cluster_params, Raise e)
      | Ok None =>
          _evaluate_cluster_metrics_loop rest cluster_eval_input epoch
            _best_cluster_params metrics
      | Ok (Some cluster_result) =>
          let metrics1 := update metrics (TCNTrainer.metrics cluster_result) in
          let cache := setitem _best_cluster_params fct_name
                         (best_params cluster_result) in
          let metrics2 :=
            update metrics1
              (best_param_metrics fct_name (best_params cluster_result)) in
          _evaluate_cluster_metrics_loop rest cluster_eval_input epoch
            cache metrics2
      end
  end.

Definition _evaluate_cluster_metrics
    (clustering_functions : dict (cluster_function V)) (epoch : Z)
    (_best_cluster_params : dict (dict V))
    (cluster_eval_input : dict (list tensor))
  : dict (dict V) * result (dict V) :=
  _evaluate_cluster_metrics_loop clustering_functions cluster_eval_input
    epoch _best_cluster_params [].

End ClusterMetrics.
Arguments call_cluster_function {V} fct cluster_eval_input epoch start_params.
Arguments best_param_metrics {V} fct_name params.
Arguments _evaluate_cluster_metrics_loop {V} fns cluster_eval_input epoch
  _best_cluster_params metrics.
Arguments _evaluate_cluster_metrics {V} clustering_functions epoch
  _best_cluster_params cluster_eval_input.

(** Modelled from the spec: [unpack_loss_returns] of
    [gnn_tracking.metrics.losses], which is not among the source files.
    The specification fixes the three shapes a loss function (or a weight
    specification) may have - a scalar, a list, a keyed mapping - but not
    the names of the resulting sub-loss keys; here a scalar keeps the name
    of its loss function, and the entries of a list or of a mapping get
    that name followed by their position or by their own key.  The
    properties below are proved for every unpacking rule; this one serves
    to run the methods on concrete inputs. *)
Fixpoint unpack_list {T : Type} (key : string) (i : nat) (xs : list T) : dict T :=
  match xs with
  | [] => []
  | x :: xs' =>
      (String.append key (String.append "_" (str_of_int (Z.of_nat i))), x)
        :: unpack_list key (S i) xs'
  end.

Definition unpack_loss_returns {T : Type} (key : string) (returns : loss_returns T)
  : dict T :=
  match returns with
  | LScalar x => [(key, x)]
  | LList xs => unpack_list key 0 xs
  | LDict d =>
      update []
        (map (fun kv => (String.append key (String.append "_" (fst kv)), snd kv)) d)
  end.

(** *** [evaluate_model] (lines 112-162)

    The batch is a [torch_geometric] [Data] object, of which the method
    reads eight attributes.  [y], [edge_index], [x] and [batch] are
    properties of [Data]: on a batch that does not have them they give
    [None].  [particle_id], [reconstructable], [pt] and [sector] are
    attributes that the graphs of this project carry: reading one of them
    on a batch that lacks it raises [AttributeError].  The model and the
    tensor operations of [torch] are collaborators: the variables of this
    section. *)
Record graph_batch : Type := {
  particle_id : option tensor;
  reconstructable : option tensor;
  pt : option tensor;
  y : tensor;
  edge_index : tensor;
  sector : option tensor;
  x : tensor;
  batch : tensor
}.

(** [data.name] for an attribute the batch may lack. *)
Definition attribute (a : option tensor) : result tensor :=
  match a with
  | Some t => Ok t
  | None => Raise AttributeError
  end.

Section Normalizer.

(** [self.model(data)] *)
Variable model : graph_batch -> result (dict tensor).
(** [t.long()], [t.bool()], [a * b] and [torch.full_like(t, True)] *)
Variable tensor_long : tensor -> result tensor.
Variable tensor_bool : tensor -> result tensor.
Variable tensor_mul : tensor -> tensor -> result tensor.
Variable full_like_true : tensor -> result tensor.

(** [get_if_defined(key)] (lines 130-134): the value popped from [out],
    or [None], and what is left of [out]. *)
Definition get_if_defined (out : dict tensor) (key : string)
  : tensor * dict tensor :=
  match get out key with
  | Some t => (t, remove out key)
  | None => (TNone, out)
  end.

(** [out.get(key, default)] *)
Definition get_or (out : dict tensor) (key : string) (default : tensor) : tensor :=
  match get out key with
  | Some t => t
  | None => default
  end.

(** The operands are evaluated from left to right, and the default of
    [out.get] before the lookup; the entries of the dictionary of lines
    141-160 are evaluated in the order they are written. *)
Definition evaluate_model (data : graph_batch) (mask_pids_reco : bool)
  : result (dict tensor) :=
  out <- model data ;;
  pid_field <-
    (if mask_pids_reco
     then pid <- attribute (particle_id data) ;;
          rc <- attribute (reconstructable data) ;;
          r <- tensor_long rc ;;
          tensor_mul pid r
     else attribute (particle_id data)) ;;
  data_pt <- attribute (pt data) ;;
  all_hits <- full_like_true data_pt ;;
  ec_hit_mask <- tensor_bool (get_or out "ec_hit_mask" all_hits) ;;
  all_edges <- full_like_true (y data) ;;
  ec_edge_mask <- tensor_bool (get_or out "ec_edge_mask" all_edges) ;;
  let '(w, out) := get_if_defined out "W" in
  let '(h, out) := get_if_defined out "H" in
  let '(b, out) := get_if_defined out "B" in
  let '(p, out) := get_if_defined out "P" in
  rc <- attribute (reconstructable data) ;;
  reco <- tensor_long rc ;;
  data_sector <- attribute (sector data) ;;
  Ok (update out
        [ ("w", w); ("x", h); ("beta", b); ("pred", p);
          ("ec_hit_mask", ec_hit_mask); ("ec_edge_mask", ec_edge_mask);
          ("y", y data); ("particle_id", pid_field);
          ("track_params", data_pt); ("pt", data_pt);
          ("reconstructable", reco); ("edge_index", edge_index data);
          ("sector", data_sector); ("node_features", x data);
          ("batch", batch data) ]%string).

End Normalizer.

(** *** [printed_results_filter] and [highlight_metric] (lines 229-254) *)
Definition printed_results_filter (key : string) : bool :=
  if contains "_loc_" key then false else true.

Definition highlight_metric (metric : string) : bool :=
  let metric := casefold metric in
  if String.prefix "tc_" metric then false
  else if contains "_loc_" metric then false
  else if (negb (contains "0.9" metric) && negb (contains "1.5" metric))%bool
  then false
  else if contains "double_majority" metric then true
  else if contains "tpr_eq_tnr" metric then true
  else if contains "max_mcc" metric then true
  else false.

End TCNTrainer.

(* ================================================================== *)
(** ** [point_cloud_builder.py]: class [PointCloudBuilder] *)
(* ================================================================== *)

Module PointCloudBuilder.
Import Py.
Local Open Scope R_scope.

(** *** Tables

    A pandas [DataFrame] of numbers: its columns in their order, each with
    one value per row.  All columns of a table have the same length. *)
Definition DataFrame : Type := dict (list R).

(** [len(df)] *)
Definition nrows (df : DataFrame) : nat :=
  match df with
  | [] => O
  | (_, c) :: _ => List.length c
  end.

(** [df[mask]]: the rows at which the mask is true, in every column. *)
Definition filter_rows (mask : list bool) (df : DataFrame) : DataFrame :=
  map (fun nc => (fst nc, masked mask (snd nc))) df.

(** [df.name]: the column, or [AttributeError]. *)
Definition getattr (df : DataFrame) (name : string) : result (list R) :=
  match get df name with
  | Some c => Ok c
  | None => Raise AttributeError
  end.

(** Comparisons of numbers, as truth values. *)
Definition Rltb (x y : R) : bool := if Rlt_dec x y then true else false.
Definition Rgtb (x y : R) : bool := Rltb y x.
Definition Rleb (x y : R) : bool := if Rle_dec x y then true else false.
Definition Rgeb (x y : R) : bool := Rleb y x.

(** The artifact of one (event, sector): [torch_geometric.data.Data] with
    [x] (here one list per feature), [particle_id] and [pt]. *)
Record Data : Type := {
  x : list (list R);
  particle_id : list R;
  pt : list R
}.

(** Dictionaries keyed by event id. *)
Fixpoint int_get {A : Type} (d : list (Z * A)) (k : Z) : option A :=
  match d with
  | [] => None
  | (k', v) :: d' => if (k' =? k)%Z then Some v else int_get d' k
  end.

Fixpoint int_setitem {A : Type} (d : list (Z * A)) (k : Z) (v : A)
  : list (Z * A) :=
  match d with
  | [] => [(k, v)]
  | (k', v') :: d' =>
      if (k' =? k)%Z then (k', v) :: d' else (k', v') :: int_setitem d' k v
  end.

Definition int_getitem {A : Type} (d : list (Z * A)) (k : Z) : result A :=
  match int_get d k with
  | Some v => Ok v
  | None => Raise (KeyError (str_of_int k))
  end.

Record event_stats : Type := {
  n_hits : nat;
  n_noise : nat;
  n_sector_hits : nat
}.

(** *** The builder: the attributes [__init__] sets (lines 37-64) *)
Record builder : Type := {
  outdir : string;
  indir : string;
  n_sectors : Z;
  redo : bool;
  pixel_only : bool;
  sector_di : R;
  sector_ds : R;
  feature_names : list string;
  feature_scale : list R;
  measurement_mode : bool;
  thld : R;
  remove_noise : bool;
  stats : list (Z * event_stats);
  prefixes : list string;
  exists_ : list (Z * bool);
  data_list : list Data
}.

(** [f"data{evtid}_s{s}.pt"] *)
Definition artifact_name (evtid s : Z) : string :=
  String.append "data"
    (String.append (str_of_int evtid)
       (String.append "_s" (String.append (str_of_int s) ".pt"))).

(** [name in outfiles] *)
Definition listed (name : string) (outfiles : list string) : bool :=
  existsb (String.eqb name) outfiles.

Definition suffix : string := "-hits.csv.gz".

(** The loop of lines 54-62 over [os.listdir(self.indir)]. *)
Fixpoint scan_events (indir : string) (outfiles : list string)
    (infiles : list string) (prefixes : list string) (exists_ : list (Z * bool))
  : result (list string * list (Z * bool)) :=
  match infiles with
  | [] => Ok (prefixes, exists_)
  | p :: rest =>
      if endswith p suffix then
        let prefix := delete_all suffix p in
        evtid <- int_of_str (last_chars 9 prefix) ;;
        scan_events indir outfiles rest
          (prefixes ++ [path_join indir prefix])
          (int_setitem exists_ evtid (listed (artifact_name evtid 0) outfiles))
      else scan_events indir outfiles rest prefixes exists_
  end.

(** [__init__] (lines 22-64).  [outfiles] and [infiles] are what
    [os.listdir] answers for [outdir] and [indir] at that moment. *)
Definition __init__ (outfiles infiles : list string)
    (outdir indir : string) (n_sectors : Z) (redo pixel_only : bool)
    (sector_di sector_ds : R) (feature_names : list string)
    (feature_scale : list R) (measurement_mode : bool) (thld : R)
    (remove_noise : bool) : result builder :=
  ' (prefixes, exists_) <- scan_events indir outfiles infiles [] [] ;;
  Ok {| outdir := outdir; indir := indir; n_sectors := n_sectors;
        redo := redo; pixel_only := pixel_only;
        sector_di := sector_di; sector_ds := sector_ds;
        feature_names := feature_names; feature_scale := feature_scale;
        measurement_mode := measurement_mode; thld := thld;
        remove_noise := remove_noise; stats := [];
        prefixes := prefixes; exists_ := exists_; data_list := [] |}.

(** *** [sector_hits] (lines 110-134) *)

(** What the method returns: the table itself when [n_sectors == 1], the
    pair [(extended_sector, measurements)] otherwise. *)
Inductive sector_return : Type :=
| Table (hits : DataFrame)
| Pair (extended_sector : DataFrame) (measurements : dict R).

(** Lines 115-116, for one hit. *)
Definition rotated_u (theta u v : R) : R := u * cos theta - v * sin theta.
Definition rotated_v (theta u v : R) : R := u * sin theta + v * cos theta.

(** Lines 118-122, for one hit. *)
Definition in_extended_sector (ds di slope ur vr : R) : bool :=
  (Rgtb vr (- ds * slope * ur - di) && Rltb vr (ds * slope * ur + di)
   && Rgtb ur 0)%bool.

(** Lines 126-128, for one hit. *)
Definition in_sector (slope ur vr : R) : bool :=
  (Rgtb vr (- slope * ur) && Rltb vr (slope * ur) && Rgeb ur 0)%bool.

(** Lines 125-133.  The two sub-tables by momentum are built and dropped;
    building them reads the column [pt]. *)
Definition measure (self : builder) (hits extended_sector : DataFrame)
    (slope : R) (ur vr : list R) : result (dict R) :=
  if measurement_mode self then
    let sector :=
      filter_rows (map (fun p => in_sector slope (fst p) (snd p)) (combine ur vr))
        hits in
    _ <- getattr sector "pt" ;;
    _ <- getattr sector "pt" ;;
    if (nrows sector =? 0)%nat then Raise ZeroDivisionError
    else
      Ok [ ("sector_size"%string, INR (nrows sector));
           ("extended_sector_size"%string, INR (nrows extended_sector));
           ("sector_size_ratio"%string,
            INR (nrows extended_sector) / INR (nrows sector)) ]
  else Ok [].

(** The method assigns the columns [ur] and [vr] of the table it is given:
    the table after the call is the first component of the result, also
    when the call raises. *)
Definition sector_hits (self : builder) (hits : DataFrame) (s : Z)
  : DataFrame * result sector_return :=
  if (n_sectors self =? 1)%Z then (hits, Ok (Table hits))
  else if (n_sectors self =? 0)%Z then (hits, Raise ZeroDivisionError)
  else
    let theta := IZR s * 2 * PI / IZR (n_sectors self) in
    let slope := atan theta in
    match get hits "u", get hits "v" with
    | None, _ => (hits, Raise (KeyError "u"))
    | Some _, None => (hits, Raise (KeyError "v"))
    | Some u, Some v =>
        let ur := map (fun p => rotated_u theta (fst p) (snd p)) (combine u v) in
        let hits1 := setitem hits "ur" ur in
        let vr := map (fun p => rotated_v theta (fst p) (snd p)) (combine u v) in
        let hits2 := setitem hits1 "vr" vr in
        let extended_sector :=
          filter_rows
            (map (fun p => in_extended_sector (sector_ds self) (sector_di self)
                             slope (fst p) (snd p))
                 (combine ur vr))
            hits2 in
        (hits2,
         measurements <- measure self hits2 extended_sector slope ur vr ;;
         Ok (Pair extended_sector measurements))
    end.

(** *** [to_pyg_data] (lines 136-142)

    [hits[self.feature_names].values / self.feature_scale] with one scale
    per feature; a scale vector of another length is the [ValueError]
    case (numpy's broadcasting of a length-one operand is left out). *)
Fixpoint scale_columns (cols : list (list R)) (scale : list R)
  : result (list (list R)) :=
  match cols, scale with
  | [], [] => Ok []
  | c :: cols', k :: scale' =>
      rest <- scale_columns cols' scale' ;;
      Ok (map (fun v => v / k) c :: rest)
  | _, _ => Raise ValueError
  end.

Definition to_pyg_data (self : builder) (hits : DataFrame) : result Data :=
  cols <- mapM (getitem hits) (feature_names self) ;;
  x <- scale_columns cols (feature_scale self) ;;
  particle_id <- getitem hits "particle_id" ;;
  pt <- getitem hits "pt" ;;
  Ok {| x := x; particle_id := particle_id; pt := pt |}.

(** *** The loop over the sectors in [process] (lines 160-172) *)

(** What the loop reads and changes: the hit table of the event, the files
    of the output directory, [self.data_list] and the running count. *)
Record sector_loop_state : Type := {
  hits_table : DataFrame;
  files : dict Data;
  loaded : list Data;
  sector_hit_count : nat
}.

(** [torch.load(path)] *)
Definition torch_load (fs : dict Data) (path : string) : result Data :=
  match get fs path with
  | Some d => Ok d
  | None => Raise (FileNotFoundError path)
  end.

(** [sector, measurements = self.sector_hits(hits, s)].  A returned table
    is iterated over its column labels: with exactly two columns the two
    names are bound to two strings, and [to_pyg_data] then indexes a
    string with a list; with any other number the unpacking itself
    fails. *)
Definition unpack_pair (r : sector_return) : result (DataFrame * dict R) :=
  match r with
  | Pair extended_sector measurements => Ok (extended_sector, measurements)
  | Table [_; _] => Raise TypeError
  | Table _ => Raise ValueError
  end.

(** [self.exists[evtid] and not self.redo] *)
Definition use_cached (self : builder) (evtid : Z) : result bool :=
  cached <- int_getitem (exists_ self) evtid ;;
  Ok (cached && negb (redo self))%bool.

(** The body of the loop for one sector [s]. *)
Definition process_sector (self : builder) (evtid s : Z)
    (st : sector_loop_state) : result sector_loop_state :=
  let name := artifact_name evtid s in
  cached <- use_cached self evtid ;;
  if cached then
    data <- torch_load (files st) (path_join (outdir self) name) ;;
    Ok {| hits_table := hits_table st; files := files st;
          loaded := loaded st ++ [data];
          sector_hit_count := sector_hit_count st |}
  else
    let '(hits', ret) := sector_hits self (hits_table st) s in
    ret <- ret ;;
    ' (sector, measurements) <- unpack_pair ret ;;
    let count := (sector_hit_count st + nrows sector)%nat in
    sector <- to_pyg_data self sector ;;
    let outfile := path_join (outdir self) name in
    Ok {| hits_table := hits'; files := setitem (files st) outfile sector;
          loaded := loaded st ++ [sector];
          sector_hit_count := count |}.

(** [range(n)] *)
Definition range (n : Z) : list Z := map Z.of_nat (seq 0 (Z.to_nat n)).

Fixpoint process_sectors (self : builder) (evtid : Z) (sectors : list Z)
    (st : sector_loop_state) : result sector_loop_state :=
  match sectors with
  | [] => Ok st
  | s :: rest =>
      st' <- process_sector self evtid s st ;;
      process_sectors self evtid rest st'
  end.

(** Lines 159-172 for one event: the augmented hit table [hits], the
    files [fs] of the output directory. *)
Definition process_event_sectors (self : builder) (evtid : Z)
    (hits : DataFrame) (fs : dict Data) : result sector_loop_state :=
  process_sectors self evtid (range (n_sectors self))
    {| hits_table := hits; files := fs; loaded := data_list self;
       sector_hit_count := 0 |}.

(** *** [restrict_to_pixel] (lines 70-83) *)

Definition pixel_barrel : list (Z * Z) := [(8, 2); (8, 4); (8, 6); (8, 8)]%Z.
Definition pixel_LEC : list (Z * Z) :=
  [(7, 14); (7, 12); (7, 10); (7, 8); (7, 6); (7, 4); (7, 2)]%Z.
Definition pixel_REC : list (Z * Z) :=
  [(9, 2); (9, 4); (9, 6); (9, 8); (9, 10); (9, 12); (9, 14)]%Z.
Definition pixel_layers : list (Z * Z) := pixel_barrel ++ pixel_REC ++ pixel_LEC.
Definition n_layers : nat := List.length pixel_layers.

(** [x == y] on numbers. *)
Definition Reqb (x y : R) : bool := if Req_dec_T x y then true else false.

(** [str((volume, layer))], the argument of the [KeyError] of a missing
    group. *)
Definition group_name (g : Z * Z) : string :=
  String.append "("
    (String.append (str_of_int (fst g))
       (String.append ", " (String.append (str_of_int (snd g)) ")"))).

(** The rows of the group [g] of [hits.groupby(["volume_id", "layer_id"])]. *)
Definition group_mask (volume_id layer_id : list R) (g : Z * Z) : list bool :=
  map (fun p => Reqb (fst p) (IZR (fst g)) && Reqb (snd p) (IZR (snd g)))%bool
      (combine volume_id layer_id).

(** [hit_layer_groups.get_group(g)]: a group exists when it has a row. *)
Definition get_group (hits : DataFrame) (volume_id layer_id : list R)
    (g : Z * Z) : result DataFrame :=
  let mask := group_mask volume_id layer_id g in
  if existsb (fun b : bool => b) mask then Ok (filter_rows mask hits)
  else Raise (KeyError (group_name g)).

(** [df.assign(layer=i)] *)
Definition assign_layer (df : DataFrame) (i : nat) : DataFrame :=
  setitem df "layer" (repeat (INR i) (nrows df)).

(** The values of a column; no value for a column the frame lacks. *)
Definition column (df : DataFrame) (name : string) : list R :=
  match get df name with
  | Some c => c
  | None => []
  end.

(** [pd.concat(frames)] for frames that have the same columns: the rows
    of the frames, one frame after the other. *)
Definition concat (frames : list DataFrame) : result DataFrame :=
  match frames with
  | [] => Raise ValueError
  | first :: _ =>
      Ok (map (fun kc => (fst kc, flat_map (fun f => column f (fst kc)) frames))
              first)
  end.

(** [groupby] looks up its two key columns at once; each [get_group] of
    the comprehension may raise. *)
Definition restrict_to_pixel (hits : DataFrame) : result DataFrame :=
  volume_id <- getitem hits "volume_id" ;;
  layer_id <- getitem hits "layer_id" ;;
  frames <- mapM (fun i =>
                    group <- get_group hits volume_id layer_id
                               (nth i pixel_layers (0, 0)%Z) ;;
                    Ok (assign_layer group i))
                 (seq 0 n_layers) ;;
  concat frames.

(** Line 149: [int(f[-9:])]. *)
Definition event_id (f : string) : result Z := int_of_str (last_chars 9 f).

End PointCloudBuilder.

(* ================================================================== *)
(** ** Concrete inputs *)
(* ================================================================== *)

(** A small bundle, a small configuration and stand-ins for the external
    collaborators, on which the methods above can be run. *)
Module Sample.
Import Py TCNTrainer.

(** Three hits and two edges; the entries are the ones [evaluate_model]
    writes (lines 140-161). *)
Definition edges : list (Z * Z) := [(0, 1); (1, 2)]%Z.
Definition pt : list Q := [2; 1 # 2; 1 # 2]%Q.

Definition bundle : model_output :=
  [ ("w", TFloat [9 # 10; 2 # 10]);
    ("x", TMatrix [[0; 1]; [1; 0]; [1; 1]]);
    ("beta", TFloat [1 # 2; 1 # 4; 1 # 4]);
    ("pred", TNone);
    ("ec_hit_mask", TBool [true; true; true]);
    ("ec_edge_mask", TBool [true; true]);
    ("y", TLong [1; 0]%Z);
    ("particle_id", TLong [7; 7; 0]%Z);
    ("track_params", TFloat pt);
    ("pt", TFloat pt);
    ("reconstructable", TLong [1; 1; 0]%Z);
    ("edge_index", TEdges edges);
    ("sector", TLong [0; 0; 0]%Z);
    ("node_features", TMatrix [[1; 0; 3]; [2; 0; 3]; [3; 0; 3]]);
    ("batch", TLong [0; 0; 0]%Z) ]%string.

(** The same bundle with other scores and labels on the second edge. *)
Definition bundle' : model_output :=
  setitem (setitem bundle "w" (TFloat [9 # 10; 7 # 10])) "y" (TLong [1; 1]%Z).

Fixpoint float_of_nat (n : nat) : float :=
  match n with
  | O => 0%float
  | S k => PrimFloat.add 1%float (float_of_nat k)
  end.

(** Stand-ins for the metric functions: they report how many edges they
    were given. *)
Definition count_stats (predicted : list Q) (true : list Z) (thld : Q)
  : result (dict float) :=
  Ok [("n_edges"%string, float_of_nat (List.length predicted))].

Definition count_maximized (predicted : list Q) (true : list Z)
  : result (dict float) :=
  Ok [("n_labels"%string, float_of_nat (List.length true))].

Definition half_auc (true : list Z) (predicted : list Q) (max_fpr : option Q)
  : result float :=
  Ok 0.5%float.

Definition tag_pt (k : string) (pt_min : Q) : string :=
  String.append k
    (String.append "_pt"
       (String.append (str_of_int (Qnum pt_min))
          (String.append "/" (str_of_int (Zpos (Qden pt_min)))))).

(** Three loss functions, one of each shape. *)
Definition loss_functions : dict (loss_function * loss_returns float) :=
  [ ("potential", (fun _ => Ok (LScalar 2%float), LScalar 3%float));
    ("background", (fun _ => Ok (LList [1%float; 0.5%float]),
                    LList [2%float; 4%float]));
    ("edge", (fun _ => Ok (LDict [("attractive", 1.5%float);
                                  ("repulsive", 0.25%float)]),
              LDict [("attractive", 2%float)])) ]%string.

(** Two loss functions whose unpacked keys collide: the list of ["a"]
    unpacks to ["a_0"], the name of the second function. *)
Definition colliding_losses : dict (loss_function * loss_returns float) :=
  [ ("a", (fun _ => Ok (LList [1%float]), LList [1%float]));
    ("a_0", (fun _ => Ok (LScalar 2%float), LScalar 1%float)) ]%string.

(** A clustering function that skips, and one that reports. *)
Definition skipping : cluster_function float := fun _ _ _ => Ok None.

Definition reporting : cluster_function float :=
  fun _ _ _ =>
    Ok (Some {| metrics := [("v_measure"%string, 0.75%float)];
                best_params := [("eps"%string, 0.5%float)] |}).

(** The trainer as [__init__] leaves it (lines 88-108). *)
Definition trainer_with
    (lf : dict (loss_function * loss_returns float)) : trainer :=
  {| TCNTrainer.loss_functions := lf;
     clustering_functions :=
       [("skip"%string, skipping); ("dbscan"%string, reporting)];
     max_batches_for_clustering := 10;
     ec_eval_pt_thlds := [9 # 10; 15 # 10];
     ec_threshold := 1 # 2;
     _epoch := 0 |}.

Definition self : trainer := trainer_with loss_functions.

(** A loss that overflowed, and one that is not a number. *)
Definition infinite_loss : dict (loss_function * loss_returns float) :=
  [("potential"%string, (fun _ => Ok (LScalar infinity), LScalar 1%float))].

Definition nan_loss : dict (loss_function * loss_returns float) :=
  [("potential"%string, (fun _ => Ok (LScalar nan), LScalar 1%float))].

(** A loader of [n] batches and a model that answers [bundle] on each. *)
Definition loader (n : nat) : list nat := seq 0 n.

Definition evaluate_model (data : nat) (mask_pids_reco : bool)
  : result model_output := Ok bundle.

Definition required_model_outputs : dict string :=
  [("x", "data"); ("particle_id", "labels")]%string.

Definition test_step_accumulate (t : trainer) (max_batches : option Z)
    (batches : option (list nat)) :=
  TCNTrainer.test_step_accumulate evaluate_model
    (@unpack_loss_returns float) count_stats count_maximized half_auc tag_pt
    required_model_outputs t max_batches batches.

(** One event with two hits, given by their conformal coordinates
    [(u, v)]: hit A at [(-1, -1/2)] and hit B at [(1, 0)]. *)
Definition hits : PointCloudBuilder.DataFrame :=
  [ ("u", [-1; 1]); ("v", [-1 / 2; 0]);
    ("particle_id", [7; 0]); ("pt", [2; 0]) ]%string%R.

Definition infiles : list string :=
  [ "event000000005-hits.csv.gz"; "event000000005-particles.csv.gz";
    "event000000005-truth.csv.gz" ]%string.

(** [PointCloudBuilder(outdir="out", indir="in", n_sectors=..., redo=...,
    feature_names=["u", "v"], feature_scale=[1, 1])], the other arguments
    at their defaults, when [outdir] holds the files [outfiles]. *)
Definition new_builder (n_sectors : Z) (redo : bool) (outfiles : list string)
  : result PointCloudBuilder.builder :=
  PointCloudBuilder.__init__ outfiles infiles "out" "in" n_sectors redo false
    (1 / 10000)%R (11 / 10)%R ["u"; "v"]%string [1; 1]%R false (1 / 2)%R false.

Definition builder (n_sectors : Z) (redo : bool) (outfiles : list string)
  : PointCloudBuilder.builder :=
  {| PointCloudBuilder.outdir := "out";
     PointCloudBuilder.indir := "in";
     PointCloudBuilder.n_sectors := n_sectors;
     PointCloudBuilder.redo := redo;
     PointCloudBuilder.pixel_only := false;
     PointCloudBuilder.sector_di := (1 / 10000)%R;
     PointCloudBuilder.sector_ds := (11 / 10)%R;
     PointCloudBuilder.feature_names := ["u"; "v"]%string;
     PointCloudBuilder.feature_scale := [1; 1]%R;
     PointCloudBuilder.measurement_mode := false;
     PointCloudBuilder.thld := (1 / 2)%R;
     PointCloudBuilder.remove_noise := false;
     PointCloudBuilder.stats := [];
     PointCloudBuilder.prefixes := ["in/event000000005"%string];
     PointCloudBuilder.exists_ :=
       [(5%Z, PointCloudBuilder.listed "data5_s0.pt" outfiles)];
     PointCloudBuilder.data_list := [] |}.

(** An artifact that an earlier run may have left in [outdir]. *)
Definition artifact : PointCloudBuilder.Data :=
  {| PointCloudBuilder.x := [[-1]; [-1 / 2]]%R;
     PointCloudBuilder.particle_id := [7%R];
     PointCloudBuilder.pt := [2%R] |}.

(** A batch of three hits and two edges, a model that answers with edge
    weights, clustering coordinates, condensation likelihoods and one
    output of its own, and the [torch] operations on the one-dimensional
    tensors that occur here. *)
Definition graph : graph_batch :=
  {| particle_id := Some (TLong [7; 7; 9]%Z);
     reconstructable := Some (TBool [true; true; false]);
     TCNTrainer.pt := Some (TFloat pt);
     y := TLong [1; 0]%Z;
     edge_index := TEdges edges;
     sector := Some (TLong [0; 0; 0]%Z);
     x := TMatrix [[1; 0; 3]; [2; 0; 3]; [3; 0; 3]];
     batch := TLong [0; 0; 0]%Z |}.

Definition model (data : graph_batch) : result (dict tensor) :=
  Ok [ ("W", TFloat [9 # 10; 2 # 10]);
       ("H", TMatrix [[0; 1]; [1; 0]; [1; 1]]);
       ("B", TFloat [1 # 2; 1 # 4; 1 # 4]);
       ("attention", TFloat [1; 1]) ]%string.

(** The same model without edge weights. *)
Definition model_without_W (data : graph_batch) : result (dict tensor) :=
  Ok [ ("H", TMatrix [[0; 1]; [1; 0]; [1; 1]]);
       ("B", TFloat [1 # 2; 1 # 4; 1 # 4]) ]%string.

Definition tensor_long (t : tensor) : result tensor :=
  match t with
  | TFloat v => Ok (TLong (map Qtrunc v))
  | TLong v => Ok (TLong v)
  | TBool v => Ok (TLong (map (fun b : bool => if b then 1%Z else 0%Z) v))
  | TNone => Raise AttributeError
  | _ => Raise TypeError
  end.

Definition tensor_bool (t : tensor) : result tensor :=
  match t with
  | TFloat v => Ok (TBool (map (fun q => negb (Qeq_bool q 0)) v))
  | TLong v => Ok (TBool (map (fun z => negb (z =? 0)%Z) v))
  | TBool v => Ok (TBool v)
  | TNone => Raise AttributeError
  | _ => Raise TypeError
  end.

Fixpoint mul_long (a b : list Z) : list Z :=
  match a, b with
  | x :: a', y :: b' => (x * y)%Z :: mul_long a' b'
  | _, _ => []
  end.

Definition tensor_mul (a b : tensor) : result tensor :=
  match a, b with
  | TLong u, TLong v =>
      if (List.length u =? List.length v)%nat then Ok (TLong (mul_long u v))
      else Raise (RuntimeError "size mismatch")
  | _, _ => Raise TypeError
  end.

Definition full_like_true (t : tensor) : result tensor :=
  match t with
  | TFloat v => Ok (TFloat (map (fun _ => 1%Q) v))
  | TLong v => Ok (TLong (map (fun _ => 1%Z) v))
  | TBool v => Ok (TBool (map (fun _ => true) v))
  | _ => Raise TypeError
  end.

Definition normalize (m : graph_batch -> result (dict tensor))
    (data : graph_batch) (mask_pids_reco : bool) : result (dict tensor) :=
  TCNTrainer.evaluate_model m tensor_long tensor_bool tensor_mul full_like_true
    data mask_pids_reco.

(** The builder of two sectors with [measurement_mode=True]. *)
Definition measuring_builder : PointCloudBuilder.builder :=
  {| PointCloudBuilder.outdir := "out";
     PointCloudBuilder.indir := "in";
     PointCloudBuilder.n_sectors := 2;
     PointCloudBuilder.redo := true;
     PointCloudBuilder.pixel_only := false;
     PointCloudBuilder.sector_di := (1 / 10000)%R;
     PointCloudBuilder.sector_ds := (11 / 10)%R;
     PointCloudBuilder.feature_names := ["u"; "v"]%string;
     PointCloudBuilder.feature_scale := [1; 1]%R;
     PointCloudBuilder.measurement_mode := true;
     PointCloudBuilder.thld := (1 / 2)%R;
     PointCloudBuilder.remove_noise := false;
     PointCloudBuilder.stats := [];
     PointCloudBuilder.prefixes := ["in/event000000005"%string];
     PointCloudBuilder.exists_ := [(5%Z, false)];
     PointCloudBuilder.data_list := [] |}.

(** The directory [out] with the artifacts of both sectors of event 5,
    and the state of the sector loop after it has loaded them. *)
Definition both_artifacts : dict PointCloudBuilder.Data :=
  [ ("out/data5_s0.pt", artifact); ("out/data5_s1.pt", artifact) ]%string.

Definition loaded_state : PointCloudBuilder.sector_loop_state :=
  {| PointCloudBuilder.hits_table := hits;
     PointCloudBuilder.files := both_artifacts;
     PointCloudBuilder.loaded := [artifact; artifact];
     PointCloudBuilder.sector_hit_count := 0 |}.

(** Two hits, on the first two layers of the pixel barrel. *)
Definition barrel_hits : PointCloudBuilder.DataFrame :=
  [ ("hit_id", [1; 2]); ("volume_id", [8; 8]); ("layer_id", [2; 4]) ]%string%R.

(** One hit on each of the 18 pixel layers and one hit on a strip layer. *)
Definition pixel_hits : PointCloudBuilder.DataFrame :=
  [ ("hit_id",
     [1; 2; 3; 4; 5; 6; 7; 8; 9; 10; 11; 12; 13; 14; 15; 16; 17; 18; 19]);
    ("volume_id",
     [7; 7; 7; 7; 7; 7; 7; 8; 8; 8; 8; 9; 9; 9; 9; 9; 9; 9; 13]);
    ("layer_id",
     [2; 4; 6; 8; 10; 12; 14; 2; 4; 6; 8; 2; 4; 6; 8; 10; 12; 14; 2])
  ]%string%R.

End Sample.

(* ================================================================== *)
(** * Part II: properties *)
(* ================================================================== *)

Section TrainingStep.
Import Py TCNTrainer.
Variable L : Type.

(** Is this outcome of the [try] block an out-of-memory failure? *)
Definition oom_failure (body : result L) : bool :=
  match body with
  | Raise (RuntimeError msg) => is_oom msg
  | _ => false
  end.

Definition succeeded (body : result L) : bool :=
  match body with
  | Ok _ => true
  | Raise _ => false
  end.

(** The calls made since the last successful one (all of them, if none
    has succeeded). *)
Fixpoint since_last_success (history : list (result L)) : list (result L) :=
  match history with
  | [] => []
  | b :: rest =>
      if existsb succeeded rest then since_last_success rest
      else if succeeded b then rest
      else b :: rest
  end.

(** The number of out-of-memory failures among them. *)
Definition ooms_since_success (history : list (result L)) : nat :=
  List.length (filter oom_failure (since_last_success history)).

Lemma since_last_success_none (history : list (result L)) :
  existsb succeeded history = false -> since_last_success history = history.
Proof.
  induction history as [|b rest IH]; cbn [existsb since_last_success];
    [reflexivity|].
  intros H. apply orb_false_iff in H. destruct H as [Hb Hrest].
  now rewrite Hrest, Hb.
Qed.

Lemma training_step_counter (st : step_state) (body : result L) :
  n_oom_errors_in_a_row (fst (training_step st body)) =
  if succeeded body then 0%Z
  else if oom_failure body then (n_oom_errors_in_a_row st + 1)%Z
  else n_oom_errors_in_a_row st.
Proof.
  unfold training_step. destruct body as [loss|e]; [reflexivity|].
  destruct e; try reflexivity. cbn [succeeded oom_failure].
  destruct (is_oom msg); [|reflexivity].
  cbn [n_oom_errors_in_a_row]. now destruct (_ >? 10)%Z.
Qed.

Lemma training_steps_counter (history : list (result L)) :
  forall st0 : step_state,
    n_oom_errors_in_a_row (fst (training_steps st0 history)) =
    ((if existsb succeeded history then 0 else n_oom_errors_in_a_row st0)
     + Z.of_nat (ooms_since_success history))%Z.
Proof.
  unfold ooms_since_success.
  induction history as [|b rest IH]; intros st0;
    cbn [training_steps existsb since_last_success].
  - cbn. lia.
  - pose proof (training_step_counter st0 b) as Hb.
    destruct (training_step st0 b) as [st1 o]. cbn [fst] in Hb.
    specialize (IH st1).
    destruct (training_steps st1 rest) as [st2 os]. cbn [fst] in *.
    rewrite IH, Hb.
    destruct (existsb succeeded rest) eqn:Hrest.
    + now rewrite orb_true_r.
    + rewrite orb_false_r, (since_last_success_none rest Hrest).
      destruct (succeeded b) eqn:Hs; [reflexivity|].
      cbn [filter]. destruct (oom_failure b); cbn [List.length]; lia.
Qed.

(** C2, as the code has it.  For every sequence of calls on one trainer
    and the call that follows it:
    (a) the counter is the number of out-of-memory failures since the
        last successful call - since the start, on top of what the
        counter then was, if no call has succeeded; failures of another
        kind lie between them without resetting it;
    (b) a successful call returns its loss and sets the counter to zero;
    (c) a call whose body fails with an out-of-memory [RuntimeError]
        counts itself, emits the warning, and returns [None] if the
        counter is then at most 10 and re-raises its error otherwise;
    (d) any other failure is re-raised by the call in which it occurs,
        which leaves the counter and the log as they were. *)
Theorem C2_training_step_oom_policy
    (st0 : step_state) (history : list (result L)) (body : result L) :
  let st := fst (training_steps st0 history) in
  let count :=
    ((if existsb succeeded history then 0 else n_oom_errors_in_a_row st0)
     + Z.of_nat (ooms_since_success history))%Z in
  n_oom_errors_in_a_row st = count /\
  match body with
  | Ok loss =>
      training_step st body =
      ({| n_oom_errors_in_a_row := 0; warnings := warnings st |},
       Returned loss)
  | Raise e =>
      if oom_failure body then
        training_step st body =
        ({| n_oom_errors_in_a_row := count + 1;
            warnings := warnings st ++ [oom_warning] |},
         if (count + 1 <=? 10)%Z then ReturnedNone else Raised e)
      else training_step st body = (st, Raised e)
  end.
Proof.
  cbn zeta. pose proof (training_steps_counter history st0) as Hc.
  split; [exact Hc|].
  destruct body as [loss|e]; [reflexivity|].
  unfold training_step, oom_failure.
  destruct e; try reflexivity.
  destruct (is_oom msg); [|reflexivity].
  cbn [n_oom_errors_in_a_row]. rewrite Hc.
  rewrite Z.gtb_ltb, Z.ltb_antisym.
  now destruct (_ <=? 10)%Z.
Qed.

End TrainingStep.
Arguments oom_failure {L} body.
Arguments succeeded {L} body.
Arguments since_last_success {L} history.
Arguments ooms_since_success {L} history.

(** C2 on a fresh trainer: after a success and ten out-of-memory
    failures, with a shape error in between, the eleventh out-of-memory
    failure is re-raised; after nine, the tenth is swallowed. *)
Lemma C2_training_step_oom_policy_witness :
  let oom := Py.Raise (Py.RuntimeError "CUDA out of memory. Tried to allocate 2.00 GiB") in
  let other := Py.Raise (Py.RuntimeError "shape mismatch") in
  let nine := Py.Ok 1%Z :: repeat oom 4 ++ other :: repeat oom 5 in
  let ten := nine ++ [oom] in
  snd (TCNTrainer.training_step
         (fst (TCNTrainer.training_steps TCNTrainer.init_step_state nine)) oom) =
    TCNTrainer.ReturnedNone /\
  snd (TCNTrainer.training_step
         (fst (TCNTrainer.training_steps TCNTrainer.init_step_state ten)) oom) =
    TCNTrainer.Raised
      (Py.RuntimeError "CUDA out of memory. Tried to allocate 2.00 GiB").
Proof.
  cbn zeta.
  set (oom := Py.Raise (Py.RuntimeError "CUDA out of memory. Tried to allocate 2.00 GiB")).
  set (other := Py.Raise (Py.RuntimeError "shape mismatch")).
  set (nine := Py.Ok 1%Z :: repeat oom 4 ++ other :: repeat oom 5).
  split.
  - destruct (C2_training_step_oom_policy Z TCNTrainer.init_step_state
                nine oom) as [_ H].
    change (@oom_failure Z oom) with true in H. cbv iota in H.
    rewrite H. reflexivity.
  - destruct (C2_training_step_oom_policy Z TCNTrainer.init_step_state
                (nine ++ [oom]) oom) as [_ H].
    change (@oom_failure Z oom) with true in H. cbv iota in H.
    rewrite H. reflexivity.
Defined.

(** C2 as stated fails: the counter is not reset by a failure of another
    kind, so "consecutive" is not what it counts.  On a fresh trainer,
    after five out-of-memory failures and a shape error, only five more
    out-of-memory failures are swallowed: the sixth consecutive one is
    re-raised. *)
Lemma C2_sixth_consecutive_oom_is_raised :
  let oom := Py.Raise (Py.RuntimeError "CUDA out of memory") in
  let other := Py.Raise (Py.RuntimeError "shape mismatch") in
  snd (TCNTrainer.training_steps TCNTrainer.init_step_state
         (repeat oom 5 ++ [other] ++ repeat oom 6)) =
  repeat TCNTrainer.ReturnedNone 5
  ++ [@TCNTrainer.Raised Z (Py.RuntimeError "shape mismatch")]
  ++ repeat TCNTrainer.ReturnedNone 5
  ++ [TCNTrainer.Raised (Py.RuntimeError "CUDA out of memory")].
Proof.
  vm_compute. reflexivity.
Qed.

(** ** Dictionaries *)
Section DictFacts.
Import Py.
Variable V : Type.

Lemma get_setitem (d : dict V) (k k' : string) (v : V) :
  get (setitem d k v) k' = if String.eqb k k' then Some v else get d k'.
Proof.
  induction d as [|[k0 v0] d IH]; simpl.
  - reflexivity.
  - destruct (String.eqb_spec k0 k) as [->|Hne]; simpl.
    + destruct (String.eqb k k'); reflexivity.
    + rewrite IH. destruct (String.eqb_spec k0 k') as [->|Hne'].
      * destruct (String.eqb_spec k k') as [->|_]; [congruence|reflexivity].
      * reflexivity.
Qed.

Lemma get_None_iff (d : dict V) (k : string) :
  get d k = None <-> ~ In k (keys d).
Proof.
  induction d as [|[k0 v0] d IH]; simpl.
  - tauto.
  - destruct (String.eqb_spec k0 k) as [->|Hne].
    + split; [discriminate|tauto].
    + rewrite IH. tauto.
Qed.

Lemma setitem_fresh (d : dict V) (k : string) (v : V) :
  ~ In k (keys d) -> setitem d k v = d ++ [(k, v)].
Proof.
  induction d as [|[k0 v0] d IH]; simpl; intros Hk.
  - reflexivity.
  - destruct (String.eqb_spec k0 k) as [->|Hne]; [tauto|].
    rewrite IH by tauto. reflexivity.
Qed.

Lemma update_fresh (e d : dict V) :
  NoDup (keys (d ++ e)) -> update d e = d ++ e.
Proof.
  unfold update. revert d.
  induction e as [|[k v] e IH]; intros d Hnd; simpl.
  - now rewrite app_nil_r.
  - assert (Hk : ~ In k (keys d)).
    { unfold keys in *. rewrite map_app in Hnd. simpl in Hnd.
      apply NoDup_remove_2 in Hnd. intros Hin. apply Hnd.
      apply in_or_app. now left. }
    rewrite (setitem_fresh d k v Hk).
    rewrite IH.
    + now rewrite <- app_assoc.
    + now rewrite <- app_assoc.
Qed.

Lemma keys_setitem_in (d : dict V) (k k' : string) (v : V) :
  In k' (keys (setitem d k v)) <-> k' = k \/ In k' (keys d).
Proof.
  induction d as [|[k0 v0] d IH]; simpl.
  - intuition congruence.
  - destruct (String.eqb_spec k0 k) as [->|Hne]; simpl.
    + intuition congruence.
    + rewrite IH. intuition congruence.
Qed.

Lemma get_app (d e : dict V) (k : string) :
  get (d ++ e) k =
  match get d k with
  | Some v => Some v
  | None => get e k
  end.
Proof.
  induction d as [|[k0 v0] d IH]; cbn [app get]; [reflexivity|].
  destruct (String.eqb k0 k); [reflexivity|exact IH].
Qed.

(** After [d.update(e)] a key has the last value [e] gives it, and the
    value it had in [d] if [e] gives none. *)
Lemma get_update_last (e d : dict V) (k : string) :
  get (update d e) k =
  match get (rev e) k with
  | Some v => Some v
  | None => get d k
  end.
Proof.
  unfold update. revert d.
  induction e as [|[k0 v0] e IH]; intros d; cbn [fold_left rev fst snd].
  - reflexivity.
  - rewrite IH, get_app, get_setitem. cbn [get].
    destruct (get (rev e) k); [reflexivity|].
    destruct (String.eqb k0 k); reflexivity.
Qed.

Lemma wf_setitem (d : dict V) (k : string) (v : V) :
  wf d -> wf (setitem d k v).
Proof.
  unfold wf. induction d as [|[k0 v0] d IH]; cbn [setitem keys map fst];
    intros Hnd.
  - constructor; [intros []|constructor].
  - inversion Hnd as [|? ? Hnot Hnd']; subst.
    destruct (String.eqb_spec k0 k) as [->|Hne]; cbn [keys map fst].
    + now constructor.
    + constructor; [|now apply IH].
      intros Hin. apply keys_setitem_in in Hin.
      destruct Hin as [->|Hin]; [now apply Hne|now apply Hnot].
Qed.

Lemma wf_update (e d : dict V) : wf d -> wf (update d e).
Proof.
  unfold update. revert d.
  induction e as [|[k0 v0] e IH]; intros d Hd; cbn [fold_left fst snd];
    [exact Hd|].
  apply IH. now apply wf_setitem.
Qed.

End DictFacts.

(** ** The loss aggregator *)
Section LossAggregator.
Import Py TCNTrainer.

Variable unpack : string -> loss_returns float -> dict float.

(** The weight a sub-loss key gets: the one specified for it, else 1.0. *)
Definition weight_of (weights : dict float) (k : string) : float :=
  match get weights k with
  | Some w => w
  | None => 1%float
  end.

(** The total the claim describes: from 0, the sub-losses in their order,
    each times its weight. *)
Definition weighted_total (weights : dict float) (subs : dict float) : float :=
  fold_left
    (fun acc kv => PrimFloat.add acc (PrimFloat.mul (weight_of weights (fst kv)) (snd kv)))
    subs 0%float.

(** What the loss functions of a configuration return on a bundle, in the
    order of the configuration. *)
Definition loss_results (fns : dict (loss_function * loss_returns float))
    (mo : model_output) : result (list (string * loss_returns float)) :=
  mapM (fun kf => r <- fst (snd kf) mo ;; Ok (fst kf, r)) fns.

(** All unpacked sub-losses, and all unpacked weights. *)
Definition unpacked_losses (rets : list (string * loss_returns float)) : dict float :=
  flat_map (fun kr => unpack (fst kr) (snd kr)) rets.

Definition specified_weights (fns : dict (loss_function * loss_returns float))
  : dict float :=
  fold_left (fun w kf => update w (unpack (fst kf) (snd (snd kf)))) fns [].

Lemma weights_getitem_weight_of (weights : dict float) (k : string) :
  snd (weights_getitem weights k) = weight_of weights k /\
  forall k', weight_of (fst (weights_getitem weights k)) k' = weight_of weights k'.
Proof.
  unfold weights_getitem, weight_of.
  destruct (get weights k) as [w|] eqn:Hk; simpl.
  - split; [reflexivity|]. intros k'. reflexivity.
  - split; [reflexivity|]. intros k'. rewrite get_setitem.
    destruct (String.eqb_spec k k') as [<-|_]; [now rewrite Hk|reflexivity].
Qed.

Lemma weighted_fold_ext (w w' : dict float) :
  (forall k, weight_of w' k = weight_of w k) ->
  forall (losses : dict float) (acc : float),
    fold_left
      (fun acc kv =>
         PrimFloat.add acc (PrimFloat.mul (weight_of w' (fst kv)) (snd kv)))
      losses acc =
    fold_left
      (fun acc kv =>
         PrimFloat.add acc (PrimFloat.mul (weight_of w (fst kv)) (snd kv)))
      losses acc.
Proof.
  intros H losses. induction losses as [|[k l] losses IH]; intros acc; simpl.
  - reflexivity.
  - now rewrite IH, H.
Qed.

Lemma weighted_sum_spec (losses : dict float) :
  forall (weights : dict float) (acc : float),
    snd (weighted_sum losses weights acc) =
    fold_left
      (fun acc kv =>
         PrimFloat.add acc (PrimFloat.mul (weight_of weights (fst kv)) (snd kv)))
      losses acc.
Proof.
  induction losses as [|[k l] losses IH]; intros weights acc; simpl.
  - reflexivity.
  - destruct (weights_getitem_weight_of weights k) as [Hw Hrest].
    destruct (weights_getitem weights k) as [weights' w]; simpl in *.
    rewrite IH, Hw.
    apply weighted_fold_ext. exact Hrest.
Qed.

Lemma collect_losses_spec (mo : model_output)
    (fns : dict (loss_function * loss_returns float)) :
  forall (rets : list (string * loss_returns float)) (losses weights : dict float),
    loss_results fns mo = Ok rets ->
    collect_losses unpack mo fns losses weights =
    Ok (fold_left (fun l kr => update l (unpack (fst kr) (snd kr))) rets losses,
        fold_left (fun w kf => update w (unpack (fst kf) (snd (snd kf)))) fns weights).
Proof.
  unfold loss_results.
  induction fns as [|[key [f tw]] fns IH]; intros rets losses weights Hr; simpl in *.
  - injection Hr as <-. reflexivity.
  - destruct (f mo) as [r|e]; simpl in *; [|discriminate].
    match type of Hr with
    | context [mapM ?g fns] => destruct (mapM g fns) as [rets'|e] eqn:Hm
    end; simpl in *; [|discriminate].
    injection Hr as <-. simpl.
    apply IH. reflexivity.
Qed.

Lemma collect_losses_raises (mo : model_output)
    (fns : dict (loss_function * loss_returns float)) (e : exn) :
  forall (losses weights : dict float),
    loss_results fns mo = Raise e ->
    collect_losses unpack mo fns losses weights = Raise e.
Proof.
  unfold loss_results.
  induction fns as [|[key [f tw]] fns IH]; intros losses weights Hr; simpl in *.
  - discriminate.
  - destruct (f mo) as [r|e']; simpl in *; [|congruence].
    match type of Hr with
    | context [mapM ?g fns] => destruct (mapM g fns) as [rets'|e'] eqn:Hm
    end; simpl in *; [discriminate|].
    apply IH. congruence.
Qed.

Lemma merged_losses_distinct (rets : list (string * loss_returns float)) :
  forall losses : dict float,
    NoDup (keys (losses ++ unpacked_losses rets)) ->
    fold_left (fun l kr => update l (unpack (fst kr) (snd kr))) rets losses =
    losses ++ unpacked_losses rets.
Proof.
  unfold unpacked_losses.
  induction rets as [|[key r] rets IH]; intros losses Hnd; simpl in *.
  - now rewrite app_nil_r.
  - rewrite app_assoc in Hnd.
    rewrite update_fresh.
    + rewrite IH by exact Hnd. now rewrite <- app_assoc.
    + unfold keys in *. rewrite map_app in Hnd.
      apply NoDup_app_remove_r in Hnd. exact Hnd.
Qed.

Variable self : trainer.

(** The shape of a call of [get_batch_losses] once the loss functions
    have returned at least one sub-loss. *)
Lemma get_batch_losses_returns (mo : model_output)
    (rets : list (string * loss_returns float)) :
  loss_results (loss_functions self) mo = Ok rets ->
  let losses :=
    fold_left (fun l kr => update l (unpack (fst kr) (snd kr))) rets [] in
  let total := weighted_total (specified_weights (loss_functions self)) losses in
  losses <> [] ->
  exists weights' : dict float,
    get_batch_losses unpack self mo =
    if PrimFloat.is_nan total
    then Raise (RuntimeError nan_loss_message)
    else Ok (total, losses, weights').
Proof.
  intros Hr losses total Hne.
  unfold get_batch_losses.
  rewrite (collect_losses_spec mo (loss_functions self) rets [] [] Hr).
  simpl. fold losses.
  pose proof (weighted_sum_spec losses
                (fold_left (fun w kf => update w (unpack (fst kf) (snd (snd kf))))
                           (loss_functions self) []) 0%float) as Hs.
  destruct (weighted_sum losses _ 0%float) as [weights' t] eqn:Hws.
  simpl in Hs. exists weights'.
  destruct losses as [|kv losses'] eqn:Hl; [congruence|].
  subst t. reflexivity.
Qed.

Lemma merged_losses_last (rets : list (string * loss_returns float)) :
  forall (losses : dict float) (k : string),
    get (fold_left (fun l kr => update l (unpack (fst kr) (snd kr))) rets losses) k =
    match get (rev (unpacked_losses rets)) k with
    | Some v => Some v
    | None => get losses k
    end.
Proof.
  unfold unpacked_losses.
  induction rets as [|[key r] rets IH]; intros losses k;
    cbn [fold_left flat_map fst snd].
  - reflexivity.
  - rewrite IH, rev_app_distr, get_app, get_update_last.
    now destruct (get (rev (flat_map _ rets)) k).
Qed.

Lemma merged_losses_wf (rets : list (string * loss_returns float)) :
  forall losses : dict float,
    wf losses ->
    wf (fold_left (fun l kr => update l (unpack (fst kr) (snd kr))) rets losses).
Proof.
  induction rets as [|[key r] rets IH]; intros losses Hwf; cbn [fold_left];
    [exact Hwf|].
  apply IH. now apply wf_update.
Qed.

(** C4, as the code has it.  The unpacked sub-losses are merged into one
    dictionary: every sub-loss key occurs in it once, with the value of
    the last loss function that produced it.  Whenever the configured
    loss functions return on a bundle and give at least one sub-loss, the
    total of [get_batch_losses] is the sum, taken from 0 in the order of
    that dictionary, of weight times value over its entries, where the
    weight of a key is the one the weight specifications unpack to and
    1.0 if none does; that total is returned together with the merged
    dictionary unless it is not-a-number.  If the unpacked sub-losses
    have pairwise distinct keys, the merged dictionary holds all of
    them, in the order of the configuration. *)
Theorem C4_total_is_weighted_sum (mo : model_output)
    (rets : list (string * loss_returns float)) :
  loss_results (loss_functions self) mo = Ok rets ->
  let losses :=
    fold_left (fun l kr => update l (unpack (fst kr) (snd kr))) rets [] in
  let total := weighted_total (specified_weights (loss_functions self)) losses in
  losses <> [] ->
  (wf losses /\
   forall k, get losses k = get (rev (unpacked_losses rets)) k) /\
  (forall r, get_batch_losses unpack self mo = Ok r ->
     fst (fst r) = total /\ snd (fst r) = losses) /\
  (PrimFloat.is_nan total = false ->
   exists weights' : dict float,
     get_batch_losses unpack self mo = Ok (total, losses, weights')) /\
  (NoDup (keys (unpacked_losses rets)) -> losses = unpacked_losses rets).
Proof.
  intros Hr losses total Hne.
  destruct (get_batch_losses_returns mo rets Hr Hne) as [weights' Hg].
  fold losses in Hg. fold total in Hg.
  split; [|split; [|split]].
  - split.
    + apply merged_losses_wf. constructor.
    + intros k. unfold losses. rewrite merged_losses_last.
      now destruct (get (rev (unpacked_losses rets)) k).
  - intros r Hok. rewrite Hg in Hok.
    destruct (PrimFloat.is_nan total); [discriminate|].
    injection Hok as <-. split; reflexivity.
  - intros Hnan. exists weights'. now rewrite Hg, Hnan.
  - intros Hnd. apply (merged_losses_distinct rets []). exact Hnd.
Qed.

(** C3, as the code has it.  Whenever the configured loss functions return
    on a bundle and give at least one sub-loss, [get_batch_losses] raises
    if and only if the weighted total is not-a-number, and the error is
    then the [RuntimeError] of line 184; in every other case, an infinite
    total included, it returns the total as computed. *)
Theorem C3_raises_iff_nan (mo : model_output)
    (rets : list (string * loss_returns float)) :
  loss_results (loss_functions self) mo = Ok rets ->
  let losses :=
    fold_left (fun l kr => update l (unpack (fst kr) (snd kr))) rets [] in
  let total := weighted_total (specified_weights (loss_functions self)) losses in
  losses <> [] ->
  (PrimFloat.is_nan total = true <->
   exists e, get_batch_losses unpack self mo = Raise e) /\
  (PrimFloat.is_nan total = true ->
   get_batch_losses unpack self mo = Raise (RuntimeError nan_loss_message)) /\
  (PrimFloat.is_nan total = false ->
   exists weights' : dict float,
     get_batch_losses unpack self mo = Ok (total, losses, weights')).
Proof.
  intros Hr losses total Hne.
  destruct (get_batch_losses_returns mo rets Hr Hne) as [weights' Hg].
  fold losses in Hg. fold total in Hg.
  destruct (PrimFloat.is_nan total) eqn:Hnan.
  - split; [|split].
    + split; [intros _; eexists; exact Hg|reflexivity].
    + intros _. exact Hg.
    + discriminate.
  - split; [|split].
    + split; [discriminate|]. intros [e He]. rewrite Hg in He. discriminate.
    + discriminate.
    + intros _. exists weights'. exact Hg.
Qed.

End LossAggregator.

(** Selecting with a mask and mapping commute. *)
Lemma masked_map {A B : Type} (f : A -> B) (mask : list bool) :
  forall l : list A,
    Py.masked mask (map f l) = map f (Py.masked mask l).
Proof.
  induction mask as [|m mask IH]; intros [|a l]; cbn [Py.masked map];
    try reflexivity.
  destruct m; cbn [map]; now rewrite IH.
Qed.

(** ** The edge mask of the metrics evaluator *)
Section EdgeMask.
Import Py TCNTrainer.

Variable BinaryClassificationStats_get_all :
  list Q -> list Z -> Q -> result (dict float).
Variable get_maximized_bcs : list Q -> list Z -> result (dict float).
Variable roc_auc_score : list Z -> list Q -> option Q -> result float.
Variable denote_pt : string -> Q -> string.

Lemma Qgtb_true_iff (x y : Q) : Qgtb x y = true <-> (y < x)%Q.
Proof.
  unfold Qgtb. rewrite negb_true_iff.
  split.
  - intros H. apply Qnot_le_lt. intros Hle.
    apply Qle_bool_iff in Hle. congruence.
  - intros H. destruct (Qle_bool x y) eqn:E; [|reflexivity].
    apply Qle_bool_iff in E. exfalso. apply (Qlt_not_le _ _ H E).
Qed.

Lemma Qgtb_false_iff (x y : Q) : Qgtb x y = false <-> (x <= y)%Q.
Proof.
  unfold Qgtb. rewrite negb_false_iff. apply Qle_bool_iff.
Qed.

(** An index a tensor of [n] entries accepts. *)
Definition valid_index {A : Type} (t : list A) (i : Z) : Prop :=
  (- Z.of_nat (List.length t) <= i < Z.of_nat (List.length t))%Z.

Lemma index_at_valid {A : Type} (t : list A) (i : Z) :
  valid_index t i -> exists a, index_at t i = Ok a.
Proof.
  unfold valid_index, index_at. intros Hi.
  set (n := Z.of_nat (List.length t)) in *.
  set (j := if (i <? 0)%Z then (i + n)%Z else i).
  assert (Hj : (0 <= j < n)%Z).
  { subst j. destruct (Z.ltb_spec i 0); lia. }
  replace ((0 <=? j)%Z && (j <? n)%Z)%bool with true.
  - destruct (nth_error t (Z.to_nat j)) as [a|] eqn:E.
    + now exists a.
    + apply nth_error_None in E. subst n. lia.
  - symmetry. apply andb_true_iff. split.
    + apply Z.leb_le. lia.
    + apply Z.ltb_lt. lia.
Qed.

Lemma mapM_Forall2 {A B : Type} (f : A -> result B) (l : list A) :
  forall r, mapM f l = Ok r -> Forall2 (fun x y => f x = Ok y) l r.
Proof.
  induction l as [|x l IH]; intros r H; simpl in H.
  - injection H as <-. constructor.
  - destruct (f x) as [y|e] eqn:Hx; simpl in H; [|discriminate].
    destruct (mapM f l) as [ys|e] eqn:Hl; simpl in H; [|discriminate].
    injection H as <-. constructor; [exact Hx|]. now apply IH.
Qed.

Lemma mapM_defined {A B : Type} (f : A -> result B) (l : list A) :
  Forall (fun x => exists y, f x = Ok y) l -> exists r, mapM f l = Ok r.
Proof.
  induction 1 as [|x l [y Hy] _ [r Hr]]; simpl.
  - now exists [].
  - rewrite Hy, Hr. simpl. now exists (y :: r).
Qed.

(** What the mask says about one edge. *)
Definition mask_entry (pt : list Q) (pt_min : Q) (e : Z * Z) (b : bool) : Prop :=
  exists pa pb : Q,
    index_at pt (fst e) = Ok pa /\ index_at pt (snd e) = Ok pb /\
    b = (Qgtb pa pt_min || Qgtb pb pt_min)%bool.

Lemma edge_pt_mask_entries (edges : list (Z * Z)) (pt : list Q) (pt_min : Q)
    (mask : list bool) :
  _edge_pt_mask edges pt pt_min = Ok mask ->
  Forall2 (mask_entry pt pt_min) edges mask.
Proof.
  unfold _edge_pt_mask, gather.
  destruct (mapM (index_at pt) (map fst edges)) as [pa|e] eqn:Ha; simpl;
    [|discriminate].
  destruct (mapM (index_at pt) (map snd edges)) as [pb|e] eqn:Hb; simpl;
    [|discriminate].
  intros H. injection H as <-.
  apply mapM_Forall2 in Ha. apply mapM_Forall2 in Hb.
  revert pa pb Ha Hb.
  induction edges as [|[a b] edges IH]; intros pa pb Ha Hb;
    inversion Ha; subst; inversion Hb; subst; simpl.
  - constructor.
  - constructor.
    + eexists _, _. repeat split; eassumption.
    + now apply IH.
Qed.

Lemma edge_pt_mask_defined (edges : list (Z * Z)) (pt : list Q) (pt_min : Q) :
  Forall (fun e => valid_index pt (fst e) /\ valid_index pt (snd e)) edges ->
  exists mask, _edge_pt_mask edges pt pt_min = Ok mask.
Proof.
  intros Hv. unfold _edge_pt_mask, gather.
  destruct (mapM_defined (index_at pt) (map fst edges)) as [pa Ha].
  { apply Forall_map. eapply Forall_impl; [|exact Hv].
    intros e [H _]. now apply index_at_valid. }
  destruct (mapM_defined (index_at pt) (map snd edges)) as [pb Hb].
  { apply Forall_map. eapply Forall_impl; [|exact Hv].
    intros e [_ H]. now apply index_at_valid. }
  rewrite Ha, Hb. simpl. eauto.
Qed.

Lemma masked_filter {A : Type} (mask : list bool) :
  forall t : list A,
    masked mask t = map snd (filter fst (combine mask t)).
Proof.
  induction mask as [|b mask IH]; intros [|a t]; simpl; try reflexivity.
  destruct b; simpl; now rewrite IH.
Qed.

(** Lines 423-440: the metrics, computed from the scores [predicted] and
    the labels [true] that are handed to the metric functions. *)
Definition metrics_of_kept_edges (predicted : list Q) (true : list Z)
    (pt_min ec_threshold : Q) : result (dict float) :=
  bcs <- BinaryClassificationStats_get_all predicted true ec_threshold ;;
  maximized <- get_maximized_bcs predicted true ;;
  let metrics := update bcs maximized in
  auc <- roc_auc_score true predicted None ;;
  let metrics := setitem metrics "roc_auc" auc in
  auc1 <- roc_auc_score true predicted (Some (1 # 1000)) ;;
  let metrics := setitem metrics "roc_auc_0.001FPR" auc1 in
  auc2 <- roc_auc_score true predicted (Some (1 # 100)) ;;
  let metrics := setitem metrics "roc_auc_0.01FPR" auc2 in
  auc3 <- roc_auc_score true predicted (Some (1 # 10)) ;;
  let metrics := setitem metrics "roc_auc_0.1FPR" auc3 in
  Ok (update [] (map (fun kv => (denote_pt (fst kv) pt_min, snd kv)) metrics)).

(** The labels of a tensor as integers, edge by edge: what [.long()]
    makes of each entry. *)
Definition long_values (y : tensor) : option (list Z) :=
  match y with
  | TFloat v => Some (map Qtrunc v)
  | TLong v => Some v
  | TBool v => Some (map (fun b : bool => if b then 1%Z else 0%Z) v)
  | _ => None
  end.

(** The entries of [t] that belong to the edges the mask keeps. *)
Definition kept {A : Type} (mask : list bool) (t : list A) : list A :=
  map snd (filter fst (combine mask t)).

(** C8.  For an edge list whose endpoints are hits of the momentum vector:
    [_edge_pt_mask] returns a mask with one entry per edge; the entry is
    true exactly if the momentum of at least one endpoint exceeds
    [pt_min], and false exactly if both momenta are at or below it;
    the scores handed to the metric functions are those of the edges
    whose entry is true; two bundles with the same edges and momenta
    whose scores and labels agree on those edges get the same metrics;
    and on a bundle with one score and one label per edge, the result of
    [evaluate_ec_metrics_with_pt_thld] is what the metric functions give
    when they are called on the scores and on the integer labels of the
    kept edges, in the order of the edges, and on nothing else. *)
Theorem C8_edge_mask_feeds_metrics (edges : list (Z * Z)) (pt : list Q) (pt_min : Q) :
  Forall (fun e => valid_index pt (fst e) /\ valid_index pt (snd e)) edges ->
  exists mask : list bool,
    _edge_pt_mask edges pt pt_min = Ok mask /\
    Forall2
      (fun e b =>
         exists pa pb : Q,
           index_at pt (fst e) = Ok pa /\ index_at pt (snd e) = Ok pb /\
           (b = true <-> (pt_min < pa \/ pt_min < pb)%Q) /\
           (b = false <-> (pa <= pt_min /\ pb <= pt_min)%Q))
      edges mask /\
    (forall w : list Q,
        List.length w = List.length edges ->
        select mask w = Ok (map snd (filter fst (combine mask w)))) /\
    (forall (mo1 mo2 : model_output) (ec_thr : Q) (w1 w2 : list Q) (y1 y2 : tensor),
        getitem mo1 "edge_index" = Ok (TEdges edges) ->
        getitem mo2 "edge_index" = Ok (TEdges edges) ->
        getitem mo1 "pt" = Ok (TFloat pt) ->
        getitem mo2 "pt" = Ok (TFloat pt) ->
        getitem mo1 "w" = Ok (TFloat w1) ->
        getitem mo2 "w" = Ok (TFloat w2) ->
        getitem mo1 "y" = Ok y1 ->
        getitem mo2 "y" = Ok y2 ->
        select mask w1 = select mask w2 ->
        select_long mask y1 = select_long mask y2 ->
        evaluate_ec_metrics_with_pt_thld BinaryClassificationStats_get_all
          get_maximized_bcs roc_auc_score denote_pt mo1 pt_min ec_thr =
        evaluate_ec_metrics_with_pt_thld BinaryClassificationStats_get_all
          get_maximized_bcs roc_auc_score denote_pt mo2 pt_min ec_thr) /\
    (forall (mo : model_output) (ec_thr : Q) (w : list Q) (y : tensor)
            (labels : list Z),
        getitem mo "edge_index" = Ok (TEdges edges) ->
        getitem mo "pt" = Ok (TFloat pt) ->
        getitem mo "w" = Ok (TFloat w) ->
        getitem mo "y" = Ok y ->
        long_values y = Some labels ->
        List.length w = List.length edges ->
        List.length labels = List.length edges ->
        evaluate_ec_metrics_with_pt_thld BinaryClassificationStats_get_all
          get_maximized_bcs roc_auc_score denote_pt mo pt_min ec_thr =
        metrics_of_kept_edges (kept mask w) (kept mask labels) pt_min ec_thr).
Proof.
  intros Hv.
  destruct (edge_pt_mask_defined edges pt pt_min Hv) as [mask Hm].
  pose proof (edge_pt_mask_entries edges pt pt_min mask Hm) as Hent.
  exists mask. split; [exact Hm|]. split; [|split; [|split]].
  - eapply Forall2_impl; [|exact Hent].
    intros e b (pa & pb & Ha & Hb & ->).
    exists pa, pb. split; [exact Ha|]. split; [exact Hb|]. split.
    + rewrite orb_true_iff, !Qgtb_true_iff. tauto.
    + rewrite orb_false_iff, !Qgtb_false_iff. tauto.
  - intros w Hlen. unfold select.
    rewrite <- (Forall2_length Hent), Hlen, Nat.eqb_refl.
    now rewrite masked_filter.
  - intros mo1 mo2 thr w1 w2 y1 y2 He1 He2 Hp1 Hp2 Hw1 Hw2 Hy1 Hy2 Hsw Hsy.
    unfold evaluate_ec_metrics_with_pt_thld.
    rewrite He1, He2, Hp1, Hp2, Hw1, Hw2, Hy1, Hy2. simpl.
    rewrite Hm. simpl. rewrite Hsw, Hsy. reflexivity.
  - intros mo thr w y labels He Hp Hw Hy Hlab Hlw Hll.
    pose proof (Forall2_length Hent) as Hlen.
    unfold evaluate_ec_metrics_with_pt_thld.
    rewrite He, Hp, Hw, Hy. cbn [bind as_edges as_scores]. rewrite Hm.
    cbn [bind]. unfold select at 1.
    rewrite <- Hlen, Hlw, Nat.eqb_refl. cbn [bind].
    assert (Hsel : select_long mask y = Ok (masked mask labels)).
    { unfold select_long, select. destruct y; try discriminate;
        cbn [long_values] in Hlab; injection Hlab as <-;
        rewrite ?length_map in Hll; rewrite <- Hlen, Hll, Nat.eqb_refl;
        cbn [bind]; now rewrite ?masked_map. }
    rewrite Hsel. cbn [bind]. unfold kept. rewrite <- !masked_filter.
    reflexivity.
Qed.

End EdgeMask.
Arguments kept {A} mask t.

(** ** The best-cluster-params cache *)
Section ClusterCache.
Import Py TCNTrainer.

Variable V : Type.
Variable cluster_eval_input : dict (list tensor).
Variable epoch : Z.

Local Abbreviation run fns cache m :=
  (_evaluate_cluster_metrics_loop fns cluster_eval_input epoch cache m).
Local Abbreviation call fct start :=
  (call_cluster_function fct cluster_eval_input epoch start).

Lemma get_setitem_other {A : Type} (d : dict A) (k k' : string) (v : A) :
  k <> k' -> get (setitem d k v) k' = get d k'.
Proof.
  intros Hne. rewrite get_setitem.
  destruct (String.eqb_spec k k'); [contradiction|reflexivity].
Qed.

(** A clustering function only ever writes the entry of its own name. *)
Lemma cluster_loop_frame (fns : dict (cluster_function V)) (name : string) :
  ~ In name (keys fns) ->
  forall (cache : dict (dict V)) (m : dict V),
    get (fst (run fns cache m)) name = get cache name.
Proof.
  induction fns as [|[k0 f0] fns IH]; intros Hnot cache m; simpl.
  - reflexivity.
  - simpl in Hnot.
    destruct (call_cluster_function f0 cluster_eval_input epoch (get cache k0))
      as [[r|]|e]; simpl.
    + rewrite IH by tauto. apply get_setitem_other. tauto.
    + apply IH. tauto.
    + reflexivity.
Qed.

Lemma remove_fresh {A : Type} (d : dict A) (k : string) :
  ~ In k (keys d) -> remove d k = d.
Proof.
  induction d as [|[k0 v0] d IH]; simpl; intros Hk.
  - reflexivity.
  - destruct (String.eqb_spec k0 k) as [->|_]; [tauto|].
    now rewrite IH by tauto.
Qed.

Lemma wf_in_unique {A : Type} (d : dict A) (k : string) (v v' : A) :
  wf ((k, v) :: d) -> In (k, v') ((k, v) :: d) -> v' = v.
Proof.
  unfold wf. simpl. intros Hnd [H|H].
  - congruence.
  - inversion Hnd as [|? ? Hnot _]; subst. exfalso. apply Hnot.
    change k with (fst (k, v')). now apply in_map.
Qed.

Lemma remove_absent {A : Type} (d : dict A) (k : string) :
  wf d -> ~ In k (keys (remove d k)).
Proof.
  unfold wf. induction d as [|[k0 v0] d IH]; simpl; intros Hnd.
  - tauto.
  - inversion Hnd as [|? ? Hnot Hnd']; subst.
    destruct (String.eqb_spec k0 k) as [->|Hne]; simpl.
    + exact Hnot.
    + intros [H|H]; [contradiction|]. now apply IH.
Qed.

(** A function that returns [None] might as well not be configured. *)
Lemma cluster_loop_skip (fns : dict (cluster_function V)) (name : string)
    (f : cluster_function V) :
  wf fns ->
  In (name, f) fns ->
  forall (cache : dict (dict V)) (m : dict V),
    call f (get cache name) = Ok None ->
    run fns cache m = run (remove fns name) cache m.
Proof.
  induction fns as [|[k0 f0] fns IH]; intros Hwf Hin cache m Hnone.
  - contradiction.
  - cbn [remove].
    destruct (String.eqb_spec k0 name) as [->|Hne].
    + assert (f = f0) by (eapply wf_in_unique; eassumption). subst f0.
      cbn [_evaluate_cluster_metrics_loop]. cbv beta in Hnone.
      now rewrite Hnone.
    + assert (Hin' : In (name, f) fns).
      { destruct Hin as [H|H]; [congruence|exact H]. }
      assert (Hwf' : wf fns) by (unfold wf in *; simpl in Hwf; now inversion Hwf).
      cbn [_evaluate_cluster_metrics_loop].
      destruct (call_cluster_function f0 cluster_eval_input epoch (get cache k0))
        as [[r|]|e].
      * apply IH; try assumption. cbv beta.
        rewrite get_setitem_other by exact Hne. exact Hnone.
      * apply IH; assumption.
      * reflexivity.
Qed.

(** An entry that changed was written from a returned result. *)
Lemma cluster_loop_overwrite (fns : dict (cluster_function V)) (name : string) :
  wf fns ->
  forall (cache : dict (dict V)) (m : dict V),
    get (fst (run fns cache m)) name <> get cache name ->
    exists (f : cluster_function V) (r : cluster_result V),
      In (name, f) fns /\
      call f (get cache name) = Ok (Some r) /\
      get (fst (run fns cache m)) name = Some (best_params r).
Proof.
  induction fns as [|[k0 f0] fns IH]; intros Hwf cache m Hch.
  - simpl in Hch. congruence.
  - assert (Hwf' : wf fns) by (unfold wf in *; simpl in Hwf; now inversion Hwf).
    assert (Hk0 : ~ In k0 (keys fns)) by (unfold wf in *; simpl in Hwf; now inversion Hwf).
    cbn [_evaluate_cluster_metrics_loop] in *.
    destruct (call_cluster_function f0 cluster_eval_input epoch (get cache k0))
      as [[r|]|e] eqn:Hcall.
    + destruct (String.eqb_spec k0 name) as [->|Hne].
      * exists f0, r. split; [now left|]. split; [exact Hcall|].
        rewrite cluster_loop_frame by exact Hk0.
        rewrite get_setitem, String.eqb_refl. reflexivity.
      * destruct (IH Hwf' (setitem cache k0 (best_params r))
                    (update (update m (TCNTrainer.metrics r))
                            (best_param_metrics k0 (best_params r))))
          as (f & r' & Hin & Hc & Hg).
        { rewrite get_setitem_other by exact Hne. exact Hch. }
        exists f, r'. split; [now right|]. split; [|exact Hg].
        cbv beta in Hc. rewrite get_setitem_other in Hc by exact Hne. exact Hc.
    + destruct (String.eqb_spec k0 name) as [->|Hne].
      * exfalso. apply Hch. now apply cluster_loop_frame.
      * destruct (IH Hwf' cache m Hch) as (f & r' & Hin & Hc & Hg).
        exists f, r'. split; [now right|]. split; assumption.
    + simpl in Hch. congruence.
Qed.

(** C10.  With the clustering functions held in a dictionary:
    (a) for a name whose callable returns [None] on the call
        [_evaluate_cluster_metrics] makes, the method does exactly what it
        would do without that function - same cache, same metrics - and
        the cache entry of that name is as before;
    (b) a cache entry that differs afterwards is the [best_params] of a
        result object that the callable of that name returned. *)
Theorem C10_skip_leaves_cache_and_metrics
    (fns : dict (cluster_function V)) (cache : dict (dict V)) :
  wf fns ->
  (forall (name : string) (f : cluster_function V),
      In (name, f) fns ->
      call_cluster_function f cluster_eval_input epoch (get cache name) = Ok None ->
      _evaluate_cluster_metrics fns epoch cache cluster_eval_input =
      _evaluate_cluster_metrics (remove fns name) epoch cache cluster_eval_input /\
      get (fst (_evaluate_cluster_metrics fns epoch cache cluster_eval_input)) name =
      get cache name)
  /\
  (forall name : string,
      get (fst (_evaluate_cluster_metrics fns epoch cache cluster_eval_input)) name
        <> get cache name ->
      exists (f : cluster_function V) (r : cluster_result V),
        In (name, f) fns /\
        call_cluster_function f cluster_eval_input epoch (get cache name) =
          Ok (Some r) /\
        get (fst (_evaluate_cluster_metrics fns epoch cache cluster_eval_input)) name =
          Some (best_params r)).
Proof.
  intros Hwf. unfold _evaluate_cluster_metrics. split.
  - intros name f Hin Hnone.
    assert (Heq : run fns cache [] = run (remove fns name) cache []).
    { now apply (cluster_loop_skip fns name f). }
    split; [exact Heq|].
    rewrite Heq. apply cluster_loop_frame. now apply remove_absent.
  - intros name Hch.
    exact (cluster_loop_overwrite fns name Hwf cache [] Hch).
Qed.

End ClusterCache.

(** ** The properties on the concrete inputs *)

Lemma sample_clustering_functions_wf :
  Py.wf (TCNTrainer.clustering_functions Sample.self).
Proof.
  unfold Py.wf. simpl.
  repeat (constructor; [simpl; intuition discriminate|]). constructor.
Qed.

(** C3 on a loss that is not a number (raised) and on one that is
    infinite (returned as it is). *)
Lemma C3_raises_iff_nan_witness :
  TCNTrainer.get_batch_losses (@TCNTrainer.unpack_loss_returns float)
    (Sample.trainer_with Sample.nan_loss) Sample.bundle =
  Py.Raise (Py.RuntimeError TCNTrainer.nan_loss_message) /\
  exists weights' : Py.dict float,
    TCNTrainer.get_batch_losses (@TCNTrainer.unpack_loss_returns float)
      (Sample.trainer_with Sample.infinite_loss) Sample.bundle =
    Py.Ok (infinity, [("potential"%string, infinity)], weights').
Proof.
  split.
  - assert (Hne : [("potential"%string, nan)] <> @nil (string * float))
      by discriminate.
    destruct (C3_raises_iff_nan (@TCNTrainer.unpack_loss_returns float)
                (Sample.trainer_with Sample.nan_loss) Sample.bundle
                [("potential"%string, TCNTrainer.LScalar nan)] eq_refl Hne)
      as (_ & Hraise & _).
    apply Hraise. vm_compute. reflexivity.
  - assert (Hne : [("potential"%string, infinity)] <> @nil (string * float))
      by discriminate.
    destruct (C3_raises_iff_nan (@TCNTrainer.unpack_loss_returns float)
                (Sample.trainer_with Sample.infinite_loss) Sample.bundle
                [("potential"%string, TCNTrainer.LScalar infinity)] eq_refl Hne)
      as (_ & _ & Hret).
    apply Hret. vm_compute. reflexivity.
Defined.

(** C3 as stated fails: an infinite total is not finite, and it is
    returned, not raised. *)
Lemma C3_infinite_total_is_returned :
  TCNTrainer.get_batch_losses (@TCNTrainer.unpack_loss_returns float)
    (Sample.trainer_with Sample.infinite_loss) Sample.bundle =
  Py.Ok (infinity, [("potential"%string, infinity)],
         [("potential"%string, 1%float)]) /\
  PrimFloat.is_finite infinity = false /\
  PrimFloat.is_nan infinity = false.
Proof.
  split; [|split]; vm_compute; reflexivity.
Qed.

(** C4 on a scalar, a list and a mapping:
    3*2 + 2*1 + 4*0.5 + 2*1.5 + 1*0.25 = 13.25. *)
Lemma C4_total_is_weighted_sum_witness :
  exists weights' : Py.dict float,
    TCNTrainer.get_batch_losses (@TCNTrainer.unpack_loss_returns float)
      Sample.self Sample.bundle =
    Py.Ok (13.25%float,
           [("potential", 2%float); ("background_0", 1%float);
            ("background_1", 0.5%float); ("edge_attractive", 1.5%float);
            ("edge_repulsive", 0.25%float)]%string,
           weights').
Proof.
  pose (rets := [("potential", TCNTrainer.LScalar 2%float);
                 ("background", TCNTrainer.LList [1%float; 0.5%float]);
                 ("edge", TCNTrainer.LDict [("attractive", 1.5%float);
                                            ("repulsive", 0.25%float)])]%string).
  destruct (C4_total_is_weighted_sum (@TCNTrainer.unpack_loss_returns float)
              Sample.self Sample.bundle rets eq_refl)
    as (_ & _ & Hret & _).
  - vm_compute. discriminate.
  - apply Hret. vm_compute. reflexivity.
Defined.

(** C4 as stated fails on a configuration whose unpacked keys collide:
    the list of the loss function ["a"] unpacks to the key ["a_0"], which
    is also the name of a scalar loss function.  The two sub-losses are
    1 and 2, both of weight 1; the total is 2, where the sum over all
    unpacked sub-losses is 3. *)
Lemma C4_colliding_keys_counted_once :
  let rets := [("a", TCNTrainer.LList [1%float]);
               ("a_0", TCNTrainer.LScalar 2%float)]%string in
  loss_results (TCNTrainer.loss_functions
                  (Sample.trainer_with Sample.colliding_losses))
    Sample.bundle = Py.Ok rets /\
  unpacked_losses (@TCNTrainer.unpack_loss_returns float) rets =
    [("a_0", 1%float); ("a_0", 2%float)]%string /\
  weighted_total
    (specified_weights (@TCNTrainer.unpack_loss_returns float)
       Sample.colliding_losses)
    (unpacked_losses (@TCNTrainer.unpack_loss_returns float) rets) = 3%float /\
  exists weights' : Py.dict float,
    TCNTrainer.get_batch_losses (@TCNTrainer.unpack_loss_returns float)
      (Sample.trainer_with Sample.colliding_losses) Sample.bundle =
    Py.Ok (2%float, [("a_0"%string, 2%float)], weights').
Proof.
  cbn zeta. split; [reflexivity|]. split; [reflexivity|].
  split; [vm_compute; reflexivity|].
  eexists. vm_compute. reflexivity.
Qed.

(** C8 on the sample bundle: at the threshold 0.9 the first edge stays
    (its first hit has momentum 2) and the second goes (both hits have
    momentum 0.5); the metric functions are called on the score 0.9 and
    the label 1 of the first edge. *)
Lemma C8_edge_mask_feeds_metrics_witness :
  Forall (fun e => valid_index Sample.pt (fst e) /\ valid_index Sample.pt (snd e))
    Sample.edges /\
  TCNTrainer._edge_pt_mask Sample.edges Sample.pt (9 # 10) = Py.Ok [true; false] /\
  TCNTrainer.evaluate_ec_metrics_with_pt_thld Sample.count_stats
    Sample.count_maximized Sample.half_auc Sample.tag_pt
    Sample.bundle (9 # 10) (1 # 2) =
  TCNTrainer.evaluate_ec_metrics_with_pt_thld Sample.count_stats
    Sample.count_maximized Sample.half_auc Sample.tag_pt
    Sample.bundle' (9 # 10) (1 # 2) /\
  TCNTrainer.evaluate_ec_metrics_with_pt_thld Sample.count_stats
    Sample.count_maximized Sample.half_auc Sample.tag_pt
    Sample.bundle (9 # 10) (1 # 2) =
  metrics_of_kept_edges Sample.count_stats Sample.count_maximized
    Sample.half_auc Sample.tag_pt [9 # 10] [1%Z] (9 # 10) (1 # 2).
Proof.
  assert (Hv : Forall (fun e => valid_index Sample.pt (fst e) /\
                                valid_index Sample.pt (snd e)) Sample.edges).
  { repeat constructor; unfold valid_index; simpl; lia. }
  split; [exact Hv|].
  destruct (C8_edge_mask_feeds_metrics Sample.count_stats Sample.count_maximized
              Sample.half_auc Sample.tag_pt Sample.edges Sample.pt (9 # 10) Hv)
    as (mask & Hm & _ & _ & Hsame & Hfeed).
  assert (Hmask : mask = [true; false]).
  { assert (H : Py.Ok mask = Py.Ok [true; false])
      by (rewrite <- Hm; vm_compute; reflexivity).
    now injection H. }
  subst mask. split; [exact Hm|]. split.
  - apply (Hsame Sample.bundle Sample.bundle' (1 # 2)
             [9 # 10; 2 # 10] [9 # 10; 7 # 10]
             (TCNTrainer.TLong [1; 0]%Z) (TCNTrainer.TLong [1; 1]%Z));
      reflexivity.
  - apply (Hfeed Sample.bundle (1 # 2) [9 # 10; 2 # 10]
             (TCNTrainer.TLong [1; 0]%Z) [1; 0]%Z); reflexivity.
Defined.

(** C10 on the sample configuration: ["skip"] returns [None], ["dbscan"]
    returns a result. *)
Lemma C10_skip_leaves_cache_and_metrics_witness :
  let fns := TCNTrainer.clustering_functions Sample.self in
  let cache := [("skip", [("eps", 1%float)]);
                ("dbscan", [("eps", 0.25%float)])]%string in
  TCNTrainer._evaluate_cluster_metrics fns 0 cache [] =
  TCNTrainer._evaluate_cluster_metrics (Py.remove fns "skip") 0 cache [] /\
  Py.get (fst (TCNTrainer._evaluate_cluster_metrics fns 0 cache [])) "skip" =
  Some [("eps"%string, 1%float)].
Proof.
  cbn zeta.
  destruct (C10_skip_leaves_cache_and_metrics float [] 0%Z
              (TCNTrainer.clustering_functions Sample.self)
              [("skip", [("eps", 1%float)]);
               ("dbscan", [("eps", 0.25%float)])]%string
              sample_clustering_functions_wf) as [Hskip _].
  apply (Hskip "skip"%string Sample.skipping).
  - left. reflexivity.
  - reflexivity.
Defined.

(** How many arrays a run of the loop has accumulated under a key. *)
Definition accumulated_batches
    (r : Py.result (Py.dict (list float) * Py.dict (list TCNTrainer.tensor)))
    (cf_key : string) : option nat :=
  match r with
  | Py.Ok (_, cluster_eval_input) =>
      option_map (@List.length TCNTrainer.tensor) (Py.get cluster_eval_input cf_key)
  | Py.Raise _ => None
  end.

(** The guard of line 347 still holds at the index
    [max_batches_for_clustering]; counted from 0, that is one batch more
    than the attribute says. *)
Lemma collects_at_index_max (self : TCNTrainer.trainer) :
  TCNTrainer.clustering_functions self <> [] ->
  TCNTrainer.collects_for_clustering self
    (TCNTrainer.max_batches_for_clustering self) = true.
Proof.
  unfold TCNTrainer.collects_for_clustering.
  destruct (TCNTrainer.clustering_functions self); [congruence|].
  intros _. apply Z.leb_refl.
Qed.

(** C7.  On a loader of thirteen batches with the default
    [max_batches_for_clustering = 10]: the arrays of the batches with
    indices 0 to 10, eleven of them, are accumulated for each
    clustering-input key. *)
Theorem C7_accumulates_eleven_batches :
  TCNTrainer.max_batches_for_clustering Sample.self = 10%Z /\
  accumulated_batches
    (Sample.test_step_accumulate Sample.self None (Some (Sample.loader 13)))
    "data" = Some 11%nat /\
  accumulated_batches
    (Sample.test_step_accumulate Sample.self None (Some (Sample.loader 13)))
    "labels" = Some 11%nat.
Proof.
  split; [reflexivity|]. split; vm_compute; reflexivity.
Qed.

(** ** The sector transform *)
Section Sectoring.
Import Py PointCloudBuilder.
Local Open Scope R_scope.

Lemma Rltb_true_iff (a b : R) : Rltb a b = true <-> a < b.
Proof.
  unfold Rltb. destruct (Rlt_dec a b); split; intros; try easy.
Qed.

Lemma Rleb_true_iff (a b : R) : Rleb a b = true <-> a <= b.
Proof.
  unfold Rleb. destruct (Rle_dec a b); split; intros; try easy.
Qed.

(** The test of lines 118-122 is the extended wedge. *)
Lemma in_extended_sector_spec (ds di slope ur vr : R) :
  in_extended_sector ds di slope ur vr = true <->
  Rabs vr < ds * slope * ur + di /\ ur > 0.
Proof.
  unfold in_extended_sector, Rgtb.
  rewrite !andb_true_iff, !Rltb_true_iff.
  replace (- ds * slope * ur - di) with (- (ds * slope * ur + di)) by ring.
  split.
  - intros [[Hlo Hhi] Hu]. split; [|exact Hu]. now apply Rabs_def1.
  - intros [Habs Hu]. apply Rabs_def2 in Habs. tauto.
Qed.

(** The test of lines 126-128 is the strict wedge. *)
Lemma in_sector_spec (slope ur vr : R) :
  in_sector slope ur vr = true <-> Rabs vr < slope * ur /\ ur >= 0.
Proof.
  unfold in_sector, Rgtb, Rgeb.
  rewrite !andb_true_iff, !Rltb_true_iff, Rleb_true_iff.
  replace (- slope * ur) with (- (slope * ur)) by ring.
  split.
  - intros [[Hlo Hhi] Hu]. split; [now apply Rabs_def1|now apply Rle_ge].
  - intros [Habs Hu]. apply Rabs_def2 in Habs. apply Rge_le in Hu. tauto.
Qed.

Lemma combine_map_pair {A B C : Type} (f : A -> B) (g : A -> C) (l : list A) :
  combine (map f l) (map g l) = map (fun a => (f a, g a)) l.
Proof.
  induction l as [|a l IH]; simpl; [reflexivity|now rewrite IH].
Qed.

(** The angle and the slope of lines 113-114. *)
Definition sector_theta (self : builder) (s : Z) : R :=
  IZR s * 2 * PI / IZR (n_sectors self).

Definition sector_slope (self : builder) (s : Z) : R :=
  atan (sector_theta self s).

(** The table after the assignments of lines 115-116. *)
Definition with_rotated (self : builder) (hits : DataFrame) (s : Z)
    (u v : list R) : DataFrame :=
  setitem
    (setitem hits "ur"
       (map (fun p => rotated_u (sector_theta self s) (fst p) (snd p))
            (combine u v)))
    "vr"
    (map (fun p => rotated_v (sector_theta self s) (fst p) (snd p))
         (combine u v)).

(** The mask of lines 120-122, hit by hit. *)
Definition extended_mask (self : builder) (s : Z) (u v : list R) : list bool :=
  map (fun p =>
         in_extended_sector (sector_ds self) (sector_di self)
           (sector_slope self s)
           (rotated_u (sector_theta self s) (fst p) (snd p))
           (rotated_v (sector_theta self s) (fst p) (snd p)))
      (combine u v).

Lemma sector_hits_table (self : builder) (hits : DataFrame) (s : Z)
    (u v : list R) :
  n_sectors self <> 1%Z -> n_sectors self <> 0%Z ->
  get hits "u" = Some u -> get hits "v" = Some v ->
  fst (sector_hits self hits s) = with_rotated self hits s u v.
Proof.
  intros H1 H0 Hu Hv. unfold sector_hits.
  apply Z.eqb_neq in H1. apply Z.eqb_neq in H0.
  rewrite H1, H0, Hu, Hv. reflexivity.
Qed.

Lemma sector_hits_extended (self : builder) (hits : DataFrame) (s : Z)
    (u v : list R) :
  n_sectors self <> 1%Z -> n_sectors self <> 0%Z ->
  get hits "u" = Some u -> get hits "v" = Some v ->
  measurement_mode self = false ->
  snd (sector_hits self hits s) =
  Ok (Pair (filter_rows (extended_mask self s u v)
              (with_rotated self hits s u v)) []).
Proof.
  intros H1 H0 Hu Hv Hm. unfold sector_hits.
  apply Z.eqb_neq in H1. apply Z.eqb_neq in H0.
  rewrite H1, H0, Hu, Hv. cbn [snd]. unfold measure. rewrite Hm.
  cbn [bind]. unfold extended_mask, with_rotated, sector_slope, sector_theta.
  rewrite combine_map_pair, map_map. reflexivity.
Qed.

Lemma sector_hits_single (self : builder) (hits : DataFrame) (s : Z) :
  n_sectors self = 1%Z ->
  sector_hits self hits s = (hits, Ok (Table hits)).
Proof.
  intros H. unfold sector_hits. now rewrite H.
Qed.

Lemma keys_setitem {A : Type} (d : dict A) (k : string) (v : A) :
  keys (setitem d k v) = keys d \/ keys (setitem d k v) = keys d ++ [k].
Proof.
  induction d as [|[k0 v0] d IH]; simpl.
  - now right.
  - destruct (String.eqb k0 k); simpl.
    + now left.
    + destruct IH as [-> | ->]; [now left|now right].
Qed.

(** C9, as the code has it.  For every hit table and every sector index,
    [sector_hits] removes no column and changes no column other than
    [ur] and [vr]: the table afterwards has the columns it had, in their
    order and with their values, possibly followed by [ur] and [vr];
    with [n_sectors = 1] the table is left as it is; with any other
    non-zero [n_sectors] and the columns [u] and [v] present, the columns
    [ur] and [vr] of the table are assigned the rotated coordinates. *)
Theorem C9_sector_hits_keeps_other_columns
    (self : builder) (hits : DataFrame) (s : Z) :
  let hits' := fst (sector_hits self hits s) in
  (n_sectors self = 1%Z -> hits' = hits) /\
  (forall c : string,
      c <> "ur"%string -> c <> "vr"%string -> get hits' c = get hits c) /\
  (exists extra : list string,
      keys hits' = keys hits ++ extra /\
      forall c, In c extra -> c = "ur"%string \/ c = "vr"%string) /\
  (n_sectors self <> 1%Z -> n_sectors self <> 0%Z ->
   forall u v : list R,
     get hits "u" = Some u -> get hits "v" = Some v ->
     get hits' "ur" =
       Some (map (fun p => rotated_u (sector_theta self s) (fst p) (snd p))
                 (combine u v)) /\
     get hits' "vr" =
       Some (map (fun p => rotated_v (sector_theta self s) (fst p) (snd p))
                 (combine u v))).
Proof.
  cbn zeta. split; [|split; [|split]].
  - intros H. now rewrite sector_hits_single.
  - intros c Hur Hvr. unfold sector_hits.
    destruct (n_sectors self =? 1)%Z; [reflexivity|].
    destruct (n_sectors self =? 0)%Z; [reflexivity|].
    destruct (get hits "u") as [u|]; [|reflexivity].
    destruct (get hits "v") as [v|]; [|reflexivity].
    cbn [fst]. rewrite !get_setitem.
    destruct (String.eqb_spec "vr" c) as [<-|_]; [congruence|].
    destruct (String.eqb_spec "ur" c) as [<-|_]; [congruence|reflexivity].
  - unfold sector_hits.
    destruct (n_sectors self =? 1)%Z;
      [exists []; split; [now rewrite app_nil_r|contradiction]|].
    destruct (n_sectors self =? 0)%Z;
      [exists []; split; [now rewrite app_nil_r|contradiction]|].
    destruct (get hits "u") as [u|];
      [|exists []; split; [now rewrite app_nil_r|contradiction]].
    destruct (get hits "v") as [v|];
      [|exists []; split; [now rewrite app_nil_r|contradiction]].
    cbn [fst].
    match goal with
    | |- context [setitem (setitem hits "ur" ?a) "vr" ?b] =>
        destruct (keys_setitem (setitem hits "ur" a) "vr" b) as [E2|E2];
        destruct (keys_setitem hits "ur" a) as [E1|E1];
        rewrite E2, E1
    end.
    + exists []. split; [now rewrite app_nil_r|contradiction].
    + exists ["ur"%string]. split; [reflexivity|].
      intros c [<-|[]]. now left.
    + exists ["vr"%string]. split; [reflexivity|].
      intros c [<-|[]]. now right.
    + exists ["ur"; "vr"]%string. split; [now rewrite <- app_assoc|].
      intros c [<-|[<-|[]]]; [now left|now right].
  - intros H1 H0 u v Hu Hv.
    rewrite (sector_hits_table self hits s u v H1 H0 Hu Hv).
    unfold with_rotated. rewrite !get_setitem. now rewrite String.eqb_refl.
Qed.

End Sectoring.

(** ** The sector transform on the sample event *)
Section SectoringSample.
Import Py PointCloudBuilder.
Local Open Scope R_scope.

Lemma sample_theta (redo : bool) (outfiles : list string) :
  sector_theta (Sample.builder 2 redo outfiles) 1 = PI.
Proof.
  unfold sector_theta. cbn [n_sectors Sample.builder]. field.
Qed.

Lemma atan_PI_above_half : 1 / 2 < atan PI.
Proof.
  pose proof PI2_1 as Hpi.
  assert (H : atan 1 < atan PI) by (apply atan_increasing; lra).
  rewrite atan_1 in H. lra.
Qed.

Lemma sample_extended_mask (redo : bool) (outfiles : list string) :
  extended_mask (Sample.builder 2 redo outfiles) 1 [-1; 1] [-1 / 2; 0] =
  [true; false].
Proof.
  unfold extended_mask, sector_slope. rewrite sample_theta.
  cbn [combine map fst snd sector_ds sector_di Sample.builder].
  unfold rotated_u, rotated_v. rewrite cos_PI, sin_PI.
  pose proof atan_PI_above_half as Hat.
  f_equal; [|f_equal].
  - apply in_extended_sector_spec. split.
    + replace (-1 * 0 + -1 / 2 * -1) with (1 / 2) by field.
      rewrite Rabs_right by lra. lra.
    + lra.
  - apply not_true_is_false. intros H.
    apply in_extended_sector_spec in H. lra.
Qed.

(** C9 on the sample event: with one sector the table is untouched, with
    two it keeps its four columns and gains [ur] and [vr]. *)
Lemma C9_sector_hits_keeps_other_columns_witness :
  fst (sector_hits (Sample.builder 1 true []) Sample.hits 0) = Sample.hits /\
  get (fst (sector_hits (Sample.builder 2 true []) Sample.hits 1)) "pt" =
    Some [2; 0] /\
  get (fst (sector_hits (Sample.builder 2 true []) Sample.hits 1)) "ur" =
    Some [rotated_u (sector_theta (Sample.builder 2 true []) 1) (-1) (-1 / 2);
          rotated_u (sector_theta (Sample.builder 2 true []) 1) 1 0].
Proof.
  split; [|split].
  - destruct (C9_sector_hits_keeps_other_columns
                (Sample.builder 1 true []) Sample.hits 0) as (H1 & _).
    apply H1. reflexivity.
  - destruct (C9_sector_hits_keeps_other_columns
                (Sample.builder 2 true []) Sample.hits 1) as (_ & Hc & _).
    rewrite Hc; [reflexivity|discriminate|discriminate].
  - destruct (C9_sector_hits_keeps_other_columns
                (Sample.builder 2 true []) Sample.hits 1) as (_ & _ & _ & Ha).
    destruct (Ha ltac:(discriminate) ltac:(discriminate)
                 [-1; 1] [-1 / 2; 0] eq_refl eq_refl) as [Hur _].
    exact Hur.
Defined.

(** C9 as stated fails: after the call with two sectors the table is not
    the table that was passed in - it has six columns, not four. *)
Lemma C9_sector_hits_adds_columns :
  fst (sector_hits (Sample.builder 2 true []) Sample.hits 0) <> Sample.hits /\
  keys (fst (sector_hits (Sample.builder 2 true []) Sample.hits 0)) =
    ["u"; "v"; "particle_id"; "pt"; "ur"; "vr"]%string.
Proof.
  assert (Hk : keys (fst (sector_hits (Sample.builder 2 true []) Sample.hits 0)) =
               ["u"; "v"; "particle_id"; "pt"; "ur"; "vr"]%string).
  { rewrite (sector_hits_table (Sample.builder 2 true []) Sample.hits 0
               [-1; 1] [-1 / 2; 0]); try reflexivity; discriminate. }
  split; [|exact Hk].
  intros H. rewrite H in Hk. discriminate Hk.
Qed.

(** C1 on the sample event, two sectors, sector 1.  The angle is pi, whose
    tangent is 0, so the bound of the claim is [|vr| < sector_di]; the
    code takes [arctan(pi)] for the slope and returns hit A, for which
    [ur = 1] and [vr = 1/2]. *)
Theorem C1_slope_is_arctan_not_tan :
  let self := Sample.builder 2 true [] in
  let theta := IZR 1 * 2 * PI / IZR (n_sectors self) in
  let ur := rotated_u theta (-1) (-1 / 2) in
  let vr := rotated_v theta (-1) (-1 / 2) in
  snd (sector_hits self Sample.hits 1) =
    Ok (Pair (filter_rows [true; false] (fst (sector_hits self Sample.hits 1))) []) /\
  get (filter_rows [true; false] (fst (sector_hits self Sample.hits 1))) "u" =
    Some [-1] /\
  tan theta = 0 /\
  atan theta <> tan theta /\
  ~ (Rabs vr < sector_ds self * tan theta * ur + sector_di self /\ ur > 0).
Proof.
  cbn zeta.
  change (IZR 1 * 2 * PI / IZR (n_sectors (Sample.builder 2 true [])))
    with (sector_theta (Sample.builder 2 true []) 1).
  rewrite sample_theta.
  assert (Ht : fst (sector_hits (Sample.builder 2 true []) Sample.hits 1) =
               with_rotated (Sample.builder 2 true []) Sample.hits 1
                 [-1; 1] [-1 / 2; 0]).
  { apply sector_hits_table; try reflexivity; discriminate. }
  split; [|split; [|split; [|split]]].
  - rewrite Ht.
    rewrite (sector_hits_extended (Sample.builder 2 true []) Sample.hits 1
               [-1; 1] [-1 / 2; 0]); try reflexivity; try discriminate.
    now rewrite sample_extended_mask.
  - rewrite Ht. reflexivity.
  - apply tan_PI.
  - rewrite tan_PI. pose proof atan_PI_above_half. lra.
  - rewrite tan_PI. unfold rotated_u, rotated_v. rewrite cos_PI, sin_PI.
    cbn [sector_ds sector_di Sample.builder].
    replace (-1 * 0 + -1 / 2 * -1) with (1 / 2) by field.
    rewrite Rabs_right by lra. lra.
Qed.

(** C5 on the sample event with one sector: the table comes back as it
    is, but bare, where two sectors give a pair; the loop of [process],
    which unpacks a pair, fails on it. *)
Theorem C5_single_sector_returns_bare_table :
  sector_hits (Sample.builder 1 true []) Sample.hits 0 =
    (Sample.hits, Ok (Table Sample.hits)) /\
  (exists extended_sector : DataFrame,
      snd (sector_hits (Sample.builder 2 true []) Sample.hits 1) =
      Ok (Pair extended_sector [])) /\
  process_event_sectors (Sample.builder 1 true []) 5 Sample.hits [] =
    Raise ValueError.
Proof.
  split; [|split].
  - apply sector_hits_single. reflexivity.
  - eexists.
    apply (sector_hits_extended (Sample.builder 2 true []) Sample.hits 1
             [-1; 1] [-1 / 2; 0]); try reflexivity; discriminate.
  - reflexivity.
Qed.

End SectoringSample.

(** ** Cached artifacts *)
Section Caching.
Import Py PointCloudBuilder.

Lemma process_sector_single (self : builder) (evtid s : Z)
    (st : sector_loop_state) :
  n_sectors self = 1%Z ->
  use_cached self evtid = Ok false ->
  process_sector self evtid s st = Raise ValueError \/
  process_sector self evtid s st = Raise TypeError.
Proof.
  intros Hn Hc. unfold process_sector. rewrite Hc. cbn [bind].
  rewrite (sector_hits_single self (hits_table st) s Hn). cbn [bind].
  destruct (hits_table st) as [|c1 [|c2 [|c3 t]]]; cbn; auto.
Qed.

Lemma int_get_setitem {A : Type} (d : list (Z * A)) (k k' : Z) (v : A) :
  int_get (int_setitem d k v) k' =
  if (k =? k')%Z then Some v else int_get d k'.
Proof.
  induction d as [|[k0 v0] d IH]; simpl.
  - reflexivity.
  - destruct (Z.eqb_spec k0 k) as [->|Hne]; simpl.
    + destruct (k =? k')%Z; reflexivity.
    + rewrite IH. destruct (Z.eqb_spec k0 k') as [->|_]; [|reflexivity].
      destruct (Z.eqb_spec k k') as [->|_]; [congruence|reflexivity].
Qed.

(** Every entry of [self.exists] says whether the artifact of sector 0 of
    its event was in the listing of [outdir]. *)
Definition sector0_entries (outfiles : list string) (ex : list (Z * bool)) : Prop :=
  forall (evtid : Z) (cached : bool),
    int_get ex evtid = Some cached ->
    cached = listed (artifact_name evtid 0) outfiles.

Lemma scan_events_entries (indir : string) (outfiles : list string)
    (infiles : list string) :
  forall (prefixes prefixes' : list string) (ex ex' : list (Z * bool)),
    sector0_entries outfiles ex ->
    scan_events indir outfiles infiles prefixes ex = Ok (prefixes', ex') ->
    sector0_entries outfiles ex' /\
    (forall evtid, int_get ex evtid <> None -> int_get ex' evtid <> None) /\
    (forall p, In p infiles -> endswith p suffix = true ->
       exists evtid,
         int_of_str (last_chars 9 (delete_all suffix p)) = Ok evtid /\
         int_get ex' evtid <> None).
Proof.
  induction infiles as [|p rest IH]; intros prefixes prefixes' ex ex' Hinv Hscan;
    cbn [scan_events] in Hscan.
  - injection Hscan as <- <-. repeat split; auto. intros p [].
  - destruct (endswith p suffix) eqn:Hsuf.
    + destruct (int_of_str (last_chars 9 (delete_all suffix p)))
        as [evtid|e] eqn:Hint; cbn [bind] in Hscan; [|discriminate].
      apply IH in Hscan.
      * destruct Hscan as (Hinv' & Hkeep & Hall). split; [exact Hinv'|]. split.
        -- intros k Hk. apply Hkeep. rewrite int_get_setitem.
           destruct (evtid =? k)%Z; [discriminate|exact Hk].
        -- intros q [<-|Hq] Hq'.
           ++ exists evtid. split; [exact Hint|]. apply Hkeep.
              rewrite int_get_setitem, Z.eqb_refl. discriminate.
           ++ now apply Hall.
      * intros k c. rewrite int_get_setitem.
        destruct (Z.eqb_spec evtid k) as [<-|_]; [|apply Hinv].
        intros H. now injection H as <-.
    + apply IH in Hscan; [|exact Hinv].
      destruct Hscan as (Hinv' & Hkeep & Hall). repeat split; auto.
      intros q [<-|Hq] Hq'; [congruence|now apply Hall].
Qed.

(** C6, as the code has it.  After construction on the listings
    [outfiles] of [outdir] and [infiles] of [indir]:
    (a) every event file of [indir] has an entry in [self.exists], and
        every entry records whether [data{evtid}_s0.pt] - the artifact of
        sector 0 - was listed in [outdir];
    (b) for every sector [s] of such an event, with [redo = False] and the
        sector-0 artifact listed, [process] loads [data{evtid}_s{s}.pt]
        from [outdir], appends it to [data_list] and writes nothing, and
        fails if that file is not there;
    (c) otherwise the loop body completes exactly when [sector_hits]
        returns a pair for the sector and [to_pyg_data] returns on its
        extended sector; the artifact is then what [to_pyg_data] made of
        that extended sector, it is written to [data{evtid}_s{s}.pt] and
        appended to [data_list], the hit table is the one [sector_hits]
        left, and the count has grown by the rows of the extended
        sector. *)
Theorem C6_cache_decision_per_event
    (outfiles infiles : list string) (outdir indir : string) (n_sectors : Z)
    (redo pixel_only : bool) (sector_di sector_ds : R)
    (feature_names : list string) (feature_scale : list R)
    (measurement_mode : bool) (thld : R) (remove_noise : bool)
    (self : builder) :
  __init__ outfiles infiles outdir indir n_sectors redo pixel_only sector_di
    sector_ds feature_names feature_scale measurement_mode thld remove_noise =
    Ok self ->
  (forall p, In p infiles -> endswith p suffix = true ->
     exists evtid,
       int_of_str (last_chars 9 (delete_all suffix p)) = Ok evtid /\
       int_get (exists_ self) evtid =
         Some (listed (artifact_name evtid 0) outfiles)) /\
  (forall (evtid : Z) (cached : bool),
     int_get (exists_ self) evtid = Some cached ->
     cached = listed (artifact_name evtid 0) outfiles) /\
  (forall (evtid s : Z) (st : sector_loop_state),
     int_get (exists_ self) evtid <> None ->
     let path := path_join outdir (artifact_name evtid s) in
     if (listed (artifact_name evtid 0) outfiles && negb redo)%bool then
       match get (files st) path with
       | Some data =>
           process_sector self evtid s st =
           Ok {| hits_table := hits_table st; files := files st;
                 loaded := loaded st ++ [data];
                 sector_hit_count := sector_hit_count st |}
       | None =>
           process_sector self evtid s st = Raise (FileNotFoundError path)
       end
     else
       forall st',
         process_sector self evtid s st = Ok st' <->
         exists (hits' sector : DataFrame) (measurements : dict R) (data : Data),
           sector_hits self (hits_table st) s =
             (hits', Ok (Pair sector measurements)) /\
           to_pyg_data self sector = Ok data /\
           st' = {| hits_table := hits';
                    files := setitem (files st) path data;
                    loaded := loaded st ++ [data];
                    sector_hit_count :=
                      (sector_hit_count st + nrows sector)%nat |}).
Proof.
  unfold __init__. intros Hinit.
  destruct (scan_events indir outfiles infiles [] []) as [[prefixes ex]|e] eqn:Hscan;
    cbn [bind] in Hinit; [|discriminate].
  injection Hinit as <-.
  destruct (scan_events_entries indir outfiles infiles [] prefixes [] ex)
    as (Hinv & _ & Hall); [intros k c; discriminate|exact Hscan|].
  cbn [exists_ PointCloudBuilder.redo PointCloudBuilder.outdir].
  split; [|split].
  - intros p Hp Hsuf. destruct (Hall p Hp Hsuf) as (evtid & Hint & Hsome).
    exists evtid. split; [exact Hint|].
    destruct (int_get ex evtid) as [c|] eqn:Hc; [|congruence].
    now rewrite (Hinv evtid c Hc).
  - exact Hinv.
  - intros evtid s st Hsome. cbn zeta.
    destruct (int_get ex evtid) as [c|] eqn:Hc; [|congruence].
    pose proof (Hinv evtid c Hc) as Hc'. subst c.
    unfold process_sector, use_cached, int_getitem.
    cbn [exists_ PointCloudBuilder.redo PointCloudBuilder.outdir].
    rewrite Hc. cbn [bind].
    destruct (listed (artifact_name evtid 0) outfiles && negb redo)%bool.
    + unfold torch_load.
      destruct (get (files st) (path_join outdir (artifact_name evtid s)));
        reflexivity.
    + intros st'.
      match goal with
      | |- context [sector_hits ?b (hits_table st) s] => set (self := b)
      end.
      destruct (sector_hits self (hits_table st) s) as [hits' [ret|e]];
        cbn [bind].
      * destruct ret as [t|sector m]; cbn [unpack_pair bind].
        -- split; [|intros (h & sec & ms & d & Heq & _); discriminate].
           now destruct t as [|c1 [|c2 [|c3 t]]].
        -- destruct (to_pyg_data self sector) as [data|e] eqn:Hd; cbn [bind].
           ++ split.
              ** intros H. injection H as <-.
                 exists hits', sector, m, data. now repeat split.
              ** intros (h & sec & ms & d & Heq & Hd' & ->).
                 injection Heq as <- <- <-.
                 rewrite Hd in Hd'. now injection Hd' as <-.
           ++ split; [discriminate|].
              intros (h & sec & ms & d & Heq & Hd' & _).
              injection Heq as <- <- <-. rewrite Hd in Hd'. discriminate.
      * split; [discriminate|].
        intros (h & sec & ms & d & Heq & _). discriminate.
Qed.

End Caching.

(** C6 on the sample event, built with [redo = False] over an [outdir]
    that holds the artifact of sector 0 only. *)
Lemma C6_cache_decision_per_event_witness :
  Py.int_of_str (Py.last_chars 9
                   (Py.delete_all PointCloudBuilder.suffix
                      "event000000005-hits.csv.gz")) = Py.Ok 5%Z /\
  PointCloudBuilder.int_get
    (PointCloudBuilder.exists_ (Sample.builder 2 false ["data5_s0.pt"%string]))
    5 = Some true /\
  PointCloudBuilder.process_sector
    (Sample.builder 2 false ["data5_s0.pt"%string]) 5 0
    {| PointCloudBuilder.hits_table := Sample.hits;
       PointCloudBuilder.files := [("out/data5_s0.pt"%string, Sample.artifact)];
       PointCloudBuilder.loaded := [];
       PointCloudBuilder.sector_hit_count := 0 |} =
  Py.Ok {| PointCloudBuilder.hits_table := Sample.hits;
           PointCloudBuilder.files := [("out/data5_s0.pt"%string, Sample.artifact)];
           PointCloudBuilder.loaded := [Sample.artifact];
           PointCloudBuilder.sector_hit_count := 0 |}.
Proof.
  destruct (C6_cache_decision_per_event
              ["data5_s0.pt"%string] Sample.infiles "out" "in" 2 false false
              (1 / 10000)%R (11 / 10)%R ["u"; "v"]%string [1; 1]%R false
              (1 / 2)%R false
              (Sample.builder 2 false ["data5_s0.pt"%string]) eq_refl)
    as (Hall & Hinv & Hstep).
  split; [reflexivity|]. split; [reflexivity|].
  exact (Hstep 5%Z 0%Z
           {| PointCloudBuilder.hits_table := Sample.hits;
              PointCloudBuilder.files :=
                [("out/data5_s0.pt"%string, Sample.artifact)];
              PointCloudBuilder.loaded := [];
              PointCloudBuilder.sector_hit_count := 0 |}
           ltac:(discriminate)).
Defined.

(** C6 as stated fails.  With [redo = False]:
    - [outdir] holds [data5_s0.pt] but not [data5_s1.pt]: sector 1 is
      taken for cached, and loading its artifact fails;
    - [outdir] holds [data5_s1.pt] but not [data5_s0.pt]: sector 1 is
      not taken for cached although its own artifact exists. *)
Lemma C6_decision_ignores_own_artifact :
  Sample.new_builder 2 false ["data5_s0.pt"%string] =
    Py.Ok (Sample.builder 2 false ["data5_s0.pt"%string]) /\
  Sample.new_builder 2 false ["data5_s1.pt"%string] =
    Py.Ok (Sample.builder 2 false ["data5_s1.pt"%string]) /\
  (PointCloudBuilder.listed "data5_s1.pt" ["data5_s0.pt"%string] = false /\
   PointCloudBuilder.use_cached
     (Sample.builder 2 false ["data5_s0.pt"%string]) 5 = Py.Ok true /\
   PointCloudBuilder.process_sector
     (Sample.builder 2 false ["data5_s0.pt"%string]) 5 1
     {| PointCloudBuilder.hits_table := Sample.hits;
        PointCloudBuilder.files := [("out/data5_s0.pt"%string, Sample.artifact)];
        PointCloudBuilder.loaded := [];
        PointCloudBuilder.sector_hit_count := 0 |} =
   Py.Raise (Py.FileNotFoundError "out/data5_s1.pt")) /\
  (PointCloudBuilder.listed "data5_s1.pt" ["data5_s1.pt"%string] = true /\
   PointCloudBuilder.use_cached
     (Sample.builder 2 false ["data5_s1.pt"%string]) 5 = Py.Ok false).
Proof.
  repeat split.
Qed.

(* ================================================================== *)
(** * Part III: further properties of the two classes *)
(* ================================================================== *)

(** ** [training_step] over arbitrary runs *)
Section TrainingHistory.
Import Py TCNTrainer.
Variable L : Type.

Lemma training_steps_app (st : step_state) (xs ys : list (result L)) :
  training_steps st (xs ++ ys) =
  let '(st1, o1) := training_steps st xs in
  let '(st2, o2) := training_steps st1 ys in
  (st2, o1 ++ o2).
Proof.
  revert st; induction xs as [|b xs IH]; intros st; cbn [training_steps app].
  - destruct (training_steps st ys); reflexivity.
  - destruct (training_step st b) as [st1 o].
    rewrite IH.
    destruct (training_steps st1 xs) as [st2 os].
    destruct (training_steps st2 ys) as [st3 os']; reflexivity.
Qed.

Lemma training_steps_no_success (bodies : list (result L)) :
  Forall (fun b => succeeded b = false) bodies ->
  forall st : step_state,
    n_oom_errors_in_a_row (fst (training_steps st bodies)) =
      (n_oom_errors_in_a_row st
       + Z.of_nat (List.length (filter oom_failure bodies)))%Z /\
    warnings (fst (training_steps st bodies)) =
      warnings st ++
      repeat oom_warning (List.length (filter oom_failure bodies)).
Proof.
  induction 1 as [|b bodies Hb _ IH]; intros st.
  - simpl. split; [lia|now rewrite app_nil_r].
  - cbn [training_steps].
    destruct (training_step st b) as [st1 o] eqn:Hstep.
    specialize (IH st1).
    destruct (training_steps st1 bodies) as [st2 os]. cbn [fst] in *.
    destruct IH as [IHn IHw]. rewrite IHn, IHw.
    destruct b as [l|e]; [discriminate|].
    unfold training_step in Hstep.
    destruct e; try (injection Hstep as <- <-; cbn [filter oom_failure];
                     split; [lia|reflexivity]).
    cbn [filter oom_failure].
    destruct (is_oom msg).
    + destruct (_ >? 10)%Z; injection Hstep as <- <-;
        cbn [n_oom_errors_in_a_row warnings List.length repeat];
        (split; [lia|now rewrite <- app_assoc]).
    + injection Hstep as <- <-. split; [lia|reflexivity].
Qed.

Lemma training_steps_warnings (bodies : list (result L)) :
  forall st : step_state,
    warnings (fst (training_steps st bodies)) =
    warnings st ++ repeat oom_warning (List.length (filter (@oom_failure L) bodies)).
Proof.
  induction bodies as [|b bodies IH]; intros st; cbn [training_steps filter].
  - cbn. now rewrite app_nil_r.
  - destruct (training_step st b) as [st1 o] eqn:Hstep.
    specialize (IH st1).
    destruct (training_steps st1 bodies) as [st2 os]. cbn [fst] in *.
    rewrite IH. unfold training_step in Hstep.
    destruct b as [loss|e]; [now injection Hstep as <- <-|].
    destruct e; try (now injection Hstep as <- <-).
    cbn [oom_failure]. destruct (is_oom msg).
    + destruct (_ >? 10)%Z; injection Hstep as <- <-;
        cbn [warnings List.length repeat]; now rewrite <- app_assoc.
    + now injection Hstep as <- <-.
Qed.

(** X1.  After any run of calls that contains a successful one, the
    counter [_n_oom_errors_in_a_row] is the number of out-of-memory
    failures since the last success: failures of another kind neither
    reset the counter nor advance it.  And the log has grown by exactly
    one warning for each out-of-memory failure of the whole run, and by
    nothing else. *)
Theorem training_step_counts_oom_since_success
    (st : step_state) (before after : list (result L)) (loss : L) :
  Forall (fun b => succeeded b = false) after ->
  let run := before ++ Ok loss :: after in
  let final := fst (training_steps st run) in
  n_oom_errors_in_a_row final =
    Z.of_nat (List.length (filter (@oom_failure L) after)) /\
  warnings final =
    warnings st ++
    repeat oom_warning (List.length (filter (@oom_failure L) run)).
Proof.
  intros Hafter. cbn zeta. split; [|apply training_steps_warnings].
  rewrite training_steps_app.
  destruct (training_steps st before) as [st1 o1].
  cbn [training_steps].
  change (training_step st1 (Ok loss))
    with ({| n_oom_errors_in_a_row := 0; warnings := warnings st1 |},
          Returned loss).
  destruct (training_steps_no_success after Hafter
              {| n_oom_errors_in_a_row := 0; warnings := warnings st1 |})
    as [Hn _].
  destruct (training_steps _ after) as [st2 o2]. cbn [fst] in *.
  rewrite Hn. cbn. lia.
Qed.

End TrainingHistory.

(** X1 on a run with a shape error between out-of-memory failures: the
    counter ends at 2, and the five out-of-memory failures of the run
    left five warnings. *)
Lemma training_step_counts_oom_since_success_witness :
  let oom := Py.Raise (Py.RuntimeError "CUDA out of memory") in
  let other := Py.Raise (Py.RuntimeError "shape mismatch") in
  let final :=
    fst (TCNTrainer.training_steps TCNTrainer.init_step_state
           ([oom; oom] ++ Py.Ok 1%Z :: [oom; other; oom; Py.Raise Py.ValueError]))
  in
  TCNTrainer.n_oom_errors_in_a_row final = 2%Z /\
  TCNTrainer.warnings final = repeat TCNTrainer.oom_warning 4.
Proof.
  cbn zeta.
  destruct (training_step_counts_oom_since_success Z
              TCNTrainer.init_step_state
              [Py.Raise (Py.RuntimeError "CUDA out of memory");
               Py.Raise (Py.RuntimeError "CUDA out of memory")]
              [Py.Raise (Py.RuntimeError "CUDA out of memory");
               Py.Raise (Py.RuntimeError "shape mismatch");
               Py.Raise (Py.RuntimeError "CUDA out of memory");
               Py.Raise Py.ValueError] 1%Z) as [Hn Hw].
  - repeat constructor.
  - split; [exact Hn|exact Hw].
Defined.

(** ** The out-of-memory test on the error text *)
Section OomText.
Import Py TCNTrainer.

Lemma casefold_append (a b : string) :
  casefold (String.append a b) = String.append (casefold a) (casefold b).
Proof.
  induction a as [|c a IH]; simpl; [reflexivity|now rewrite IH].
Qed.

Lemma prefix_append (p s : string) : String.prefix p (String.append p s) = true.
Proof.
  induction p as [|c p IH]; simpl.
  - destruct s; reflexivity.
  - destruct (ascii_dec c c); [exact IH|congruence].
Qed.

Lemma contains_unfold (pat s : string) :
  contains pat s =
  (String.prefix pat s ||
   match s with
   | EmptyString => false
   | String _ s' => contains pat s'
   end)%bool.
Proof. destruct s; reflexivity. Qed.

Lemma contains_append (pat a b : string) :
  contains pat (String.append a (String.append pat b)) = true.
Proof.
  induction a as [|c a IH].
  - cbn [String.append]. rewrite contains_unfold, prefix_append. reflexivity.
  - cbn [String.append]. rewrite contains_unfold.
    cbn iota. rewrite IH. apply orb_true_r.
Qed.

(** X2.  The out-of-memory test ignores letter case and position: a text
    that contains ["out of memory"] in any mix of upper and lower case,
    anywhere, is taken for an out-of-memory error. *)
Theorem is_oom_any_case_anywhere (before variant after : string) :
  casefold variant = "out of memory"%string ->
  is_oom (String.append before (String.append variant after)) = true.
Proof.
  intros Hv. unfold is_oom.
  rewrite !casefold_append, Hv. apply contains_append.
Qed.

End OomText.

Lemma is_oom_any_case_anywhere_witness :
  TCNTrainer.is_oom "RuntimeError: CUDA Out Of Memory. Tried to allocate" = true.
Proof.
  apply (is_oom_any_case_anywhere "RuntimeError: CUDA " "Out Of Memory"
           ". Tried to allocate").
  reflexivity.
Defined.

(** ** More on the loss aggregator *)
Section LossEdgeCases.
Import Py TCNTrainer.

Variable unpack : string -> loss_returns float -> dict float.
Variable self : trainer.

(** The dictionary [losses] after the loop of lines 177-181. *)
Definition merged_losses (rets : list (string * loss_returns float)) : dict float :=
  fold_left (fun l kr => update l (unpack (fst kr) (snd kr))) rets [].

(** X3.  When the loss functions return but produce no sub-loss at all -
    in particular when none is configured - [get_batch_losses] does not
    return a zero total: the sum is then the integer 0 and the
    not-a-number test on it raises [TypeError]. *)
Theorem get_batch_losses_without_losses (mo : model_output)
    (rets : list (string * loss_returns float)) :
  loss_results (loss_functions self) mo = Ok rets ->
  merged_losses rets = [] ->
  get_batch_losses unpack self mo = Raise TypeError.
Proof.
  intros Hr He. unfold get_batch_losses.
  rewrite (collect_losses_spec unpack mo (loss_functions self) rets [] [] Hr).
  cbn [bind]. fold (merged_losses rets). rewrite He.
  cbn [weighted_sum]. reflexivity.
Qed.

(** X4.  The first loss function that raises decides the outcome: its
    exception leaves [get_batch_losses] as it is, whatever the functions
    configured after it would have done. *)
Theorem get_batch_losses_propagates (mo : model_output)
    (before after : dict (loss_function * loss_returns float))
    (key : string) (f : loss_function) (w : loss_returns float) (e : exn) :
  loss_functions self = before ++ (key, (f, w)) :: after ->
  Forall (fun kf => exists r, fst (snd kf) mo = Ok r) before ->
  f mo = Raise e ->
  get_batch_losses unpack self mo = Raise e.
Proof.
  intros Hcfg Hbefore Hf. unfold get_batch_losses.
  rewrite (collect_losses_raises unpack mo (loss_functions self) e);
    [reflexivity|].
  rewrite Hcfg. unfold loss_results. clear Hcfg.
  induction Hbefore as [|[k0 [f0 w0]] before [r Hr] _ IH]; cbn [app mapM fst snd].
  - rewrite Hf. reflexivity.
  - cbn [fst snd] in Hr. rewrite Hr. cbn [bind]. rewrite IH. reflexivity.
Qed.

Lemma weighted_sum_weights (losses : dict float) :
  forall (weights : dict float) (acc : float),
    let weights' := fst (weighted_sum losses weights acc) in
    (forall k w, get weights k = Some w -> get weights' k = Some w) /\
    (forall k, In k (keys losses) ->
       get weights' k = Some (weight_of weights k)).
Proof.
  induction losses as [|[k l] losses IH]; intros weights acc; cbn zeta.
  - cbn. split; [auto|intros k []].
  - cbn [weighted_sum].
    pose proof (weights_getitem_weight_of weights k) as [_ Hsame].
    assert (Hk : get (fst (weights_getitem weights k)) k =
                 Some (weight_of weights k)).
    { unfold weights_getitem, weight_of.
      destruct (get weights k) as [w|] eqn:E; cbn [fst].
      - exact E.
      - rewrite get_setitem, String.eqb_refl. reflexivity. }
    assert (Hkeep : forall k' w, get weights k' = Some w ->
                       get (fst (weights_getitem weights k)) k' = Some w).
    { intros k' w Hw. unfold weights_getitem.
      destruct (get weights k) as [w0|] eqn:E; cbn [fst]; [exact Hw|].
      rewrite get_setitem.
      destruct (String.eqb_spec k k') as [<-|_]; [congruence|exact Hw]. }
    destruct (weights_getitem weights k) as [weights1 w1]. cbn [fst] in *.
    destruct (IH weights1 (PrimFloat.add acc (PrimFloat.mul w1 l)))
      as [IHkeep IHin].
    split.
    + intros k' w Hw. apply IHkeep. now apply Hkeep.
    + intros k' [<-|Hin].
      * apply IHkeep. exact Hk.
      * rewrite (IHin k' Hin). f_equal. apply Hsame.
Qed.

(** X5.  The weights that [get_batch_losses] returns hold an entry for
    every sub-loss it returns - the weight specified for that key, or 1.0
    if none was - and every specified weight unchanged. *)
Theorem get_batch_losses_weights_cover (mo : model_output)
    (total : float) (losses weights : dict float) :
  get_batch_losses unpack self mo = Ok (total, losses, weights) ->
  (forall k, In k (keys losses) ->
     get weights k =
     Some (weight_of (specified_weights unpack (loss_functions self)) k)) /\
  (forall k w,
     get (specified_weights unpack (loss_functions self)) k = Some w ->
     get weights k = Some w).
Proof.
  unfold get_batch_losses. intros H.
  destruct (loss_results (loss_functions self) mo) as [rets|e] eqn:Hr.
  - rewrite (collect_losses_spec unpack mo (loss_functions self) rets [] [] Hr)
      in H.
    cbn [bind] in H. fold (specified_weights unpack (loss_functions self)) in H.
    fold (merged_losses rets) in H.
    pose proof (weighted_sum_weights (merged_losses rets)
                  (specified_weights unpack (loss_functions self)) 0%float)
      as [Hkeep Hin].
    cbn zeta in Hkeep, Hin.
    destruct (weighted_sum (merged_losses rets) _ 0%float) as [weights' t].
    cbn [fst] in *.
    destruct (merged_losses rets) as [|kv ls]; [discriminate|].
    destruct (PrimFloat.is_nan t); [discriminate|].
    injection H as <- <- <-. split; assumption.
  - rewrite (collect_losses_raises unpack mo (loss_functions self) e) in H
      by exact Hr.
    discriminate.
Qed.

(** *** Not-a-number spreads *)

Lemma is_nan_spec (x : float) :
  PrimFloat.is_nan x = true <-> FloatOps.Prim2SF x = SpecFloat.S754_nan.
Proof.
  unfold PrimFloat.is_nan. rewrite FloatAxioms.eqb_spec, negb_true_iff.
  unfold SpecFloat.SFeqb.
  destruct (FloatOps.Prim2SF x) as [s|s| |s m e]; cbn.
  - split; discriminate.
  - destruct s; split; discriminate.
  - split; reflexivity.
  - rewrite Z.compare_refl, Pos.compare_cont_refl.
    destruct s; cbn; split; discriminate.
Qed.

Lemma is_nan_add_l (x y : float) :
  PrimFloat.is_nan x = true -> PrimFloat.is_nan (PrimFloat.add x y) = true.
Proof.
  rewrite !is_nan_spec, FloatAxioms.add_spec. intros ->. reflexivity.
Qed.

Lemma is_nan_add_r (x y : float) :
  PrimFloat.is_nan y = true -> PrimFloat.is_nan (PrimFloat.add x y) = true.
Proof.
  rewrite !is_nan_spec, FloatAxioms.add_spec. intros ->.
  unfold FloatAxioms.SF64add, SpecFloat.SFadd.
  destruct (FloatOps.Prim2SF x); reflexivity.
Qed.

Lemma is_nan_mul_r (x y : float) :
  PrimFloat.is_nan y = true -> PrimFloat.is_nan (PrimFloat.mul x y) = true.
Proof.
  rewrite !is_nan_spec, FloatAxioms.mul_spec. intros ->.
  unfold FloatAxioms.SF64mul, SpecFloat.SFmul.
  destruct (FloatOps.Prim2SF x); reflexivity.
Qed.

Lemma weighted_total_nan_acc (weights losses : dict float) :
  forall acc : float,
    PrimFloat.is_nan acc = true ->
    PrimFloat.is_nan
      (fold_left
         (fun acc kv =>
            PrimFloat.add acc
              (PrimFloat.mul (weight_of weights (fst kv)) (snd kv)))
         losses acc) = true.
Proof.
  induction losses as [|kv losses IH]; intros acc Hacc; cbn [fold_left].
  - exact Hacc.
  - apply IH. now apply is_nan_add_l.
Qed.

Lemma weighted_total_nan_entry (weights losses : dict float) (k : string) (l : float) :
  In (k, l) losses ->
  PrimFloat.is_nan l = true ->
  forall acc : float,
    PrimFloat.is_nan
      (fold_left
         (fun acc kv =>
            PrimFloat.add acc
              (PrimFloat.mul (weight_of weights (fst kv)) (snd kv)))
         losses acc) = true.
Proof.
  induction losses as [|kv losses IH]; intros Hin Hl acc; [contradiction|].
  cbn [fold_left]. destruct Hin as [->|Hin].
  - apply weighted_total_nan_acc. apply is_nan_add_r. now apply is_nan_mul_r.
  - now apply IH.
Qed.

(** X6.  A sub-loss that is not-a-number is never averaged away: whatever
    the weights and the other sub-losses, [get_batch_losses] raises the
    [RuntimeError] of line 184. *)
Theorem get_batch_losses_nan_sub_loss (mo : model_output)
    (rets : list (string * loss_returns float)) (k : string) (l : float) :
  loss_results (loss_functions self) mo = Ok rets ->
  In (k, l) (merged_losses rets) ->
  PrimFloat.is_nan l = true ->
  get_batch_losses unpack self mo = Raise (RuntimeError nan_loss_message).
Proof.
  intros Hr Hin Hl.
  assert (Hne : merged_losses rets <> []) by (intros E; rewrite E in Hin; exact Hin).
  destruct (get_batch_losses_returns unpack self mo rets Hr Hne) as [w' Hg].
  rewrite Hg. fold (merged_losses rets).
  unfold weighted_total.
  now rewrite (weighted_total_nan_entry _ _ k l Hin Hl).
Qed.

End LossEdgeCases.

(** X3 on a trainer without loss functions. *)
Lemma get_batch_losses_without_losses_witness :
  TCNTrainer.get_batch_losses (@TCNTrainer.unpack_loss_returns float)
    (Sample.trainer_with []) Sample.bundle = Py.Raise Py.TypeError.
Proof.
  apply (get_batch_losses_without_losses (@TCNTrainer.unpack_loss_returns float)
           (Sample.trainer_with []) Sample.bundle []); reflexivity.
Defined.

(** X4 on a configuration whose second loss function misses an input. *)
Lemma get_batch_losses_propagates_witness :
  TCNTrainer.get_batch_losses (@TCNTrainer.unpack_loss_returns float)
    (Sample.trainer_with
       ([("potential"%string,
          (fun _ => Py.Ok (TCNTrainer.LScalar 2%float), TCNTrainer.LScalar 3%float))]
        ++ ("background"%string,
            (fun _ => Py.Raise (Py.KeyError "beta"), TCNTrainer.LScalar 1%float))
        :: [("edge"%string,
             (fun _ => Py.Ok (TCNTrainer.LScalar nan), TCNTrainer.LScalar 1%float))]))
    Sample.bundle = Py.Raise (Py.KeyError "beta").
Proof.
  eapply get_batch_losses_propagates.
  - reflexivity.
  - repeat constructor. cbn. eauto.
  - reflexivity.
Defined.

(** X5 on the sample configuration: the weight of ["edge_repulsive"],
    which no specification names, is returned as 1.0. *)
Lemma get_batch_losses_weights_cover_witness :
  exists (total : float) (losses weights : Py.dict float),
    TCNTrainer.get_batch_losses (@TCNTrainer.unpack_loss_returns float)
      Sample.self Sample.bundle = Py.Ok (total, losses, weights) /\
    Py.get weights "edge_repulsive" = Some 1%float /\
    Py.get weights "background_1" = Some 4%float.
Proof.
  destruct (TCNTrainer.get_batch_losses (@TCNTrainer.unpack_loss_returns float)
              Sample.self Sample.bundle) as [[[total losses] weights]|e] eqn:H;
    [|vm_compute in H; discriminate].
  exists total, losses, weights. split; [reflexivity|].
  destruct (get_batch_losses_weights_cover (@TCNTrainer.unpack_loss_returns float)
              Sample.self Sample.bundle total losses weights H) as [Hin Hkeep].
  assert (Hl : losses =
               [("potential", 2%float); ("background_0", 1%float);
                ("background_1", 0.5%float); ("edge_attractive", 1.5%float);
                ("edge_repulsive", 0.25%float)]%string).
  { vm_compute in H. now injection H as _ <- _. }
  split.
  - rewrite (Hin "edge_repulsive"%string); [reflexivity|].
    rewrite Hl. cbn. tauto.
  - apply Hkeep. reflexivity.
Defined.

(** X6 on a not-a-number sub-loss that carries the weight 0. *)
Lemma get_batch_losses_nan_sub_loss_witness :
  TCNTrainer.get_batch_losses (@TCNTrainer.unpack_loss_returns float)
    (Sample.trainer_with
       [("potential"%string,
         (fun _ => Py.Ok (TCNTrainer.LScalar 2%float), TCNTrainer.LScalar 3%float));
        ("edge"%string,
         (fun _ => Py.Ok (TCNTrainer.LScalar nan), TCNTrainer.LScalar 0%float))])
    Sample.bundle =
  Py.Raise (Py.RuntimeError TCNTrainer.nan_loss_message).
Proof.
  eapply (get_batch_losses_nan_sub_loss (@TCNTrainer.unpack_loss_returns float)
            _ Sample.bundle _ "edge"%string nan).
  - reflexivity.
  - cbn. right. left. reflexivity.
  - reflexivity.
Defined.

(** ** More on the edge mask *)
Section EdgeMaskMore.
Import Py TCNTrainer.

Lemma index_at_Ok_valid {A : Type} (t : list A) (i : Z) (a : A) :
  index_at t i = Ok a -> valid_index t i.
Proof.
  unfold index_at, valid_index.
  set (n := Z.of_nat (List.length t)).
  destruct (Z.ltb_spec i 0) as [Hneg|Hpos];
    match goal with
    | |- context [((0 <=? ?j)%Z && (?j <? n)%Z)%bool] =>
        destruct (Z.leb_spec 0 j); destruct (Z.ltb_spec j n);
        cbn [andb]; try discriminate
    end; intros _; lia.
Qed.

Lemma index_at_raises {A : Type} (t : list A) (i : Z) (e : exn) :
  index_at t i = Raise e -> e = IndexError.
Proof.
  unfold index_at.
  destruct (_ && _)%bool; [destruct (nth_error t _)|]; congruence.
Qed.

Lemma gather_raises {A : Type} (t : list A) (idx : list Z) (e : exn) :
  gather t idx = Raise e -> e = IndexError.
Proof.
  unfold gather. induction idx as [|i idx IH]; cbn [mapM]; [discriminate|].
  destruct (index_at t i) as [a|e'] eqn:Hi; cbn [bind].
  - destruct (mapM (index_at t) idx) as [r|e'']; cbn [bind]; [discriminate|].
    intros H. apply IH. congruence.
  - intros H. injection H as <-. now apply (index_at_raises t i e').
Qed.

Lemma gather_Ok_valid {A : Type} (t : list A) (idx : list Z) (r : list A) :
  gather t idx = Ok r -> Forall (valid_index t) idx.
Proof.
  unfold gather. intros H. apply mapM_Forall2 in H.
  induction H as [|i a idx r Hi _ IH]; constructor; [|exact IH].
  now apply (index_at_Ok_valid t i a).
Qed.

Lemma edge_pt_mask_Ok_valid (edges : list (Z * Z)) (pt : list Q) (pt_min : Q)
    (mask : list bool) :
  _edge_pt_mask edges pt pt_min = Ok mask ->
  Forall (fun e => valid_index pt (fst e) /\ valid_index pt (snd e)) edges.
Proof.
  intros Hm. unfold _edge_pt_mask in Hm.
  destruct (gather pt (map fst edges)) as [pa|e] eqn:Ha; cbn [bind] in Hm;
    [|discriminate].
  destruct (gather pt (map snd edges)) as [pb|e] eqn:Hb; cbn [bind] in Hm;
    [|discriminate].
  apply gather_Ok_valid in Ha. apply gather_Ok_valid in Hb.
  rewrite Forall_map in Ha, Hb.
  rewrite Forall_forall in *. intros e He. split; auto.
Qed.

(** X7.  [_edge_pt_mask] returns a mask exactly if every endpoint of every
    edge is an index the momentum vector accepts (from [-n] to [n - 1]
    for [n] hits); otherwise it raises [IndexError]. *)
Theorem edge_pt_mask_defined_iff (edges : list (Z * Z)) (pt : list Q) (pt_min : Q) :
  ((exists mask, _edge_pt_mask edges pt pt_min = Ok mask) <->
   Forall (fun e => valid_index pt (fst e) /\ valid_index pt (snd e)) edges) /\
  ((forall mask, _edge_pt_mask edges pt pt_min <> Ok mask) ->
   _edge_pt_mask edges pt pt_min = Raise IndexError).
Proof.
  split.
  - split; [|apply edge_pt_mask_defined].
    intros [mask Hm]. exact (edge_pt_mask_Ok_valid edges pt pt_min mask Hm).
  - intros Hno. unfold _edge_pt_mask in *.
    destruct (gather pt (map fst edges)) as [pa|e] eqn:Ha; cbn [bind] in *.
    + destruct (gather pt (map snd edges)) as [pb|e] eqn:Hb; cbn [bind] in *.
      * exfalso. eapply Hno. reflexivity.
      * now rewrite (gather_raises pt _ e Hb).
    + now rewrite (gather_raises pt _ e Ha).
Qed.

(** X8.  Raising the momentum threshold never brings an edge back: the
    mask exists for the higher threshold whenever it does for the lower
    one, and every edge it keeps is kept at the lower threshold too. *)
Theorem edge_pt_mask_monotone (edges : list (Z * Z)) (pt : list Q)
    (lower higher : Q) (mask : list bool) :
  (lower <= higher)%Q ->
  _edge_pt_mask edges pt lower = Ok mask ->
  exists mask' : list bool,
    _edge_pt_mask edges pt higher = Ok mask' /\
    Forall2 (fun b' b => b' = true -> b = true) mask' mask.
Proof.
  intros Hle Hm.
  assert (Hv : Forall (fun e => valid_index pt (fst e) /\ valid_index pt (snd e))
                 edges).
  { exact (edge_pt_mask_Ok_valid edges pt lower mask Hm). }
  destruct (edge_pt_mask_defined edges pt higher Hv) as [mask' Hm'].
  exists mask'. split; [exact Hm'|].
  apply edge_pt_mask_entries in Hm. apply edge_pt_mask_entries in Hm'.
  clear Hv. revert mask' Hm'.
  induction Hm as [|e b edges mask He _ IH]; intros mask' Hm';
    inversion Hm' as [|e' b' edges' mask'' He' Hrest]; subst; constructor.
  - destruct He as (pa & pb & Ha & Hb & ->).
    destruct He' as (pa' & pb' & Ha' & Hb' & ->).
    assert (pa' = pa) by congruence. assert (pb' = pb) by congruence. subst.
    rewrite !orb_true_iff, !Qgtb_true_iff.
    intros [H|H]; [left|right]; eapply Qle_lt_trans; eassumption.
  - now apply IH.
Qed.

Lemma mask_or_comm (a b : list bool) : mask_or a b = mask_or b a.
Proof.
  revert b. induction a as [|x a IH]; intros [|y b]; cbn; try reflexivity.
  now rewrite IH, orb_comm.
Qed.

(** X9.  The mask does not depend on the direction of the edges: turning
    every edge around gives the same mask, or the same [IndexError]. *)
Theorem edge_pt_mask_undirected (edges : list (Z * Z)) (pt : list Q) (pt_min : Q) :
  _edge_pt_mask (map (fun e => (snd e, fst e)) edges) pt pt_min =
  _edge_pt_mask edges pt pt_min.
Proof.
  unfold _edge_pt_mask. rewrite !map_map. cbn [fst snd].
  change (map (fun e : Z * Z => snd e) edges) with (map snd edges).
  change (map (fun e : Z * Z => fst e) edges) with (map fst edges).
  destruct (gather pt (map fst edges)) as [pa|ea] eqn:Ha;
    destruct (gather pt (map snd edges)) as [pb|eb] eqn:Hb; cbn [bind].
  - now rewrite mask_or_comm.
  - reflexivity.
  - now rewrite (gather_raises pt _ ea Ha).
  - rewrite (gather_raises pt _ ea Ha), (gather_raises pt _ eb Hb). reflexivity.
Qed.

End EdgeMaskMore.

Lemma edge_pt_mask_monotone_witness :
  exists mask' : list bool,
    TCNTrainer._edge_pt_mask Sample.edges Sample.pt (15 # 10) = Py.Ok mask' /\
    Forall2 (fun b' b => b' = true -> b = true) mask' [true; false].
Proof.
  apply (edge_pt_mask_monotone Sample.edges Sample.pt (9 # 10) (15 # 10)).
  - unfold Qle. cbn. lia.
  - reflexivity.
Defined.

(** ** Keys of merged dictionaries *)
Section DictKeys.
Import Py.
Variable V : Type.

Lemma keys_update (e d : dict V) (k : string) :
  In k (keys (update d e)) <-> In k (keys d) \/ In k (keys e).
Proof.
  unfold update. revert d.
  induction e as [|[k0 v0] e IH]; intros d; cbn [fold_left fst snd].
  - cbn. tauto.
  - rewrite IH, keys_setitem_in. cbn. intuition congruence.
Qed.

Lemma get_update_distinct (e d : dict V) (k : string) :
  NoDup (keys e) ->
  get (update d e) k =
  match get e k with
  | Some v => Some v
  | None => get d k
  end.
Proof.
  unfold update. revert d.
  induction e as [|[k0 v0] e IH]; intros d Hnd; cbn [fold_left get fst snd].
  - reflexivity.
  - inversion Hnd as [|? ? Hnot Hnd']; subst.
    rewrite IH by exact Hnd'.
    destruct (String.eqb_spec k0 k) as [->|Hne].
    + apply get_None_iff in Hnot. rewrite Hnot.
      now rewrite get_setitem, String.eqb_refl.
    + destruct (get e k); [reflexivity|].
      rewrite get_setitem.
      destruct (String.eqb_spec k0 k); [contradiction|reflexivity].
Qed.

Lemma get_remove_other (d : dict V) (k k' : string) :
  k <> k' -> get (remove d k) k' = get d k'.
Proof.
  intros Hne. induction d as [|[k0 v0] d IH]; cbn [remove get].
  - reflexivity.
  - destruct (String.eqb_spec k0 k) as [->|Hk].
    + destruct (String.eqb_spec k k'); [contradiction|reflexivity].
    + cbn [get]. now rewrite IH.
Qed.

Lemma get_remove_same (d : dict V) (k : string) :
  wf d -> get (remove d k) k = None.
Proof.
  intros Hwf. apply get_None_iff. now apply remove_absent.
Qed.

End DictKeys.

(** ** Names of the edge-classification metrics *)
Section MetricNames.
Import Py TCNTrainer.

Variable BinaryClassificationStats_get_all :
  list Q -> list Z -> Q -> result (dict float).
Variable get_maximized_bcs : list Q -> list Z -> result (dict float).
Variable roc_auc_score : list Z -> list Q -> option Q -> result float.
Variable denote_pt : string -> Q -> string.

Ltac step H :=
  match type of H with
  | bind ?m _ = Ok _ =>
      let E := fresh "E" in
      destruct m eqn:E; cbn [bind] in H; [|discriminate]
  end.

(** X10.  Every metric that [evaluate_ec_metrics_with_pt_thld] returns
    carries the tag of its momentum threshold - its name is [denote_pt]
    of some metric name and [pt_min] - and the area under the curve is
    among them: plain and for the false-positive rates 0.001, 0.01 and
    0.1. *)
Theorem ec_metrics_are_tagged (mo : model_output) (pt_min ec_thr : Q)
    (res : dict float) :
  evaluate_ec_metrics_with_pt_thld BinaryClassificationStats_get_all
    get_maximized_bcs roc_auc_score denote_pt mo pt_min ec_thr = Ok res ->
  (forall k, In k (keys res) -> exists k0, k = denote_pt k0 pt_min) /\
  Forall (fun k0 => In (denote_pt k0 pt_min) (keys res))
    ["roc_auc"; "roc_auc_0.001FPR"; "roc_auc_0.01FPR"; "roc_auc_0.1FPR"]%string.
Proof.
  unfold evaluate_ec_metrics_with_pt_thld. intros H.
  repeat step H.
  injection H as <-.
  match goal with
  | |- context [map _ ?m] => set (metrics := m)
  end.
  assert (Hkeys : forall k,
             In k (keys (update [] (map (fun kv => (denote_pt (fst kv) pt_min, snd kv))
                                        metrics))) <->
             exists k0, In k0 (keys metrics) /\ k = denote_pt k0 pt_min).
  { intros k. rewrite keys_update. cbn [keys map In]. unfold keys.
    rewrite map_map. cbn [fst]. rewrite in_map_iff. split.
    - intros [[]|[kv [<- Hin]]]. exists (fst kv). split; [now apply in_map|reflexivity].
    - intros [k0 [Hin ->]]. right. apply in_map_iff in Hin.
      destruct Hin as [kv [<- Hin]]. now exists kv. }
  split.
  - intros k Hk. apply Hkeys in Hk. destruct Hk as [k0 [_ ->]]. now exists k0.
  - assert (Hin : forall k0,
               In k0 ["roc_auc"; "roc_auc_0.001FPR"; "roc_auc_0.01FPR";
                      "roc_auc_0.1FPR"]%string -> In k0 (keys metrics)).
    { intros k0 Hk0. subst metrics. rewrite !keys_setitem_in.
      cbn [In] in Hk0. intuition congruence. }
    rewrite Forall_forall. intros k0 Hk0. apply Hkeys.
    exists k0. split; [now apply Hin|reflexivity].
Qed.

End MetricNames.

Lemma ec_metrics_are_tagged_witness :
  exists res : Py.dict float,
    TCNTrainer.evaluate_ec_metrics_with_pt_thld Sample.count_stats
      Sample.count_maximized Sample.half_auc Sample.tag_pt
      Sample.bundle (9 # 10) (1 # 2) = Py.Ok res /\
    In "roc_auc_0.01FPR_pt9/10"%string (Py.keys res).
Proof.
  destruct (TCNTrainer.evaluate_ec_metrics_with_pt_thld Sample.count_stats
              Sample.count_maximized Sample.half_auc Sample.tag_pt
              Sample.bundle (9 # 10) (1 # 2)) as [res|e] eqn:H;
    [|vm_compute in H; discriminate].
  exists res. split; [reflexivity|].
  destruct (ec_metrics_are_tagged Sample.count_stats Sample.count_maximized
              Sample.half_auc Sample.tag_pt Sample.bundle (9 # 10) (1 # 2) res H)
    as [_ Hall].
  rewrite Forall_forall in Hall.
  apply (Hall "roc_auc_0.01FPR"%string). cbn. tauto.
Defined.

(** ** What a clustering result leaves behind *)
Section ClusterResults.
Import Py TCNTrainer.

Variable V : Type.
Variable cluster_eval_input : dict (list tensor).
Variable epoch : Z.

Lemma cluster_loop_keeps_keys (fns : dict (cluster_function V)) :
  forall (cache cache' : dict (dict V)) (m m' : dict V) (k : string),
    _evaluate_cluster_metrics_loop fns cluster_eval_input epoch cache m =
      (cache', Ok m') ->
    In k (keys m) -> In k (keys m').
Proof.
  induction fns as [|[k0 f0] fns IH]; intros cache cache' m m' k Hrun Hk;
    cbn [_evaluate_cluster_metrics_loop] in Hrun.
  - injection Hrun as _ <-. exact Hk.
  - destruct (call_cluster_function f0 cluster_eval_input epoch (get cache k0))
      as [[r|]|e]; [| |discriminate].
    + eapply IH; [exact Hrun|]. rewrite !keys_update. tauto.
    + eapply IH; eassumption.
Qed.

Lemma cluster_loop_stores (fns : dict (cluster_function V)) (name : string)
    (f : cluster_function V) (r : cluster_result V) :
  wf fns ->
  In (name, f) fns ->
  forall (cache cache' : dict (dict V)) (m m' : dict V),
    _evaluate_cluster_metrics_loop fns cluster_eval_input epoch cache m =
      (cache', Ok m') ->
    call_cluster_function f cluster_eval_input epoch (get cache name) =
      Ok (Some r) ->
    get cache' name = Some (best_params r) /\
    (forall k, In k (keys (metrics r)) -> In k (keys m')) /\
    (forall p, In p (keys (best_params r)) ->
       In (String.append "best_" (String.append name (String.append "_" p)))
          (keys m')).
Proof.
  induction fns as [|[k0 f0] fns IH]; intros Hwf Hin cache cache' m m' Hrun Hcall.
  - contradiction.
  - assert (Hwf' : wf fns) by (unfold wf in *; cbn in Hwf; now inversion Hwf).
    assert (Hk0 : ~ In k0 (keys fns)) by (unfold wf in *; cbn in Hwf; now inversion Hwf).
    cbn [_evaluate_cluster_metrics_loop] in Hrun.
    destruct (String.eqb_spec k0 name) as [->|Hne].
    + assert (f = f0) by (eapply wf_in_unique; eassumption). subst f0.
      rewrite Hcall in Hrun.
      split; [|split].
      * pose proof (cluster_loop_frame V cluster_eval_input epoch fns name Hk0
                      (setitem cache name (best_params r))
                      (update (update m (metrics r))
                              (best_param_metrics name (best_params r)))) as Hf.
        rewrite Hrun in Hf. cbn [fst] in Hf. rewrite Hf.
        now rewrite get_setitem, String.eqb_refl.
      * intros k Hk. eapply cluster_loop_keeps_keys; [exact Hrun|].
        rewrite !keys_update. tauto.
      * intros p Hp. eapply cluster_loop_keeps_keys; [exact Hrun|].
        rewrite keys_update. right. unfold best_param_metrics.
        rewrite keys_update. right. unfold keys in *. rewrite map_map.
        apply in_map_iff in Hp. destruct Hp as [pv [<- Hpv]].
        apply in_map_iff. now exists pv.
    + assert (Hin' : In (name, f) fns).
      { destruct Hin as [H|H]; [congruence|exact H]. }
      destruct (call_cluster_function f0 cluster_eval_input epoch (get cache k0))
        as [[r0|]|e]; [| |discriminate].
      * eapply (IH Hwf' Hin'); [exact Hrun|].
        rewrite get_setitem_other by exact Hne. exact Hcall.
      * eapply (IH Hwf' Hin'); eassumption.
Qed.

(** X11.  When [_evaluate_cluster_metrics] completes, every clustering
    function that returned a result has left its [best_params] in the
    cache under its name - the warm start of the next epoch - and the
    names of its metrics, and [best_<name>_<param>] for each of its
    parameters, are among the returned metrics; cache entries of names
    that are not configured are as they were. *)
Theorem cluster_results_are_recorded
    (fns : dict (cluster_function V)) (cache cache' : dict (dict V))
    (returned : dict V) :
  wf fns ->
  _evaluate_cluster_metrics fns epoch cache cluster_eval_input =
    (cache', Ok returned) ->
  (forall (name : string) (f : cluster_function V) (r : cluster_result V),
      In (name, f) fns ->
      call_cluster_function f cluster_eval_input epoch (get cache name) =
        Ok (Some r) ->
      get cache' name = Some (best_params r) /\
      (forall k, In k (keys (metrics r)) -> In k (keys returned)) /\
      (forall p, In p (keys (best_params r)) ->
         In (String.append "best_" (String.append name (String.append "_" p)))
            (keys returned))) /\
  (forall name : string,
      ~ In name (keys fns) -> get cache' name = get cache name).
Proof.
  unfold _evaluate_cluster_metrics. intros Hwf Hrun. split.
  - intros name f r Hin Hcall.
    exact (cluster_loop_stores fns name f r Hwf Hin cache cache' [] returned
             Hrun Hcall).
  - intros name Hnot.
    pose proof (cluster_loop_frame V cluster_eval_input epoch fns name Hnot
                  cache []) as Hf.
    now rewrite Hrun in Hf.
Qed.

End ClusterResults.

Lemma cluster_results_are_recorded_witness :
  exists (cache' : Py.dict (Py.dict float)) (returned : Py.dict float),
    TCNTrainer._evaluate_cluster_metrics
      (TCNTrainer.clustering_functions Sample.self) 0
      [("dbscan"%string, [("eps"%string, 0.25%float)])] [] =
      (cache', Py.Ok returned) /\
    Py.get cache' "dbscan" = Some [("eps"%string, 0.5%float)] /\
    In "best_dbscan_eps"%string (Py.keys returned).
Proof.
  destruct (TCNTrainer._evaluate_cluster_metrics
              (TCNTrainer.clustering_functions Sample.self) 0
              [("dbscan"%string, [("eps"%string, 0.25%float)])] [])
    as [cache' [returned|e]] eqn:H; [|vm_compute in H; discriminate].
  exists cache', returned. split; [reflexivity|].
  destruct (cluster_results_are_recorded float [] 0%Z
              (TCNTrainer.clustering_functions Sample.self)
              [("dbscan"%string, [("eps"%string, 0.25%float)])]
              cache' returned sample_clustering_functions_wf H) as [Hrec _].
  destruct (Hrec "dbscan"%string Sample.reporting
              {| TCNTrainer.metrics := [("v_measure"%string, 0.75%float)];
                 TCNTrainer.best_params := [("eps"%string, 0.5%float)] |})
    as (Hc & _ & Hp).
  - right. left. reflexivity.
  - reflexivity.
  - split; [exact Hc|]. apply (Hp "eps"%string). cbn. tauto.
Defined.

(** ** How many batches the clustering accumulator takes *)
Section AccumulatedBatches.
Import Py TCNTrainer.

Variable Data : Type.
Variable evaluate_model : Data -> bool -> result model_output.
Variable unpack : string -> loss_returns float -> dict float.
Variable BinaryClassificationStats_get_all :
  list Q -> list Z -> Q -> result (dict float).
Variable get_maximized_bcs : list Q -> list Z -> result (dict float).
Variable roc_auc_score : list Z -> list Q -> option Q -> result float.
Variable denote_pt : string -> Q -> string.
Variable required_model_outputs : dict string.
Variable self : trainer.
Variable max_batches : option Z.

(** The list a [defaultdict(list)] holds under a key. *)
Definition arrays_of {A : Type} (d : dict (list A)) (k : string) : list A :=
  match get d k with
  | Some l => l
  | None => []
  end.

Lemma arrays_of_append_to {A : Type} (d : dict (list A)) (k k' : string) (v : A) :
  arrays_of (append_to d k v) k' =
  if String.eqb k k' then arrays_of d k ++ [v] else arrays_of d k'.
Proof.
  unfold arrays_of, append_to.
  destruct (get d k) as [l|] eqn:Hk; rewrite get_setitem;
    destruct (String.eqb_spec k k') as [<-|_]; try reflexivity.
Qed.

Lemma collect_cluster_inputs_grows (mo : model_output) (required : dict string) :
  NoDup (map snd required) ->
  forall cei cei' : dict (list tensor),
    collect_cluster_inputs mo required cei = Ok cei' ->
    (forall k, In k (map snd required) ->
       List.length (arrays_of cei' k) = S (List.length (arrays_of cei k))) /\
    (forall k, ~ In k (map snd required) -> arrays_of cei' k = arrays_of cei k).
Proof.
  induction required as [|[mo_key cf_key] required IH]; intros Hnd cei cei' H;
    cbn [collect_cluster_inputs] in H.
  - injection H as <-. split; [intros k []|reflexivity].
  - cbn [map snd] in Hnd. inversion Hnd as [|? ? Hnot Hnd']; subst.
    destruct (getitem mo mo_key) as [t|e]; cbn [bind] in H; [|discriminate].
    destruct (to_numpy t) as [a|e]; cbn [bind] in H; [|discriminate].
    destruct (IH Hnd' _ _ H) as [IHin IHout]. cbn [map snd In]. split.
    + intros k [<-|Hk].
      * rewrite (IHout cf_key Hnot), arrays_of_append_to, String.eqb_refl.
        rewrite length_app. cbn. lia.
      * rewrite (IHin k Hk), arrays_of_append_to.
        destruct (String.eqb_spec cf_key k) as [<-|_]; [contradiction|reflexivity].
    + intros k Hk. rewrite (IHout k) by tauto. rewrite arrays_of_append_to.
      destruct (String.eqb_spec cf_key k) as [<-|_]; [tauto|reflexivity].
Qed.

(** How many of [n] batches, counted from index [idx], the loop evaluates
    before [max_batches] stops it ... *)
Definition evaluated_from (idx : Z) (n : nat) : nat :=
  match max_batches with
  | None => n
  | Some m => if (m =? 0)%Z then n else Nat.min n (Z.to_nat (m + 1 - idx))
  end.

(** ... and how many of these still pass the guard of line 347. *)
Definition accumulated_from (idx : Z) (n : nat) : nat :=
  match clustering_functions self with
  | [] => O
  | _ :: _ =>
      Nat.min (evaluated_from idx n)
        (Z.to_nat (max_batches_for_clustering self + 1 - idx))
  end.

Lemma test_step_loop_accumulates (loader : list Data) :
  NoDup (map snd required_model_outputs) ->
  forall (idx : Z) (bm bm' : dict (list float)) (cei cei' : dict (list tensor)),
    (0 <= idx)%Z ->
    test_step_loop evaluate_model unpack BinaryClassificationStats_get_all
      get_maximized_bcs roc_auc_score denote_pt required_model_outputs self
      max_batches idx loader bm cei = Ok (bm', cei') ->
    (forall k, In k (map snd required_model_outputs) ->
       List.length (arrays_of cei' k) =
       (List.length (arrays_of cei k)
        + accumulated_from idx (List.length loader))%nat) /\
    (forall k, ~ In k (map snd required_model_outputs) ->
       arrays_of cei' k = arrays_of cei k).
Proof.
  intros Hnd.
  induction loader as [|data rest IH]; intros idx bm bm' cei cei' Hidx H;
    cbn [test_step_loop] in H.
  - injection H as _ <-. split; [|reflexivity].
    intros k _. unfold accumulated_from, evaluated_from. cbn [List.length].
    destruct (clustering_functions self); [lia|].
    destruct max_batches as [m|]; [destruct (m =? 0)%Z|]; lia.
  - destruct (past_max_batches max_batches idx) eqn:Hpast.
    + injection H as _ <-. split; [|reflexivity].
      intros k _. unfold accumulated_from, evaluated_from.
      unfold past_max_batches in Hpast.
      destruct max_batches as [m|]; [|discriminate].
      apply andb_true_iff in Hpast. destruct Hpast as [Hm0 Hgt].
      apply negb_true_iff in Hm0. rewrite Hm0.
      rewrite Z.gtb_ltb in Hgt. apply Z.ltb_lt in Hgt.
      destruct (clustering_functions self); lia.
    + destruct (evaluate_model data false) as [mo|e]; cbn [bind] in H;
        [|discriminate].
      destruct (get_batch_losses unpack self mo) as [[[bl tbl] lw]|e];
        cbn [bind] in H; [|discriminate].
      destruct (evaluate_ec_metrics _ _ _ _ self mo None) as [ec|e];
        cbn [bind] in H; [|discriminate].
      assert (Hev : evaluated_from idx (S (List.length rest)) =
                    S (evaluated_from (idx + 1) (List.length rest))).
      { unfold evaluated_from. unfold past_max_batches in Hpast.
        destruct max_batches as [m|]; [|reflexivity].
        destruct (Z.eqb_spec m 0) as [|Hm0]; [reflexivity|].
        cbn [negb andb] in Hpast.
        rewrite Z.gtb_ltb in Hpast. apply Z.ltb_ge in Hpast. lia. }
      unfold collects_for_clustering in H.
      destruct (clustering_functions self) as [|cf cfs] eqn:Hcf.
      * cbn [bind] in H. destruct (IH (idx + 1)%Z _ _ _ _ ltac:(lia) H) as [IHin IHout].
        split; [|exact IHout].
        intros k Hk. rewrite (IHin k Hk).
        unfold accumulated_from. rewrite Hcf. reflexivity.
      * destruct (Z.leb_spec idx (max_batches_for_clustering self)) as [Hle|Hgt].
        -- destruct (collect_cluster_inputs mo required_model_outputs cei)
             as [cei1|e] eqn:Hc; cbn [bind] in H; [|discriminate].
           destruct (collect_cluster_inputs_grows mo required_model_outputs
                       Hnd cei cei1 Hc) as [Gin Gout].
           destruct (IH (idx + 1)%Z _ _ _ _ ltac:(lia) H) as [IHin IHout].
           split.
           ++ intros k Hk. rewrite (IHin k Hk), (Gin k Hk).
              unfold accumulated_from. rewrite Hcf.
              cbn [List.length]. rewrite Hev. lia.
           ++ intros k Hk. now rewrite (IHout k Hk), (Gout k Hk).
        -- cbn [bind] in H.
           destruct (IH (idx + 1)%Z _ _ _ _ ltac:(lia) H) as [IHin IHout].
           split; [|exact IHout].
           intros k Hk. rewrite (IHin k Hk).
           unfold accumulated_from. rewrite Hcf. cbn [List.length]. lia.
Qed.

(** X12.  When the loop of [test_step] completes on a loader of [n]
    batches, each clustering-input key holds exactly
    [min(e, max_batches_for_clustering + 1)] arrays, where [e] is the
    number of evaluated batches: [n] without [max_batches] (or with
    [max_batches = 0]), else [min(n, max_batches + 1)] - both limits
    admit one batch more than their value.  Without clustering functions
    nothing is accumulated. *)
Theorem test_step_accumulated_count (loader : list Data)
    (batch_metrics : dict (list float)) (cluster_eval_input : dict (list tensor)) :
  NoDup (map snd required_model_outputs) ->
  test_step_accumulate evaluate_model unpack BinaryClassificationStats_get_all
    get_maximized_bcs roc_auc_score denote_pt required_model_outputs self
    max_batches (Some loader) = Ok (batch_metrics, cluster_eval_input) ->
  let evaluated :=
    match max_batches with
    | None => List.length loader
    | Some m =>
        if (m =? 0)%Z then List.length loader
        else Nat.min (List.length loader) (Z.to_nat (m + 1))
    end in
  forall k, In k (map snd required_model_outputs) ->
    List.length (arrays_of cluster_eval_input k) =
    match clustering_functions self with
    | [] => O
    | _ :: _ =>
        Nat.min evaluated (Z.to_nat (max_batches_for_clustering self + 1))
    end.
Proof.
  intros Hnd H. cbn zeta. intros k Hk.
  unfold test_step_accumulate in H.
  destruct (test_step_loop_accumulates loader Hnd 0 [] batch_metrics []
              cluster_eval_input ltac:(lia) H) as [Hin _].
  rewrite (Hin k Hk). unfold accumulated_from, evaluated_from, arrays_of.
  cbn [get List.length plus].
  destruct max_batches as [m|]; rewrite !Z.sub_0_r; reflexivity.
Qed.

End AccumulatedBatches.

Lemma test_step_accumulated_count_witness :
  exists (bm : Py.dict (list float)) (cei : Py.dict (list TCNTrainer.tensor)),
    Sample.test_step_accumulate Sample.self (Some 20%Z) (Some (Sample.loader 13)) =
      Py.Ok (bm, cei) /\
    List.length (arrays_of cei "labels") = 11%nat.
Proof.
  destruct (Sample.test_step_accumulate Sample.self (Some 20%Z)
              (Some (Sample.loader 13))) as [[bm cei]|e] eqn:H;
    [|vm_compute in H; discriminate].
  exists bm, cei. split; [reflexivity|].
  unfold Sample.test_step_accumulate in H.
  rewrite (test_step_accumulated_count nat Sample.evaluate_model
             (@TCNTrainer.unpack_loss_returns float) Sample.count_stats
             Sample.count_maximized Sample.half_auc Sample.tag_pt
             Sample.required_model_outputs Sample.self (Some 20%Z)
             (Sample.loader 13) bm cei).
  - reflexivity.
  - cbn. repeat (constructor; [cbn; intuition discriminate|]). constructor.
  - exact H.
  - cbn. tauto.
Defined.

(** X7 on an edge that points past the last hit. *)
Lemma edge_pt_mask_defined_iff_witness :
  TCNTrainer._edge_pt_mask [(0, 3)]%Z Sample.pt (9 # 10) = Py.Raise Py.IndexError.
Proof.
  apply (edge_pt_mask_defined_iff [(0, 3)]%Z Sample.pt (9 # 10)).
  intros mask H. vm_compute in H. discriminate.
Defined.

(** ** The model-output normalizer *)

Lemma canonical_distinct (a b c d e f g h i j k l m n o : TCNTrainer.tensor) :
  NoDup (Py.keys
    [ ("w", a); ("x", b); ("beta", c); ("pred", d); ("ec_hit_mask", e);
      ("ec_edge_mask", f); ("y", g); ("particle_id", h); ("track_params", i);
      ("pt", j); ("reconstructable", k); ("edge_index", l); ("sector", m);
      ("node_features", n); ("batch", o) ]%string).
Proof.
  cbn. repeat (constructor; [cbn; intuition discriminate|]). constructor.
Qed.

Section NormalizerFacts.
Import Py TCNTrainer.

Variable model : graph_batch -> result (dict tensor).
Variable tensor_long : tensor -> result tensor.
Variable tensor_bool : tensor -> result tensor.
Variable tensor_mul : tensor -> tensor -> result tensor.
Variable full_like_true : tensor -> result tensor.

Local Abbreviation normalize :=
  (evaluate_model model tensor_long tensor_bool tensor_mul full_like_true).

(** The four abbreviated keys that the method consumes. *)
Definition abbreviated : list string := ["W"; "H"; "B"; "P"]%string.

(** The fifteen keys that the method writes. *)
Definition canonical : list string :=
  [ "w"; "x"; "beta"; "pred"; "ec_hit_mask"; "ec_edge_mask"; "y";
    "particle_id"; "track_params"; "pt"; "reconstructable"; "edge_index";
    "sector"; "node_features"; "batch" ]%string.

(** What is left of the model output once the four keys are popped. *)
Definition consumed (out : dict tensor) : dict tensor :=
  remove (remove (remove (remove out "W") "H") "B") "P".

Lemma get_if_defined_spec (out : dict tensor) (key : string) :
  get_if_defined out key = (get_or out key TNone, remove out key).
Proof.
  unfold get_if_defined, get_or.
  destruct (get out key) eqn:E; [reflexivity|].
  rewrite remove_fresh; [reflexivity|]. now apply get_None_iff.
Qed.

(** The shape of every successful call. *)
Lemma evaluate_model_returns (data : graph_batch) (mask_pids_reco : bool)
    (dct : dict tensor) :
  normalize data mask_pids_reco = Ok dct ->
  exists (out : dict tensor)
         (data_pid data_reco data_pt data_sector : tensor)
         (pid hit_mask edge_mask reco all_hits all_edges : tensor),
    model data = Ok out /\
    particle_id data = Some data_pid /\
    reconstructable data = Some data_reco /\
    pt data = Some data_pt /\
    sector data = Some data_sector /\
    (if mask_pids_reco
     then exists r, tensor_long data_reco = Ok r /\
                    tensor_mul data_pid r = Ok pid
     else pid = data_pid) /\
    full_like_true data_pt = Ok all_hits /\
    tensor_bool (get_or out "ec_hit_mask" all_hits) = Ok hit_mask /\
    full_like_true (y data) = Ok all_edges /\
    tensor_bool (get_or out "ec_edge_mask" all_edges) = Ok edge_mask /\
    tensor_long data_reco = Ok reco /\
    dct =
    update (consumed out)
      [ ("w", get_or out "W" TNone); ("x", get_or out "H" TNone);
        ("beta", get_or out "B" TNone); ("pred", get_or out "P" TNone);
        ("ec_hit_mask", hit_mask); ("ec_edge_mask", edge_mask);
        ("y", y data); ("particle_id", pid);
        ("track_params", data_pt); ("pt", data_pt);
        ("reconstructable", reco); ("edge_index", edge_index data);
        ("sector", data_sector); ("node_features", x data);
        ("batch", batch data) ]%string.
Proof.
  unfold evaluate_model. intros H.
  destruct (model data) as [out|e]; cbn [bind] in H; [|discriminate].
  match type of H with
  | bind ?m _ = _ => destruct m as [pid|e] eqn:Hpid
  end; cbn [bind] in H; [|discriminate].
  destruct (pt data) as [data_pt|] eqn:Hpt; cbn [attribute bind] in H;
    [|discriminate].
  destruct (full_like_true data_pt) as [all_hits|e] eqn:Hh; cbn [bind] in H;
    [|discriminate].
  destruct (tensor_bool (get_or out "ec_hit_mask" all_hits)) as [hm|e] eqn:Hhm;
    cbn [bind] in H; [|discriminate].
  destruct (full_like_true (y data)) as [all_edges|e] eqn:He; cbn [bind] in H;
    [|discriminate].
  destruct (tensor_bool (get_or out "ec_edge_mask" all_edges)) as [em|e] eqn:Hem;
    cbn [bind] in H; [|discriminate].
  rewrite !get_if_defined_spec in H.
  destruct (reconstructable data) as [data_reco|] eqn:Hrc;
    cbn [attribute bind] in H; [|discriminate].
  destruct (tensor_long data_reco) as [reco|e] eqn:Hr;
    cbn [bind] in H; [|discriminate].
  destruct (sector data) as [data_sector|] eqn:Hsec;
    cbn [attribute bind] in H; [|discriminate].
  injection H as <-.
  destruct (particle_id data) as [data_pid|] eqn:Hp;
    [|destruct mask_pids_reco; discriminate].
  exists out, data_pid, data_reco, data_pt, data_sector, pid, hm, em, reco,
         all_hits, all_edges.
  split; [reflexivity|]. do 4 (split; [reflexivity|]). split.
  { destruct mask_pids_reco; cbn [attribute bind] in Hpid.
    - rewrite Hr in Hpid. cbn [bind] in Hpid.
      exists reco. split; [exact Hr|exact Hpid].
    - now injection Hpid as <-. }
  repeat (split; [first [reflexivity|assumption]|]).
  unfold consumed, get_or.
  rewrite !get_remove_other by discriminate. reflexivity.
Qed.

Lemma keys_remove_incl {A : Type} (d : dict A) (k k' : string) :
  In k' (keys (remove d k)) -> In k' (keys d).
Proof.
  induction d as [|[k0 v0] d IH]; cbn [remove keys map fst In].
  - tauto.
  - destruct (String.eqb k0 k); cbn [keys map fst In]; unfold keys in *; tauto.
Qed.

Lemma wf_remove {A : Type} (d : dict A) (k : string) : wf d -> wf (remove d k).
Proof.
  unfold wf. induction d as [|[k0 v0] d IH]; cbn [remove keys map fst]; intros Hnd.
  - constructor.
  - inversion Hnd as [|? ? Hnot Hnd']; subst.
    destruct (String.eqb k0 k); [exact Hnd'|].
    cbn [keys map fst]. constructor; [|now apply IH].
    intros Hin. apply Hnot. now apply (keys_remove_incl d k).
Qed.

Lemma get_remove {A : Type} (d : dict A) (k k' : string) :
  wf d -> get (remove d k) k' = if String.eqb k k' then None else get d k'.
Proof.
  intros Hwf. destruct (String.eqb_spec k k') as [<-|Hne].
  - now apply get_remove_same.
  - now apply get_remove_other.
Qed.

Lemma get_consumed (out : dict tensor) (k : string) :
  wf out ->
  get (consumed out) k =
  if existsb (String.eqb k) abbreviated then None else get out k.
Proof.
  intros Hwf. unfold consumed.
  rewrite !get_remove by (repeat apply wf_remove; exact Hwf).
  unfold abbreviated. cbn [existsb].
  rewrite (String.eqb_sym k "W"), (String.eqb_sym k "H"),
          (String.eqb_sym k "B"), (String.eqb_sym k "P").
  destruct (String.eqb "P" k), (String.eqb "B" k), (String.eqb "H" k),
           (String.eqb "W" k); reflexivity.
Qed.

(** X13.  [evaluate_model] renames and consumes the abbreviated model
    outputs: in the bundle, [w], [x], [beta] and [pred] are what the
    model gave under [W], [H], [B] and [P], or [None] where it gave
    nothing, and the four abbreviated keys themselves are gone. *)
Theorem evaluate_model_renames (data : graph_batch) (mask_pids_reco : bool)
    (out dct : dict tensor) :
  model data = Ok out ->
  wf out ->
  normalize data mask_pids_reco = Ok dct ->
  get dct "w" = Some (get_or out "W" TNone) /\
  get dct "x" = Some (get_or out "H" TNone) /\
  get dct "beta" = Some (get_or out "B" TNone) /\
  get dct "pred" = Some (get_or out "P" TNone) /\
  Forall (fun k => get dct k = None) abbreviated.
Proof.
  intros Hm Hwf H.
  destruct (evaluate_model_returns data mask_pids_reco dct H)
    as (out' & dpid & dreco & dpt & dsec & pid & hm & em & reco & ah & ae & Hm'
        & Hdpid & Hdreco & Hdpt & Hdsec & _ & _ & _ & _ & _ & _ & ->).
  assert (out' = out) by congruence. subst out'.
  repeat split;
    try (rewrite get_update_distinct by apply canonical_distinct; reflexivity).
  unfold abbreviated.
  repeat constructor;
    rewrite get_update_distinct by apply canonical_distinct;
    cbn [get String.eqb Ascii.eqb Bool.eqb];
    now rewrite get_consumed by exact Hwf.
Qed.

(** X14.  In the bundle the entries taken from the batch win over model
    outputs of the same name - [pt], [track_params], [y], [edge_index],
    [sector], [node_features] and [batch] are the batch's attributes,
    and the batch has the attributes [pt] and [sector] - and every model
    output under another name than the nineteen keys the method reads or
    writes is passed on unchanged. *)
Theorem evaluate_model_batch_fields (data : graph_batch) (mask_pids_reco : bool)
    (out dct : dict tensor) :
  model data = Ok out ->
  wf out ->
  normalize data mask_pids_reco = Ok dct ->
  (exists data_pt data_sector : tensor,
     pt data = Some data_pt /\
     sector data = Some data_sector /\
     get dct "pt" = Some data_pt /\
     get dct "track_params" = Some data_pt /\
     get dct "sector" = Some data_sector) /\
  get dct "y" = Some (y data) /\
  get dct "edge_index" = Some (edge_index data) /\
  get dct "node_features" = Some (x data) /\
  get dct "batch" = Some (batch data) /\
  (forall k, ~ In k canonical -> ~ In k abbreviated -> get dct k = get out k).
Proof.
  intros Hm Hwf H.
  destruct (evaluate_model_returns data mask_pids_reco dct H)
    as (out' & dpid & dreco & dpt & dsec & pid & hm & em & reco & ah & ae & Hm'
        & Hdpid & Hdreco & Hdpt & Hdsec & _ & _ & _ & _ & _ & _ & ->).
  assert (out' = out) by congruence. subst out'.
  split.
  { exists dpt, dsec. split; [exact Hdpt|]. split; [exact Hdsec|].
    repeat split;
      rewrite get_update_distinct by apply canonical_distinct; reflexivity. }
  repeat split;
    try (rewrite get_update_distinct by apply canonical_distinct; reflexivity).
  intros k Hc Ha.
  rewrite get_update_distinct by apply canonical_distinct.
  assert (Hk : forall k0, In k0 canonical -> String.eqb k0 k = false).
  { intros k0 Hk0. apply String.eqb_neq. intros ->. contradiction. }
  unfold canonical in Hk. cbn [get].
  rewrite !Hk by (cbn; tauto).
  rewrite get_consumed by exact Hwf.
  destruct (existsb (String.eqb k) abbreviated) eqn:E; [|reflexivity].
  exfalso. apply Ha. apply existsb_exists in E.
  destruct E as [k0 [Hin Heq]]. apply String.eqb_eq in Heq. now subst k0.
Qed.

(** X15.  Masking the particle ids is the only difference between the
    training-time and the evaluation-time call: whenever both return,
    the two bundles have the same entry under every key but
    [particle_id], where the evaluation-time bundle has the batch's own
    ids. *)
Theorem evaluate_model_modes_differ_in_pid (data : graph_batch)
    (training evaluation : dict tensor) :
  normalize data true = Ok training ->
  normalize data false = Ok evaluation ->
  (forall k, k <> "particle_id"%string -> get training k = get evaluation k) /\
  exists data_pid : tensor,
    particle_id data = Some data_pid /\
    get evaluation "particle_id" = Some data_pid.
Proof.
  intros Ht He.
  destruct (evaluate_model_returns data true training Ht)
    as (out & dpid & dreco & dpt & dsec & pid & hm & em & reco & ah & ae & Hm
        & Hdpid & Hdreco & Hdpt & Hdsec & _ & Hah & Hhm & Hae & Hem & Hr & ->).
  destruct (evaluate_model_returns data false evaluation He)
    as (out' & dpid' & dreco' & dpt' & dsec' & pid' & hm' & em' & reco' & ah'
        & ae' & Hm' & Hdpid' & Hdreco' & Hdpt' & Hdsec' & Hp' & Hah' & Hhm'
        & Hae' & Hem' & Hr' & ->).
  assert (out' = out) by congruence. subst out'.
  assert (dpid' = dpid) by congruence. assert (dreco' = dreco) by congruence.
  assert (dpt' = dpt) by congruence. assert (dsec' = dsec) by congruence. subst.
  assert (ah' = ah) by congruence. assert (ae' = ae) by congruence. subst.
  assert (hm' = hm) by congruence. assert (em' = em) by congruence.
  assert (reco' = reco) by congruence. subst.
  split.
  - intros k Hk.
    rewrite !get_update_distinct by apply canonical_distinct.
    cbn [get].
    destruct (String.eqb_spec "particle_id" k) as [<-|_]; [congruence|].
    reflexivity.
  - exists dpid. split; [exact Hdpid|].
    rewrite get_update_distinct by apply canonical_distinct. reflexivity.
Qed.

(** X16.  A missing model output is never an error: whatever
    [evaluate_model] raises was raised by the model or by one of the
    tensor operations, or it is the [AttributeError] of a batch that
    lacks one of the attributes [particle_id], [reconstructable], [pt]
    and [sector]. *)
Theorem evaluate_model_raises_only_from_collaborators
    (data : graph_batch) (mask_pids_reco : bool) (e : exn) :
  normalize data mask_pids_reco = Raise e ->
  model data = Raise e \/
  (exists t, tensor_long t = Raise e) \/
  (exists t, tensor_bool t = Raise e) \/
  (exists a b, tensor_mul a b = Raise e) \/
  (exists t, full_like_true t = Raise e) \/
  (e = AttributeError /\
   (particle_id data = None \/ reconstructable data = None \/
    pt data = None \/ sector data = None)).
Proof.
  unfold evaluate_model. intros H.
  destruct (model data) as [out|e0]; cbn [bind] in H; [|left; congruence].
  right.
  destruct (particle_id data) as [dpid|] eqn:Hdpid.
  2:{ do 4 right. split; [|now left].
      destruct mask_pids_reco; cbn [attribute bind] in H; congruence. }
  match type of H with
  | bind _ ?k = _ => set (rest := k) in H
  end.
  assert (Hrest :
    forall pid : tensor,
      rest pid = Raise e ->
      (exists t, tensor_long t = Raise e) \/
      (exists t, tensor_bool t = Raise e) \/
      (exists a b, tensor_mul a b = Raise e) \/
      (exists t, full_like_true t = Raise e) \/
      (e = AttributeError /\
       (Some dpid = None \/ reconstructable data = None \/
        pt data = None \/ sector data = None))).
  { intros pid T. subst rest. cbn beta in T.
    destruct (pt data) as [dpt|] eqn:Hdpt; cbn [attribute bind] in T.
    2:{ do 4 right. split; [congruence|tauto]. }
    destruct (full_like_true dpt) as [ah|e0] eqn:Hh; cbn [bind] in T.
    2:{ injection T as <-. do 3 right. left. now exists dpt. }
    destruct (tensor_bool (get_or out "ec_hit_mask" ah)) as [hm|e0] eqn:Hhm;
      cbn [bind] in T.
    2:{ injection T as <-. right. left. eexists. exact Hhm. }
    destruct (full_like_true (y data)) as [ae|e0] eqn:He; cbn [bind] in T.
    2:{ injection T as <-. do 3 right. left. eexists. exact He. }
    destruct (tensor_bool (get_or out "ec_edge_mask" ae)) as [em|e0] eqn:Hem;
      cbn [bind] in T.
    2:{ injection T as <-. right. left. eexists. exact Hem. }
    rewrite !get_if_defined_spec in T.
    destruct (reconstructable data) as [dreco|] eqn:Hdreco;
      cbn [attribute bind] in T.
    2:{ do 4 right. split; [congruence|tauto]. }
    destruct (tensor_long dreco) as [reco|e0] eqn:Hr; cbn [bind] in T.
    2:{ injection T as <-. left. eexists. exact Hr. }
    destruct (sector data) as [dsec|] eqn:Hdsec; cbn [attribute bind] in T.
    - discriminate.
    - do 4 right. split; [congruence|tauto]. }
  clearbody rest.
  destruct mask_pids_reco; cbn [attribute bind] in H.
  - destruct (reconstructable data) as [dreco|] eqn:Hdreco;
      cbn [attribute bind] in H.
    2:{ do 4 right. split; [congruence|tauto]. }
    destruct (tensor_long dreco) as [r|e0] eqn:Hr; cbn [bind] in H.
    2:{ injection H as <-. left. eexists. exact Hr. }
    destruct (tensor_mul dpid r) as [pid|e0] eqn:Hp; cbn [bind] in H.
    2:{ injection H as <-. right. right. left. eexists _, _. exact Hp. }
    exact (Hrest pid H).
  - exact (Hrest dpid H).
Qed.

End NormalizerFacts.

(** ** The normalizer in front of the metrics evaluator *)
Section NormalizerThenMetrics.
Import Py TCNTrainer.

Variable model : graph_batch -> result (dict tensor).
Variable tensor_long : tensor -> result tensor.
Variable tensor_bool : tensor -> result tensor.
Variable tensor_mul : tensor -> tensor -> result tensor.
Variable full_like_true : tensor -> result tensor.
Variable BinaryClassificationStats_get_all :
  list Q -> list Z -> Q -> result (dict float).
Variable get_maximized_bcs : list Q -> list Z -> result (dict float).
Variable roc_auc_score : list Z -> list Q -> option Q -> result float.
Variable denote_pt : string -> Q -> string.
Variable self : trainer.

(** X17.  For a model that gives no edge weights [W], the bundle of
    [evaluate_model] makes [evaluate_ec_metrics] return no metrics at
    all - and no error - whatever the thresholds. *)
Theorem no_edge_weights_no_ec_metrics (data : graph_batch)
    (mask_pids_reco : bool) (out dct : dict tensor) (ec_thr : option Q) :
  model data = Ok out ->
  get out "W" = None ->
  evaluate_model model tensor_long tensor_bool tensor_mul full_like_true
    data mask_pids_reco = Ok dct ->
  evaluate_ec_metrics BinaryClassificationStats_get_all get_maximized_bcs
    roc_auc_score denote_pt self dct ec_thr = Ok [].
Proof.
  intros Hm HW H.
  destruct (evaluate_model_returns model tensor_long tensor_bool tensor_mul
              full_like_true data mask_pids_reco dct H)
    as (out' & dpid & dreco & dpt & dsec & pid & hm & em & reco & ah & ae & Hm'
        & Hdpid & Hdreco & Hdpt & Hdsec & _ & _ & _ & _ & _ & _ & ->).
  assert (out' = out) by congruence. subst out'.
  unfold evaluate_ec_metrics, getitem.
  rewrite get_update_distinct by apply canonical_distinct.
  cbn [get String.eqb Ascii.eqb Bool.eqb]. unfold get_or. rewrite HW. reflexivity.
Qed.

End NormalizerThenMetrics.

(** ** The normalizer on the sample batch *)

Lemma sample_model_output_wf (data : TCNTrainer.graph_batch) (out : Py.dict TCNTrainer.tensor) :
  Sample.model data = Py.Ok out -> Py.wf out.
Proof.
  intros H. injection H as <-. unfold Py.wf. cbn.
  repeat (constructor; [cbn; intuition discriminate|]). constructor.
Qed.

Lemma evaluate_model_renames_witness :
  exists dct : Py.dict TCNTrainer.tensor,
    Sample.normalize Sample.model Sample.graph true = Py.Ok dct /\
    Py.get dct "w" = Some (TCNTrainer.TFloat [9 # 10; 2 # 10]) /\
    Py.get dct "pred" = Some TCNTrainer.TNone /\
    Py.get dct "W" = None.
Proof.
  destruct (Sample.normalize Sample.model Sample.graph true) as [dct|e] eqn:H;
    [|vm_compute in H; discriminate].
  exists dct. split; [reflexivity|].
  destruct (evaluate_model_renames Sample.model Sample.tensor_long
              Sample.tensor_bool Sample.tensor_mul Sample.full_like_true
              Sample.graph true _ dct eq_refl
              (sample_model_output_wf Sample.graph _ eq_refl) H)
    as (Hw & _ & _ & Hp & Hgone).
  split; [exact Hw|]. split; [exact Hp|].
  now inversion Hgone.
Defined.

Lemma evaluate_model_batch_fields_witness :
  exists dct : Py.dict TCNTrainer.tensor,
    Sample.normalize Sample.model Sample.graph true = Py.Ok dct /\
    Py.get dct "pt" = Some (TCNTrainer.TFloat Sample.pt) /\
    Py.get dct "attention" = Some (TCNTrainer.TFloat [1; 1]).
Proof.
  destruct (Sample.normalize Sample.model Sample.graph true) as [dct|e] eqn:H;
    [|vm_compute in H; discriminate].
  exists dct. split; [reflexivity|].
  destruct (evaluate_model_batch_fields Sample.model Sample.tensor_long
              Sample.tensor_bool Sample.tensor_mul Sample.full_like_true
              Sample.graph true _ dct eq_refl
              (sample_model_output_wf Sample.graph _ eq_refl) H)
    as ((data_pt & data_sector & Hdpt & _ & Hpt & _ & _) & _ & _ & _ & _
        & Hother).
  split.
  - rewrite Hpt. f_equal. cbn in Hdpt. now injection Hdpt as <-.
  - rewrite (Hother "attention"%string); [reflexivity| |];
      cbn; intuition discriminate.
Defined.

Lemma evaluate_model_modes_differ_in_pid_witness :
  exists training evaluation : Py.dict TCNTrainer.tensor,
    Sample.normalize Sample.model Sample.graph true = Py.Ok training /\
    Sample.normalize Sample.model Sample.graph false = Py.Ok evaluation /\
    Py.get training "beta" = Py.get evaluation "beta" /\
    Py.get training "particle_id" = Some (TCNTrainer.TLong [7; 7; 0]%Z) /\
    Py.get evaluation "particle_id" = Some (TCNTrainer.TLong [7; 7; 9]%Z).
Proof.
  destruct (Sample.normalize Sample.model Sample.graph true) as [tr|e] eqn:Ht;
    [|vm_compute in Ht; discriminate].
  destruct (Sample.normalize Sample.model Sample.graph false) as [ev|e] eqn:He;
    [|vm_compute in He; discriminate].
  exists tr, ev. split; [reflexivity|]. split; [reflexivity|].
  destruct (evaluate_model_modes_differ_in_pid Sample.model Sample.tensor_long
              Sample.tensor_bool Sample.tensor_mul Sample.full_like_true
              Sample.graph tr ev Ht He) as [Hsame (data_pid & Hdpid & Hpid)].
  split; [apply Hsame; discriminate|]. split.
  - vm_compute in Ht. injection Ht as <-. reflexivity.
  - rewrite Hpid. f_equal. cbn in Hdpid. now injection Hdpid as <-.
Defined.

(** X16 on a batch without the attribute [sector] and on a batch whose
    [pt] is [None], for which [torch.full_like] fails. *)
Lemma evaluate_model_raises_only_from_collaborators_witness :
  let lacking :=
    {| TCNTrainer.particle_id := Some (TCNTrainer.TLong [7]%Z);
       TCNTrainer.reconstructable := Some (TCNTrainer.TBool [true]);
       TCNTrainer.pt := Some (TCNTrainer.TFloat [1]%Q);
       TCNTrainer.y := TCNTrainer.TLong [];
       TCNTrainer.edge_index := TCNTrainer.TEdges [];
       TCNTrainer.sector := None;
       TCNTrainer.x := TCNTrainer.TMatrix [[1]%Q];
       TCNTrainer.batch := TCNTrainer.TLong [0]%Z |} in
  let empty :=
    {| TCNTrainer.particle_id := Some (TCNTrainer.TLong [7]%Z);
       TCNTrainer.reconstructable := Some (TCNTrainer.TBool [true]);
       TCNTrainer.pt := Some TCNTrainer.TNone;
       TCNTrainer.y := TCNTrainer.TLong [];
       TCNTrainer.edge_index := TCNTrainer.TEdges [];
       TCNTrainer.sector := Some (TCNTrainer.TLong [0]%Z);
       TCNTrainer.x := TCNTrainer.TMatrix [[1]%Q];
       TCNTrainer.batch := TCNTrainer.TLong [0]%Z |} in
  Sample.normalize Sample.model lacking false = Py.Raise Py.AttributeError /\
  Sample.normalize Sample.model empty false = Py.Raise Py.TypeError /\
  (Sample.model empty = Py.Raise Py.TypeError \/
   (exists t, Sample.tensor_long t = Py.Raise Py.TypeError) \/
   (exists t, Sample.tensor_bool t = Py.Raise Py.TypeError) \/
   (exists a b, Sample.tensor_mul a b = Py.Raise Py.TypeError) \/
   (exists t, Sample.full_like_true t = Py.Raise Py.TypeError) \/
   (Py.TypeError = Py.AttributeError /\
    (TCNTrainer.particle_id empty = None \/
     TCNTrainer.reconstructable empty = None \/
     TCNTrainer.pt empty = None \/ TCNTrainer.sector empty = None))).
Proof.
  cbn zeta. split; [reflexivity|]. split; [reflexivity|].
  eapply (evaluate_model_raises_only_from_collaborators Sample.model
            Sample.tensor_long Sample.tensor_bool Sample.tensor_mul
            Sample.full_like_true _ false).
  reflexivity.
Defined.

Lemma no_edge_weights_no_ec_metrics_witness :
  exists dct : Py.dict TCNTrainer.tensor,
    Sample.normalize Sample.model_without_W Sample.graph false = Py.Ok dct /\
    TCNTrainer.evaluate_ec_metrics Sample.count_stats Sample.count_maximized
      Sample.half_auc Sample.tag_pt Sample.self dct None = Py.Ok [].
Proof.
  destruct (Sample.normalize Sample.model_without_W Sample.graph false)
    as [dct|e] eqn:H; [|vm_compute in H; discriminate].
  exists dct. split; [reflexivity|].
  eapply (no_edge_weights_no_ec_metrics Sample.model_without_W
            Sample.tensor_long Sample.tensor_bool Sample.tensor_mul
            Sample.full_like_true Sample.count_stats Sample.count_maximized
            Sample.half_auc Sample.tag_pt Sample.self Sample.graph false).
  - reflexivity.
  - reflexivity.
  - exact H.
Defined.

(** ** Which metrics are printed and which are highlighted *)
Section Highlight.
Import Py TCNTrainer.

Lemma prefix_casefold (p s : string) :
  String.prefix p s = true -> String.prefix (casefold p) (casefold s) = true.
Proof.
  revert s. induction p as [|a p IH]; intros s H.
  - destruct s; reflexivity.
  - destruct s as [|b s]; [discriminate|]. cbn in H |- *.
    destruct (ascii_dec a b) as [->|]; [|discriminate].
    destruct (ascii_dec (casefold_ascii b) (casefold_ascii b)); [|congruence].
    now apply IH.
Qed.

Lemma contains_casefold (p s : string) :
  contains p s = true -> contains (casefold p) (casefold s) = true.
Proof.
  induction s as [|c s IH]; cbn [contains casefold];
    rewrite orb_true_iff; intros [H|H].
  - apply prefix_casefold in H. cbn [casefold] in H. now rewrite H.
  - discriminate.
  - apply prefix_casefold in H. cbn [casefold] in H. now rewrite H.
  - rewrite (IH H). apply orb_true_r.
Qed.

(** X18.  No metric is highlighted that is not printed: whenever
    [highlight_metric] accepts a name, [printed_results_filter] does. *)
Theorem highlighted_metrics_are_printed (metric : string) :
  highlight_metric metric = true -> printed_results_filter metric = true.
Proof.
  unfold highlight_metric, printed_results_filter. cbn zeta.
  destruct (contains "_loc_" metric) eqn:Hloc; [|reflexivity].
  apply contains_casefold in Hloc.
  change (casefold "_loc_") with "_loc_"%string in Hloc. rewrite Hloc.
  destruct (String.prefix "tc_" (casefold metric)); discriminate.
Qed.

Lemma casefold_ascii_idempotent (c : ascii) :
  casefold_ascii (casefold_ascii c) = casefold_ascii c.
Proof.
  destruct c as [[] [] [] [] [] [] [] []]; reflexivity.
Qed.

Lemma casefold_idempotent (s : string) : casefold (casefold s) = casefold s.
Proof.
  induction s as [|c s IH]; cbn [casefold]; [reflexivity|].
  now rewrite casefold_ascii_idempotent, IH.
Qed.

(** X19.  Highlighting does not depend on letter case: a name and its
    case-folded form are highlighted alike. *)
Theorem highlight_metric_ignores_case (metric : string) :
  highlight_metric (casefold metric) = highlight_metric metric.
Proof.
  unfold highlight_metric. cbn zeta. now rewrite casefold_idempotent.
Qed.

End Highlight.

Lemma highlighted_metrics_are_printed_witness :
  TCNTrainer.printed_results_filter "Max_MCC_pt0.9" = true.
Proof.
  apply highlighted_metrics_are_printed. reflexivity.
Defined.

(** ** More on the sector transform *)
Section SectorGeometry.
Import Py PointCloudBuilder.
Local Open Scope R_scope.

Lemma get_filter_rows (mask : list bool) (df : DataFrame) (k : string) :
  get (filter_rows mask df) k = option_map (masked mask) (get df k).
Proof.
  unfold filter_rows. induction df as [|[k0 c0] df IH]; cbn [map get fst snd].
  - reflexivity.
  - destruct (String.eqb k0 k); [reflexivity|exact IH].
Qed.

Lemma masked_map_filter {A : Type} (f : A -> bool) (l : list A) :
  masked (map f l) l = filter f l.
Proof.
  induction l as [|a l IH]; cbn [map masked filter]; [reflexivity|].
  destruct (f a); now rewrite IH.
Qed.

Lemma masked_combine {A B : Type} (mask : list bool) :
  forall (a : list A) (b : list B),
    combine (masked mask a) (masked mask b) = masked mask (combine a b).
Proof.
  induction mask as [|m mask IH]; intros [|x a] [|y b]; cbn [masked combine];
    try reflexivity.
  - destruct m; [reflexivity|now destruct (masked mask a)].
  - destruct m; cbn [combine]; now rewrite IH.
Qed.

Lemma masked_length_le {A : Type} (m1 m2 : list bool) :
  Forall2 (fun b1 b2 => b1 = true -> b2 = true) m1 m2 ->
  forall c : list A,
    (List.length (masked m1 c) <= List.length (masked m2 c))%nat.
Proof.
  induction 1 as [|b1 b2 m1 m2 Hb _ IH]; intros [|a c]; cbn [masked];
    try apply Nat.le_refl.
  specialize (IH c).
  destruct b1, b2; cbn [List.length]; try lia.
Qed.

Lemma nrows_filter_rows (mask : list bool) (df : DataFrame) :
  nrows (filter_rows mask df) =
  match df with
  | [] => O
  | (_, c) :: _ => List.length (masked mask c)
  end.
Proof. destruct df as [|[k c] df]; reflexivity. Qed.

(** The strict wedge lies within the extended one. *)
Lemma in_sector_in_extended (ds di slope ur vr : R) :
  1 <= ds -> 0 <= di -> 0 <= slope ->
  in_sector slope ur vr = true ->
  in_extended_sector ds di slope ur vr = true.
Proof.
  intros Hds Hdi Hs H. apply in_sector_spec in H. destruct H as [Habs Hur].
  apply in_extended_sector_spec.
  pose proof (Rabs_pos vr) as Hpos.
  assert (Hprod : 0 < slope * ur) by lra.
  assert (Hur' : 0 < ur).
  { destruct (Rlt_dec 0 ur) as [|Hn]; [assumption|].
    exfalso. assert (slope * ur <= 0); [|lra].
    apply Rge_le in Hur. assert (ur = 0) by lra. subst ur. lra. }
  split; [|lra].
  assert (slope * ur <= ds * slope * ur).
  { replace (ds * slope * ur) with (ds * (slope * ur)) by ring.
    rewrite <- (Rmult_1_l (slope * ur)) at 1.
    apply Rmult_le_compat_r; lra. }
  lra.
Qed.

(** X21.  In measurement mode, with [sector_ds >= 1], [sector_di >= 0]
    and a sector angle that is not negative, a call of [sector_hits] that
    returns reports a strict sector that is not empty and not larger than
    the extended sector: [0 < sector_size <= extended_sector_size], so
    the reported ratio is at least 1. *)
Theorem measured_sector_within_extended
    (self : builder) (hits : DataFrame) (s : Z)
    (extended_sector : DataFrame) (measurements : dict R) :
  measurement_mode self = true ->
  1 <= sector_ds self -> 0 <= sector_di self ->
  0 <= IZR s * 2 * PI / IZR (n_sectors self) ->
  snd (sector_hits self hits s) = Ok (Pair extended_sector measurements) ->
  exists size extended_size : nat,
    get measurements "sector_size" = Some (INR size) /\
    get measurements "extended_sector_size" = Some (INR extended_size) /\
    get measurements "sector_size_ratio" =
      Some (INR extended_size / INR size) /\
    (0 < size <= extended_size)%nat /\
    extended_size = nrows extended_sector.
Proof.
  intros Hm Hds Hdi Htheta H. unfold sector_hits in H.
  destruct (n_sectors self =? 1)%Z; [discriminate|].
  destruct (n_sectors self =? 0)%Z; [discriminate|].
  destruct (get hits "u") as [u|]; [|discriminate].
  destruct (get hits "v") as [v|]; [|discriminate].
  cbn [snd] in H. unfold measure in H. rewrite Hm in H.
  match type of H with
  | context [getattr ?sec "pt"] => set (sector := sec) in *
  end.
  destruct (getattr sector "pt") as [ptc|e]; cbn [bind] in H; [|discriminate].
  destruct (nrows sector =? 0)%nat eqn:Hz; cbn [bind] in H; [discriminate|].
  injection H as <- <-.
  apply Nat.eqb_neq in Hz.
  eexists _, _. split; [reflexivity|]. split; [reflexivity|].
  split; [reflexivity|]. split; [|reflexivity].
  split; [lia|].
  subst sector. rewrite !nrows_filter_rows.
  match goal with
  | |- context [setitem (setitem hits "ur" ?a) "vr" ?b] =>
      destruct (setitem (setitem hits "ur" a) "vr" b) as [|[k c] rest]
  end; [apply Nat.le_refl|].
  apply masked_length_le.
  set (theta := IZR s * 2 * PI / IZR (n_sectors self)) in *.
  generalize (combine (map (fun p => rotated_u theta (fst p) (snd p)) (combine u v))
                      (map (fun p => rotated_v theta (fst p) (snd p)) (combine u v))).
  intros l. induction l as [|p l IH]; cbn [map]; constructor; [|exact IH].
  apply in_sector_in_extended; try assumption.
  rewrite <- atan_0. destruct (Req_dec theta 0) as [->|Hne]; [lra|].
  left. apply atan_increasing. lra.
Qed.

Lemma masked_all_false {A : Type} (mask : list bool) :
  Forall (fun b => b = false) mask -> forall c : list A, masked mask c = [].
Proof.
  induction 1 as [|b mask -> _ IH]; intros [|a c]; cbn [masked];
    try reflexivity.
  apply IH.
Qed.

(** X22.  In measurement mode sector 0 cannot be built: its angle is 0,
    so is the slope, the strict sector [|vr| < 0] is empty, and the size
    ratio divides by zero - for every table with the columns [u], [v]
    and [pt], and every [n_sectors] other than 0 and 1. *)
Theorem measured_sector_zero_divides_by_zero
    (self : builder) (hits : DataFrame) (u v ptc : list R) :
  measurement_mode self = true ->
  n_sectors self <> 1%Z -> n_sectors self <> 0%Z ->
  get hits "u" = Some u -> get hits "v" = Some v -> get hits "pt" = Some ptc ->
  snd (sector_hits self hits 0) = Raise ZeroDivisionError.
Proof.
  intros Hm H1 H0 Hu Hv Hpt. unfold sector_hits.
  apply Z.eqb_neq in H1. apply Z.eqb_neq in H0.
  rewrite H1, H0, Hu, Hv. cbn [snd]. unfold measure. rewrite Hm.
  replace (IZR 0 * 2 * PI / IZR (n_sectors self)) with 0
    by (unfold Rdiv; ring).
  rewrite atan_0.
  match goal with
  | |- context [filter_rows ?m ?d] =>
      match m with
      | map (fun p => in_sector _ _ _) _ =>
          set (mask := m); set (table := d)
      end
  end.
  assert (Hmask : Forall (fun b => b = false) mask).
  { subst mask. apply Forall_map. apply Forall_forall. intros p _.
    apply not_true_is_false. intros H. apply in_sector_spec in H.
    pose proof (Rabs_pos (snd p)). lra. }
  assert (Hptcol : getattr (filter_rows mask table) "pt" = Ok []).
  { unfold getattr. rewrite get_filter_rows. subst table.
    rewrite !get_setitem. cbn [String.eqb Ascii.eqb Bool.eqb].
    rewrite Hpt. cbn [option_map]. now rewrite masked_all_false. }
  rewrite Hptcol. cbn [bind].
  rewrite nrows_filter_rows.
  destruct table as [|[k c] rest]; [reflexivity|].
  now rewrite masked_all_false.
Qed.

End SectorGeometry.

(** ** The sector geometry on the sample event *)
Section SectorGeometrySample.
Import Py PointCloudBuilder.
Local Open Scope R_scope.

Lemma measured_sector_zero_divides_by_zero_witness :
  snd (sector_hits Sample.measuring_builder Sample.hits 0) =
  Raise ZeroDivisionError.
Proof.
  apply (measured_sector_zero_divides_by_zero Sample.measuring_builder
           Sample.hits [-1; 1] [-1 / 2; 0] [2; 0]);
    try reflexivity; discriminate.
Defined.

Lemma sample_strict_hit_A :
  in_sector (atan PI) (rotated_u PI (-1) (-1 / 2)) (rotated_v PI (-1) (-1 / 2))
  = true.
Proof.
  unfold rotated_u, rotated_v. rewrite cos_PI, sin_PI.
  pose proof atan_PI_above_half as Hat.
  apply in_sector_spec. split.
  - replace (-1 * 0 + -1 / 2 * -1) with (1 / 2) by field.
    rewrite Rabs_right by lra. lra.
  - lra.
Qed.

Lemma sample_strict_hit_B :
  in_sector (atan PI) (rotated_u PI 1 0) (rotated_v PI 1 0) = false.
Proof.
  unfold rotated_u, rotated_v. rewrite cos_PI, sin_PI.
  apply not_true_is_false. intros H. apply in_sector_spec in H. lra.
Qed.

Lemma measured_sector_within_extended_witness :
  exists (extended_sector : DataFrame) (measurements : dict R),
    snd (sector_hits Sample.measuring_builder Sample.hits 1) =
      Ok (Pair extended_sector measurements) /\
    get measurements "sector_size" = Some (INR 1) /\
    exists extended_size : nat,
      get measurements "extended_sector_size" = Some (INR extended_size) /\
      (1 <= extended_size)%nat.
Proof.
  assert (Hret : exists ext m,
             snd (sector_hits Sample.measuring_builder Sample.hits 1) =
             Ok (Pair ext m) /\ get m "sector_size" = Some (INR 1)).
  { unfold sector_hits.
    cbn [n_sectors Sample.measuring_builder Z.eqb Pos.eqb get Sample.hits
         String.eqb Ascii.eqb Bool.eqb snd].
    replace (IZR 1 * 2 * PI / IZR 2) with PI by field.
    unfold measure. cbn [measurement_mode Sample.measuring_builder].
    cbn [combine map fst snd].
    rewrite sample_strict_hit_A, sample_strict_hit_B.
    cbn. eexists _, _. split; reflexivity. }
  destruct Hret as (ext & m & Hret & Hsize).
  exists ext, m. split; [exact Hret|]. split; [exact Hsize|].
  destruct (measured_sector_within_extended Sample.measuring_builder
              Sample.hits 1 ext m) as (a & b & Ha & Hb & _ & Hle & _).
  - reflexivity.
  - cbn. lra.
  - cbn. lra.
  - cbn [n_sectors Sample.measuring_builder].
    replace (IZR 1 * 2 * PI / IZR 2) with PI by field.
    pose proof PI_RGT_0. lra.
  - exact Hret.
  - exists b. split; [exact Hb|]. lia.
Defined.

End SectorGeometrySample.

(** ** Events taken from the cache *)
Section CachedEvents.
Import Py PointCloudBuilder.

(** [join(self.outdir, f"data{evtid}_s{s}.pt")] *)
Definition artifact_path (self : builder) (evtid s : Z) : string :=
  path_join (outdir self) (artifact_name evtid s).

Lemma process_sectors_cached (self : builder) (evtid : Z) (sectors : list Z) :
  use_cached self evtid = Ok true ->
  forall st : sector_loop_state,
    process_sectors self evtid sectors st =
    (ds <- mapM (fun s => torch_load (files st) (artifact_path self evtid s))
             sectors ;;
     Ok {| hits_table := hits_table st; files := files st;
           loaded := loaded st ++ ds;
           sector_hit_count := sector_hit_count st |}).
Proof.
  intros Hc. induction sectors as [|s rest IH]; intros st; cbn [process_sectors mapM bind].
  - rewrite app_nil_r. now destruct st.
  - unfold process_sector at 1. rewrite Hc. cbn [bind].
    fold (artifact_path self evtid s).
    destruct (torch_load (files st) (artifact_path self evtid s)) as [d|e];
      cbn [bind]; [|reflexivity].
    rewrite IH. cbn [files hits_table loaded sector_hit_count].
    destruct (mapM _ rest) as [ds|e]; cbn [bind]; [|reflexivity].
    now rewrite <- app_assoc.
Qed.

Lemma mapM_torch_load (fs : dict Data) (paths : list string) :
  (forall ds, mapM (torch_load fs) paths = Ok ds ->
     Forall2 (fun p d => get fs p = Some d) paths ds) /\
  (forall e, mapM (torch_load fs) paths = Raise e ->
     exists p, In p paths /\ get fs p = None /\ e = FileNotFoundError p).
Proof.
  induction paths as [|p rest [IHok IHerr]]; cbn [mapM bind].
  - split; [intros ds H; injection H as <-; constructor|discriminate].
  - unfold torch_load at 1 3. destruct (get fs p) as [d|] eqn:Hp; cbn [bind].
    + destruct (mapM (torch_load fs) rest) as [ds'|e'] eqn:Hrest; cbn [bind].
      * split; [|discriminate]. intros ds H. injection H as <-.
        constructor; [exact Hp|now apply IHok].
      * split; [discriminate|]. intros e H. injection H as <-.
        destruct (IHerr e' eq_refl) as (q & Hq & Hnone & He).
        exists q. split; [now right|now split].
    + split; [discriminate|]. intros e H. injection H as <-.
      exists p. split; [now left|now split].
Qed.

(** X23.  An event that [self.exists] marks as built, with [redo =
    False], is only read: the sector loop loads one artifact per sector,
    in the order of the sectors, appends them to [data_list], writes no
    file, leaves the hit table as it was and counts no sector hit; and
    the only way it fails is the [FileNotFoundError] of a sector whose
    artifact is not in [outdir]. *)
Theorem cached_event_only_loads (self : builder) (evtid : Z)
    (hits : DataFrame) (fs : dict Data) :
  int_get (exists_ self) evtid = Some true ->
  redo self = false ->
  (forall st, process_event_sectors self evtid hits fs = Ok st ->
     hits_table st = hits /\ files st = fs /\ sector_hit_count st = 0%nat /\
     exists ds,
       loaded st = data_list self ++ ds /\
       Forall2 (fun s d => get fs (artifact_path self evtid s) = Some d)
         (range (n_sectors self)) ds) /\
  (forall e, process_event_sectors self evtid hits fs = Raise e ->
     exists s, In s (range (n_sectors self)) /\
       get fs (artifact_path self evtid s) = None /\
       e = FileNotFoundError (artifact_path self evtid s)).
Proof.
  intros Hex Hredo.
  assert (Hc : use_cached self evtid = Ok true).
  { unfold use_cached, int_getitem. rewrite Hex, Hredo. reflexivity. }
  unfold process_event_sectors. rewrite (process_sectors_cached _ _ _ Hc).
  cbn [files hits_table loaded sector_hit_count].
  pose proof (mapM_torch_load fs
                (map (artifact_path self evtid) (range (n_sectors self))))
    as [Hok Herr].
  assert (Hmap : forall l,
             mapM (fun s => torch_load fs (artifact_path self evtid s)) l =
             mapM (torch_load fs) (map (artifact_path self evtid) l)).
  { induction l as [|a l IH]; cbn [mapM map]; [reflexivity|now rewrite IH]. }
  rewrite Hmap.
  destruct (mapM (torch_load fs) _) as [ds|e0]; cbn [bind]; split.
  - intros st H. injection H as <-. cbn. repeat split.
    exists ds. split; [reflexivity|].
    specialize (Hok ds eq_refl).
    clear -Hok. revert ds Hok.
    induction (range (n_sectors self)) as [|s l IH]; intros ds H;
      inversion H; subst; constructor; auto.
  - discriminate.
  - discriminate.
  - intros e H. injection H as <-.
    destruct (Herr e0 eq_refl) as (p & Hp & Hnone & He).
    apply in_map_iff in Hp. destruct Hp as (s & <- & Hs).
    exists s. now repeat split.
Qed.

End CachedEvents.

(** ** Artifact names *)
Section ArtifactNames.
Import Py PointCloudBuilder.

(** The characters of [s] all differ from [c]. *)
Fixpoint free_of (c : ascii) (s : string) : Prop :=
  match s with
  | EmptyString => True
  | String a s' => a <> c /\ free_of c s'
  end.

Lemma append_split (c : ascii) (a a' b b' : string) :
  free_of c a -> free_of c a' ->
  String.append a (String c b) = String.append a' (String c b') ->
  a = a' /\ b = b'.
Proof.
  revert a'. induction a as [|x a IH]; intros [|x' a'] Ha Ha' H; cbn in *.
  - injection H as <-. now split.
  - injection H as <- _. now destruct Ha' as [[] _].
  - injection H as -> _. now destruct Ha as [[] _].
  - injection H as <- H. destruct Ha as [_ Ha], Ha' as [_ Ha'].
    destruct (IH a' Ha Ha' H) as [<- <-]. now split.
Qed.

Lemma append_cancel_l (a b b' : string) :
  String.append a b = String.append a b' -> b = b'.
Proof.
  induction a as [|x a IH]; cbn; intros H; [exact H|].
  injection H as H. now apply IH.
Qed.

Lemma uint_free_of (c : ascii) (d : Decimal.uint) :
  (nat_of_ascii c < 48 \/ 57 < nat_of_ascii c)%nat ->
  free_of c (DecimalString.NilEmpty.string_of_uint d).
Proof.
  intros Hc. induction d; cbn; try exact I;
    (split; [intros <-; cbn in Hc; lia|assumption]).
Qed.

Lemma str_of_int_free_of (c : ascii) (z : Z) :
  (nat_of_ascii c < 48 \/ 57 < nat_of_ascii c)%nat ->
  nat_of_ascii c <> 45%nat ->
  free_of c (str_of_int z).
Proof.
  intros Hc Hm. unfold str_of_int.
  assert (Hu : forall d, free_of c (DecimalString.NilZero.string_of_uint d)).
  { intros d. unfold DecimalString.NilZero.string_of_uint.
    destruct d; try (apply uint_free_of; lia).
    cbn. split; [intros <-; cbn in Hc; lia|exact I]. }
  destruct (Z.to_int z) as [d|d]; cbn [DecimalString.NilZero.string_of_int].
  - apply Hu.
  - cbn. split; [intros <-; now apply Hm|apply Hu].
Qed.

Lemma str_of_int_inj (z z' : Z) : str_of_int z = str_of_int z' -> z = z'.
Proof.
  unfold str_of_int. intros H.
  assert (Hn : forall z, Z.to_int z <> Decimal.Pos Decimal.Nil /\
                         Z.to_int z <> Decimal.Neg Decimal.Nil).
  { intros [|p|p]; cbn; split; try discriminate;
      intros E; injection E as E; now apply DecimalPos.Unsigned.to_uint_nonnil in E. }
  apply (f_equal DecimalString.NilZero.int_of_string) in H.
  destruct (Hn z) as [H1 H2], (Hn z') as [H1' H2'].
  rewrite !DecimalString.NilZero.isi in H by assumption.
  injection H as H.
  rewrite <- (DecimalZ.of_to z), <- (DecimalZ.of_to z'). now rewrite H.
Qed.

Lemma artifact_name_inj (evtid evtid' s s' : Z) :
  artifact_name evtid s = artifact_name evtid' s' -> evtid = evtid' /\ s = s'.
Proof.
  unfold artifact_name. intros H.
  apply (append_cancel_l "data") in H.
  change (String.append "_s" ?t) with (String "_" (String "s" t)) in H.
  apply append_split in H;
    [|apply str_of_int_free_of; cbn; lia..].
  destruct H as [He Hs]. injection Hs as Hs.
  change ".pt"%string with (String "." "pt") in Hs.
  apply append_split in Hs;
    [|apply str_of_int_free_of; cbn; lia..].
  split; apply str_of_int_inj; [exact He|apply Hs].
Qed.

(** X24.  Two (event, sector) pairs have the same artifact name only if
    they are the same pair: no artifact overwrites that of another sector
    or of another event. *)
Theorem artifact_names_are_distinct (evtid evtid' s s' : Z) :
  artifact_name evtid s = artifact_name evtid' s' <-> evtid = evtid' /\ s = s'.
Proof.
  split; [apply artifact_name_inj|now intros [<- <-]].
Qed.

Lemma path_join_inj (a b b' : string) : path_join a b = path_join a b' -> b = b'.
Proof.
  unfold path_join. destruct (String.eqb a ""); [auto|].
  destruct (endswith a "/"); intros H; apply append_cancel_l in H; [exact H|].
  now apply append_cancel_l in H.
Qed.

End ArtifactNames.

(** ** Writing an event and reading it back *)
Section RebuildThenLoad.
Import Py PointCloudBuilder.

Lemma NoDup_map_inj {A B : Type} (f : A -> B) (l : list A) :
  (forall a b, f a = f b -> a = b) -> NoDup l -> NoDup (map f l).
Proof.
  intros Hf. induction 1 as [|a l Ha _ IH]; cbn [map]; constructor;
    [|exact IH].
  intros Hin. apply in_map_iff in Hin. destruct Hin as (b & Hb & Hin).
  apply Hf in Hb. now subst b.
Qed.

Lemma range_NoDup (n : Z) : NoDup (range n).
Proof.
  unfold range. apply NoDup_map_inj; [|apply seq_NoDup].
  intros a b. apply Nat2Z.inj.
Qed.

Lemma artifact_path_inj (self : builder) (evtid s s' : Z) :
  artifact_path self evtid s = artifact_path self evtid s' -> s = s'.
Proof.
  unfold artifact_path. intros H. apply path_join_inj in H.
  now apply artifact_name_inj in H.
Qed.

Lemma process_sectors_rebuilt (self : builder) (evtid : Z) (sectors : list Z) :
  use_cached self evtid = Ok false ->
  NoDup sectors ->
  forall st st' : sector_loop_state,
    process_sectors self evtid sectors st = Ok st' ->
    exists ds,
      loaded st' = loaded st ++ ds /\
      Forall2 (fun s d => get (files st') (artifact_path self evtid s) = Some d)
        sectors ds /\
      (forall p, ~ In p (map (artifact_path self evtid) sectors) ->
         get (files st') p = get (files st) p).
Proof.
  intros Hc. induction sectors as [|s rest IH]; intros Hnd st st' Hrun;
    cbn [process_sectors] in Hrun.
  - injection Hrun as <-. exists []. rewrite app_nil_r.
    split; [reflexivity|]. split; [constructor|reflexivity].
  - inversion Hnd as [|? ? Hs Hrest]; subst.
    destruct (process_sector self evtid s st) as [st1|e] eqn:Hstep;
      cbn [bind] in Hrun; [|discriminate].
    unfold process_sector in Hstep. rewrite Hc in Hstep. cbn [bind] in Hstep.
    destruct (sector_hits self (hits_table st) s) as [hits' [ret|e]];
      cbn [bind] in Hstep; [|discriminate].
    destruct (unpack_pair ret) as [[sector m]|e]; cbn [bind] in Hstep;
      [|discriminate].
    destruct (to_pyg_data self sector) as [d|e]; cbn [bind] in Hstep;
      [|discriminate].
    injection Hstep as <-.
    destruct (IH Hrest _ _ Hrun) as (ds & Hl & Hall & Hframe).
    cbn [loaded files] in Hl, Hframe.
    fold (artifact_path self evtid s) in Hframe.
    exists (d :: ds). split; [|split].
    + rewrite Hl, <- app_assoc. reflexivity.
    + constructor; [|exact Hall].
      rewrite Hframe.
      * rewrite get_setitem, String.eqb_refl. reflexivity.
      * intros Hin. apply in_map_iff in Hin. destruct Hin as (s' & Heq & Hs').
        apply artifact_path_inj in Heq. now subst s'.
    + intros p Hp. rewrite Hframe.
      * rewrite get_setitem.
        destruct (String.eqb_spec (artifact_path self evtid s) p) as [<-|_];
          [|reflexivity].
        exfalso. apply Hp. now left.
      * intros Hin. apply Hp. now right.
Qed.

(** X25.  What a build writes, a later cached run reads back.  After the
    sector loop has built an event, a builder on the same [outdir] and
    with the same [n_sectors] that takes the event from the cache loads,
    from the files the build left, exactly the artifacts the build
    appended to [data_list], one per sector and in the same order, and
    changes no file. *)
Theorem rebuilt_event_loads_back (self self' : builder) (evtid : Z)
    (hits hits' : DataFrame) (fs : dict Data) (st : sector_loop_state) :
  use_cached self evtid = Ok false ->
  process_event_sectors self evtid hits fs = Ok st ->
  outdir self' = outdir self ->
  n_sectors self' = n_sectors self ->
  use_cached self' evtid = Ok true ->
  exists ds,
    loaded st = data_list self ++ ds /\
    List.length ds = Z.to_nat (n_sectors self) /\
    process_event_sectors self' evtid hits' (files st) =
      Ok {| hits_table := hits'; files := files st;
            loaded := data_list self' ++ ds; sector_hit_count := 0 |}.
Proof.
  intros Hc Hrun Hout Hn Hc'. unfold process_event_sectors in *.
  destruct (process_sectors_rebuilt self evtid (range (n_sectors self)) Hc
              (range_NoDup _) _ _ Hrun) as (ds & Hl & Hall & _).
  cbn [loaded] in Hl. exists ds. split; [exact Hl|]. split.
  - apply Forall2_length in Hall. rewrite <- Hall. unfold range.
    now rewrite length_map, length_seq.
  - rewrite (process_sectors_cached _ _ _ Hc').
    cbn [files hits_table loaded sector_hit_count]. rewrite Hn.
    assert (Hload : mapM (fun s => torch_load (files st) (artifact_path self' evtid s))
                      (range (n_sectors self)) = Ok ds).
    { clear -Hall Hout. induction Hall as [|s d l ds Hs _ IH]; cbn [mapM bind];
        [reflexivity|].
      rewrite IH. unfold torch_load, artifact_path in *. rewrite Hout, Hs.
      reflexivity. }
    rewrite Hload. reflexivity.
Qed.

End RebuildThenLoad.

(** ** Building an event *)
Section Rebuild.
Import Py PointCloudBuilder.

(** The columns the sector loop reads. *)
Definition required_columns (self : builder) : list string :=
  "u"%string :: "v"%string :: "particle_id"%string :: "pt"%string
  :: feature_names self.

Definition has_columns (cols : list string) (t : DataFrame) : Prop :=
  forall c, In c cols -> get t c <> None.

Lemma has_columns_setitem (cols : list string) (t : DataFrame) (k : string)
    (v : list R) :
  has_columns cols t -> has_columns cols (setitem t k v).
Proof.
  intros H c Hc. rewrite get_setitem.
  destruct (String.eqb k c); [discriminate|now apply H].
Qed.

Lemma has_columns_filter_rows (cols : list string) (t : DataFrame)
    (mask : list bool) :
  has_columns cols t -> has_columns cols (filter_rows mask t).
Proof.
  intros H c Hc. rewrite get_filter_rows.
  specialize (H c Hc). now destruct (get t c).
Qed.

Lemma getitem_columns (t : DataFrame) (names : list string) :
  has_columns names t ->
  exists cols, mapM (getitem t) names = Ok cols /\
               List.length cols = List.length names.
Proof.
  induction names as [|c names IH]; intros H; cbn [mapM bind].
  - now exists [].
  - destruct IH as (cols & Hcols & Hlen).
    { intros c' Hc'. apply H. now right. }
    unfold getitem at 1. specialize (H c (or_introl eq_refl)).
    destruct (get t c) as [col|]; [|congruence]. cbn [bind].
    rewrite Hcols. cbn [bind]. exists (col :: cols). split; [reflexivity|].
    cbn. now rewrite Hlen.
Qed.

Lemma scale_columns_same_length (cols : list (list R)) (scale : list R) :
  List.length scale = List.length cols ->
  exists x, scale_columns cols scale = Ok x.
Proof.
  revert scale. induction cols as [|c cols IH]; intros [|k scale] H;
    cbn in H; try discriminate; cbn [scale_columns bind].
  - now exists [].
  - destruct (IH scale) as (x & ->); [lia|]. cbn [bind]. now eexists.
Qed.

Lemma to_pyg_data_succeeds (self : builder) (t : DataFrame) :
  has_columns (required_columns self) t ->
  List.length (feature_scale self) = List.length (feature_names self) ->
  exists d, to_pyg_data self t = Ok d.
Proof.
  intros H Hlen. unfold to_pyg_data.
  destruct (getitem_columns t (feature_names self)) as (cols & -> & Hc).
  { intros c Hc. apply H. unfold required_columns. now do 4 right. }
  cbn [bind].
  destruct (scale_columns_same_length cols (feature_scale self)) as (x & ->);
    [congruence|]. cbn [bind]. unfold getitem.
  pose proof (H "particle_id"%string) as Hp.
  pose proof (H "pt"%string) as Hpt.
  destruct (get t "particle_id"); [|exfalso; apply Hp; [cbn; tauto|reflexivity]].
  cbn [bind].
  destruct (get t "pt"); [|exfalso; apply Hpt; [cbn; tauto|reflexivity]].
  cbn [bind]. now eexists.
Qed.

Lemma process_sectors_succeeds (self : builder) (evtid : Z) (sectors : list Z) :
  use_cached self evtid = Ok false ->
  n_sectors self <> 1%Z -> n_sectors self <> 0%Z ->
  measurement_mode self = false ->
  List.length (feature_scale self) = List.length (feature_names self) ->
  forall st : sector_loop_state,
    has_columns (required_columns self) (hits_table st) ->
    exists st', process_sectors self evtid sectors st = Ok st'.
Proof.
  intros Hc H1 H0 Hm Hlen.
  induction sectors as [|s rest IH]; intros st Hcols; cbn [process_sectors].
  - now exists st.
  - unfold process_sector. rewrite Hc. cbn [bind].
    pose proof (Hcols "u"%string) as Hu. pose proof (Hcols "v"%string) as Hv.
    destruct (get (hits_table st) "u") as [u|] eqn:Eu;
      [|exfalso; apply Hu; [cbn; tauto|reflexivity]].
    destruct (get (hits_table st) "v") as [v|] eqn:Ev;
      [|exfalso; apply Hv; [cbn; tauto|reflexivity]].
    rewrite (surjective_pairing (sector_hits self (hits_table st) s)).
    rewrite (sector_hits_table self _ s u v H1 H0 Eu Ev).
    rewrite (sector_hits_extended self _ s u v H1 H0 Eu Ev Hm).
    cbn [bind unpack_pair].
    assert (Hrot : has_columns (required_columns self)
                     (with_rotated self (hits_table st) s u v)).
    { unfold with_rotated. now do 2 apply has_columns_setitem. }
    destruct (to_pyg_data_succeeds self
                (filter_rows (extended_mask self s u v)
                   (with_rotated self (hits_table st) s u v)))
      as (d & ->); [now apply has_columns_filter_rows|exact Hlen|].
    cbn [bind]. apply IH. exact Hrot.
Qed.

Lemma process_event_sectors_succeeds (self : builder) (evtid : Z)
    (hits : DataFrame) (fs : dict Data) :
  use_cached self evtid = Ok false ->
  n_sectors self <> 1%Z ->
  measurement_mode self = false ->
  has_columns (required_columns self) hits ->
  List.length (feature_scale self) = List.length (feature_names self) ->
  exists st, process_event_sectors self evtid hits fs = Ok st.
Proof.
  intros Hc H1 Hm Hcols Hlen. unfold process_event_sectors.
  destruct (Z.eq_dec (n_sectors self) 0) as [H0|H0].
  - rewrite H0. cbn. now eexists.
  - now apply process_sectors_succeeds.
Qed.

(** X26.  Outside measurement mode and with [n_sectors] other than 1, the
    sector loop builds every event whose table has the columns [u], [v],
    [particle_id], [pt] and the feature columns, when [feature_scale] has
    one entry per feature: it raises nothing, appends one artifact per
    sector to [data_list], and afterwards [outdir] holds, for every
    sector, an artifact that is in [data_list]. *)
Theorem rebuild_succeeds (self : builder) (evtid : Z) (hits : DataFrame)
    (fs : dict Data) :
  use_cached self evtid = Ok false ->
  n_sectors self <> 1%Z ->
  measurement_mode self = false ->
  (forall c, In c (required_columns self) -> get hits c <> None) ->
  List.length (feature_scale self) = List.length (feature_names self) ->
  exists st,
    process_event_sectors self evtid hits fs = Ok st /\
    List.length (loaded st) =
      (List.length (data_list self) + Z.to_nat (n_sectors self))%nat /\
    forall s, (0 <= s < n_sectors self)%Z ->
      exists d, get (files st) (artifact_path self evtid s) = Some d /\
                In d (loaded st).
Proof.
  intros Hc H1 Hm Hcols Hlen.
  destruct (process_event_sectors_succeeds self evtid hits fs Hc H1 Hm Hcols
              Hlen) as (st & Hst). exists st. split; [exact Hst|].
  unfold process_event_sectors in Hst.
  destruct (process_sectors_rebuilt self evtid _ Hc (range_NoDup _) _ _ Hst)
    as (ds & Hl & Hall & _).
  cbn [loaded] in Hl. split.
  - rewrite Hl, length_app. f_equal. apply Forall2_length in Hall.
    rewrite <- Hall. unfold range. now rewrite length_map, length_seq.
  - intros s Hs.
    assert (Hin : In s (range (n_sectors self))).
    { unfold range. apply in_map_iff. exists (Z.to_nat s). split; [lia|].
      apply in_seq. lia. }
    assert (Hd : exists d, get (files st) (artifact_path self evtid s) = Some d /\
                           In d ds).
    { clear -Hall Hin.
      induction Hall as [|s0 d l ds' Hs0 _ IH]; [destruct Hin|].
      destruct Hin as [->|Hin].
      - exists d. split; [exact Hs0|now left].
      - destruct (IH Hin) as (d' & Hd' & Hind'). exists d'. split; [exact Hd'|].
        now right. }
    destruct Hd as (d & Hd & Hin'). exists d. split; [exact Hd|].
    rewrite Hl. apply in_or_app. now right.
Qed.

End Rebuild.

(** ** The events [__init__] registers *)
Section RegisteredEvents.
Import Py PointCloudBuilder.

(** [join(indir, str(p).replace(suffix, ""))] *)
Definition prefix_of (indir p : string) : string :=
  path_join indir (delete_all suffix p).

Lemma scan_events_prefixes (indir : string) (outfiles infiles : list string) :
  forall (prefixes prefixes' : list string) (ex ex' : list (Z * bool)),
    scan_events indir outfiles infiles prefixes ex = Ok (prefixes', ex') ->
    prefixes' =
    prefixes ++
    map (prefix_of indir) (filter (fun p => endswith p suffix) infiles).
Proof.
  induction infiles as [|p rest IH]; intros prefixes prefixes' ex ex' H;
    cbn [scan_events filter map] in *.
  - injection H as <- _. now rewrite app_nil_r.
  - destruct (endswith p suffix).
    + destruct (int_of_str (last_chars 9 (delete_all suffix p))) as [evtid|e];
        cbn [bind] in H; [|discriminate].
      apply IH in H. rewrite H, <- app_assoc. reflexivity.
    + now apply IH in H.
Qed.

(** X27.  After construction [self.prefixes] holds, in the order of the
    listing of [indir], one path per file whose name ends in
    [-hits.csv.gz]: the name without that suffix, joined to [indir].
    Every other file of [indir] is ignored. *)
Theorem init_lists_event_files_in_order
    (outfiles infiles : list string) (outdir indir : string) (n_sectors : Z)
    (redo pixel_only : bool) (sector_di sector_ds : R)
    (feature_names : list string) (feature_scale : list R)
    (measurement_mode : bool) (thld : R) (remove_noise : bool)
    (self : builder) :
  __init__ outfiles infiles outdir indir n_sectors redo pixel_only sector_di
    sector_ds feature_names feature_scale measurement_mode thld remove_noise =
    Ok self ->
  prefixes self =
  map (prefix_of indir) (filter (fun p => endswith p suffix) infiles).
Proof.
  unfold __init__. intros Hinit.
  destruct (scan_events indir outfiles infiles [] []) as [[prefixes ex]|e] eqn:Hscan;
    cbn [bind] in Hinit; [|discriminate].
  injection Hinit as <-. cbn [PointCloudBuilder.prefixes].
  now apply scan_events_prefixes in Hscan.
Qed.

Lemma length_append (a b : string) :
  String.length (String.append a b) = (String.length a + String.length b)%nat.
Proof. induction a as [|c a IH]; cbn; [reflexivity|now rewrite IH]. Qed.

Lemma substring_append_skip (a b : string) (k n : nat) :
  String.substring (String.length a + k) n (String.append a b) =
  String.substring k n b.
Proof. induction a as [|c a IH]; cbn; [reflexivity|exact IH]. Qed.

Lemma last_chars_append (n : nat) (a b : string) :
  (n <= String.length b)%nat ->
  last_chars n (String.append a b) = last_chars n b.
Proof.
  intros H. unfold last_chars. rewrite length_append.
  rewrite !Nat.min_l by lia.
  replace (String.length a + String.length b - n)%nat
    with (String.length a + (String.length b - n))%nat by lia.
  apply substring_append_skip.
Qed.

Lemma last_chars_path_join (n : nat) (a b : string) :
  (n <= String.length b)%nat ->
  last_chars n (path_join a b) = last_chars n b.
Proof.
  intros H. unfold path_join. destruct (String.eqb a ""); [reflexivity|].
  destruct (endswith a "/").
  - now apply last_chars_append.
  - rewrite last_chars_append; [now apply last_chars_append|].
    rewrite length_append. lia.
Qed.

(** X28.  [__init__] and [process] agree on the event of a file.  For an
    event file whose name without the suffix has at least nine
    characters, the path put in [self.prefixes] yields in [process]
    ([int(f[-9:])]) an event id that [__init__] registered in
    [self.exists], so the cache test of that event does not fail and is
    true exactly when the artifact of sector 0 was listed and [redo] is
    off. *)
Theorem process_finds_registered_events
    (outfiles infiles : list string) (outdir indir : string) (n_sectors : Z)
    (redo pixel_only : bool) (sector_di sector_ds : R)
    (feature_names : list string) (feature_scale : list R)
    (measurement_mode : bool) (thld : R) (remove_noise : bool)
    (self : builder) (p : string) :
  __init__ outfiles infiles outdir indir n_sectors redo pixel_only sector_di
    sector_ds feature_names feature_scale measurement_mode thld remove_noise =
    Ok self ->
  In p infiles ->
  endswith p suffix = true ->
  (9 <= String.length (delete_all suffix p))%nat ->
  In (prefix_of indir p) (prefixes self) /\
  exists evtid : Z,
    event_id (prefix_of indir p) = Ok evtid /\
    use_cached self evtid =
      Ok (listed (artifact_name evtid 0) outfiles && negb redo)%bool.
Proof.
  unfold __init__. intros Hinit Hp Hsuf Hlen.
  destruct (scan_events indir outfiles infiles [] []) as [[prefixes ex]|e] eqn:Hscan;
    cbn [bind] in Hinit; [|discriminate].
  injection Hinit as <-.
  cbn [PointCloudBuilder.prefixes]. split.
  - apply scan_events_prefixes in Hscan. rewrite Hscan. cbn [app].
    apply in_map. apply filter_In. now split.
  - destruct (scan_events_entries indir outfiles infiles [] prefixes [] ex)
      as (Hinv & _ & Hall); [intros k c; discriminate|exact Hscan|].
    destruct (Hall p Hp Hsuf) as (evtid & Hint & Hsome).
    exists evtid. split.
    + unfold event_id, prefix_of. now rewrite last_chars_path_join.
    + unfold use_cached, int_getitem.
      cbn [exists_ PointCloudBuilder.redo].
      destruct (int_get ex evtid) as [c|] eqn:Hc; [|congruence].
      rewrite (Hinv evtid c Hc). reflexivity.
Qed.

End RegisteredEvents.

(** ** [restrict_to_pixel] *)
Section PixelLayers.
Import Py PointCloudBuilder.
Local Open Scope R_scope.

Lemma Reqb_true_iff (x y : R) : Reqb x y = true <-> x = y.
Proof. unfold Reqb. destruct (Req_dec_T x y); split; intros; easy. Qed.

(** The group [g] has a hit. *)
Definition populated (volume_id layer_id : list R) (g : Z * Z) : Prop :=
  exists p, In p (combine volume_id layer_id) /\
            fst p = IZR (fst g) /\ snd p = IZR (snd g).

Lemma group_mask_populated (volume_id layer_id : list R) (g : Z * Z) :
  existsb (fun b : bool => b) (group_mask volume_id layer_id g) = true <->
  populated volume_id layer_id g.
Proof.
  unfold group_mask, populated. rewrite existsb_exists. split.
  - intros (b & Hb & ->). apply in_map_iff in Hb.
    destruct Hb as (p & Hp & Hin). exists p. split; [exact Hin|].
    apply andb_true_iff in Hp. now rewrite !Reqb_true_iff in Hp.
  - intros (p & Hin & H1 & H2). exists true. split; [|reflexivity].
    apply in_map_iff. exists p. split; [|exact Hin].
    apply andb_true_iff. now rewrite !Reqb_true_iff.
Qed.

Lemma mapM_raises {A B : Type} (f : A -> result B) (l : list A) (e : exn) :
  mapM f l = Raise e -> exists x, In x l /\ f x = Raise e.
Proof.
  induction l as [|x l IH]; cbn [mapM bind]; [discriminate|].
  destruct (f x) as [y|e'] eqn:Hx; cbn [bind].
  - destruct (mapM f l) as [ys|e'']; cbn [bind]; [discriminate|].
    intros H. injection H as <-. destruct (IH eq_refl) as (x' & Hin & Hx').
    exists x'. split; [now right|exact Hx'].
  - intros H. injection H as <-. exists x. split; [now left|exact Hx].
Qed.

Lemma pixel_layer_index (g : Z * Z) :
  In g pixel_layers <->
  exists i, In i (seq 0 n_layers) /\ nth i pixel_layers (0, 0)%Z = g.
Proof.
  split.
  - intros H. destruct (In_nth _ _ (0, 0)%Z H) as (i & Hi & Hg).
    exists i. split; [apply in_seq; unfold n_layers; lia|exact Hg].
  - intros (i & Hi & <-). apply in_seq in Hi. apply nth_In.
    unfold n_layers in Hi. lia.
Qed.

(** The body of the comprehension of lines 80-81. *)
Definition layer_group (hits : DataFrame) (volume_id layer_id : list R)
    (i : nat) : result DataFrame :=
  group <- get_group hits volume_id layer_id (nth i pixel_layers (0, 0)%Z) ;;
  Ok (assign_layer group i).

Lemma layer_group_returns (hits : DataFrame) (volume_id layer_id : list R)
    (i : nat) :
  (exists f, layer_group hits volume_id layer_id i = Ok f) <->
  populated volume_id layer_id (nth i pixel_layers (0, 0)%Z).
Proof.
  unfold layer_group, get_group. rewrite <- group_mask_populated.
  destruct (existsb _ _); cbn [bind]; split; intros H;
    try reflexivity; try discriminate; [now eexists|].
  now destruct H.
Qed.

Lemma layer_group_raises (hits : DataFrame) (volume_id layer_id : list R)
    (i : nat) (e : exn) :
  layer_group hits volume_id layer_id i = Raise e ->
  ~ populated volume_id layer_id (nth i pixel_layers (0, 0)%Z) /\
  e = KeyError (group_name (nth i pixel_layers (0, 0)%Z)).
Proof.
  unfold layer_group, get_group. rewrite <- group_mask_populated.
  destruct (existsb _ _); cbn [bind]; [discriminate|].
  intros H. injection H as <-. split; [discriminate|reflexivity].
Qed.

Lemma restrict_to_pixel_unfold (hits : DataFrame) (volume_id layer_id : list R) :
  get hits "volume_id" = Some volume_id ->
  get hits "layer_id" = Some layer_id ->
  restrict_to_pixel hits =
  (frames <- mapM (layer_group hits volume_id layer_id) (seq 0 n_layers) ;;
   concat frames).
Proof.
  intros Hv Hl. unfold restrict_to_pixel, getitem. now rewrite Hv, Hl.
Qed.

Lemma restrict_to_pixel_returns (hits : DataFrame) (volume_id layer_id : list R) :
  get hits "volume_id" = Some volume_id ->
  get hits "layer_id" = Some layer_id ->
  (forall g, In g pixel_layers -> populated volume_id layer_id g) ->
  exists df, restrict_to_pixel hits = Ok df.
Proof.
  intros Hv Hl Hpop. rewrite (restrict_to_pixel_unfold hits _ _ Hv Hl).
  destruct (mapM_defined (layer_group hits volume_id layer_id) (seq 0 n_layers))
    as [frames Hm].
  { apply Forall_forall. intros i Hi. apply layer_group_returns. apply Hpop.
    apply pixel_layer_index. now exists i. }
  rewrite Hm. cbn [bind].
  assert (Hall := mapM_Forall2 _ _ _ Hm).
  inversion Hall; subst. cbn [concat]. now eexists.
Qed.

(** X29.  [restrict_to_pixel] needs a hit on every one of the 18 pixel
    layers.  On a table with the columns [volume_id] and [layer_id] it
    returns exactly when each pixel layer has at least one hit, and
    otherwise raises the [KeyError] of a pixel layer that has none - in
    particular on an empty table. *)
Theorem restrict_to_pixel_needs_every_layer (hits : DataFrame)
    (volume_id layer_id : list R) :
  get hits "volume_id" = Some volume_id ->
  get hits "layer_id" = Some layer_id ->
  ((exists df, restrict_to_pixel hits = Ok df) <->
   (forall g, In g pixel_layers -> populated volume_id layer_id g)) /\
  (forall e, restrict_to_pixel hits = Raise e ->
     exists g, In g pixel_layers /\ ~ populated volume_id layer_id g /\
               e = KeyError (group_name g)).
Proof.
  intros Hv Hl. split.
  - split; [|now apply restrict_to_pixel_returns].
    rewrite (restrict_to_pixel_unfold hits _ _ Hv Hl).
    intros [df H] g Hg.
    destruct (mapM (layer_group hits volume_id layer_id) (seq 0 n_layers))
      as [frames|e0] eqn:Hm; cbn [bind] in H; [|discriminate].
    assert (Hall := mapM_Forall2 _ _ _ Hm).
    apply pixel_layer_index in Hg. destruct Hg as (i & Hi & <-).
    apply (layer_group_returns hits).
    clear -Hall Hi. induction Hall as [|x y l r Hx _ IH]; [destruct Hi|].
    destruct Hi as [->|Hi]; [now exists y|now apply IH].
  - rewrite (restrict_to_pixel_unfold hits _ _ Hv Hl). intros e H.
    destruct (mapM (layer_group hits volume_id layer_id) (seq 0 n_layers))
      as [frames|e0] eqn:Hm; cbn [bind] in H.
    + assert (Hall := mapM_Forall2 _ _ _ Hm).
      inversion Hall; subst. discriminate.
    + injection H as <-.
      destruct (mapM_raises _ _ _ Hm) as (i & Hi & Hr).
      destruct (layer_group_raises hits _ _ i e0 Hr) as [Hn He].
      exists (nth i pixel_layers (0, 0)%Z). split; [|now split].
      apply pixel_layer_index. now exists i.
Qed.

End PixelLayers.

(** ** The rows [restrict_to_pixel] keeps *)
Section PixelRows.
Import Py PointCloudBuilder.
Local Open Scope R_scope.

(** Every column has one value per row. *)
Definition rectangular (df : DataFrame) : Prop :=
  forall k c, get df k = Some c -> List.length c = nrows df.

(** The hit [p = (volume_id, layer_id)] lies on the layer [g]. *)
Definition on_layer (g : Z * Z) (p : R * R) : bool :=
  (Reqb (fst p) (IZR (fst g)) && Reqb (snd p) (IZR (snd g)))%bool.

Definition on_pixel (p : R * R) : bool :=
  existsb (fun g => on_layer g p) pixel_layers.

(** The frame of the comprehension of lines 80-81 for the index [i]. *)
Definition layer_frame (hits : DataFrame) (volume_id layer_id : list R)
    (i : nat) : DataFrame :=
  assign_layer
    (filter_rows (group_mask volume_id layer_id (nth i pixel_layers (0, 0)%Z))
       hits) i.

Lemma mapM_layer_frames (hits : DataFrame) (volume_id layer_id : list R)
    (l : list nat) (frames : list DataFrame) :
  mapM (layer_group hits volume_id layer_id) l = Ok frames ->
  frames = map (layer_frame hits volume_id layer_id) l.
Proof.
  revert frames. induction l as [|i l IH]; intros frames H; cbn [mapM bind] in H.
  - now injection H as <-.
  - unfold layer_group at 1, get_group in H.
    destruct (existsb _ _); cbn [bind] in H; [|discriminate].
    destruct (mapM _ l) as [fs|e]; cbn [bind] in H; [|discriminate].
    injection H as <-. cbn [map]. now rewrite <- (IH fs eq_refl).
Qed.

Lemma get_map_keyed (h : string -> list R) (d : DataFrame) (k : string) :
  get (map (fun kc => (fst kc, h (fst kc))) d) k =
  option_map (fun _ => h k) (get d k).
Proof.
  induction d as [|[k0 c0] d IH]; cbn [map get fst snd]; [reflexivity|].
  destruct (String.eqb_spec k0 k) as [->|_]; [reflexivity|exact IH].
Qed.

Lemma masked_length_eq {A B : Type} (mask : list bool) :
  forall (a : list A) (b : list B),
    List.length a = List.length b ->
    List.length (masked mask a) = List.length (masked mask b).
Proof.
  induction mask as [|m mask IH]; intros [|x a] [|y b] H; cbn in H;
    try discriminate; cbn [masked]; try reflexivity.
  destruct m; cbn [List.length]; rewrite (IH a b); auto.
Qed.

Lemma on_layer_inj (g g' : Z * Z) (p : R * R) :
  on_layer g p = true -> on_layer g' p = true -> g = g'.
Proof.
  unfold on_layer. rewrite !andb_true_iff, !Reqb_true_iff.
  intros [H1 H2] [H1' H2']. destruct g, g'; cbn in *.
  f_equal; apply eq_IZR; congruence.
Qed.

Lemma pixel_layers_NoDup : NoDup pixel_layers.
Proof.
  unfold pixel_layers, pixel_barrel, pixel_REC, pixel_LEC. cbn [app].
  repeat (constructor; [cbn [In]; intuition discriminate|]). constructor.
Qed.


Lemma layer_frame_columns (hits : DataFrame) (volume_id layer_id : list R)
    (i : nat) :
  rectangular hits ->
  get hits "volume_id" = Some volume_id ->
  get hits "layer_id" = Some layer_id ->
  let rows := filter (on_layer (nth i pixel_layers (0, 0)%Z))
                (combine volume_id layer_id) in
  let frame := layer_frame hits volume_id layer_id i in
  combine (column frame "volume_id") (column frame "layer_id") = rows /\
  List.length (column frame "volume_id") = List.length (column frame "layer_id") /\
  column frame "layer" = repeat (INR i) (List.length rows).
Proof.
  intros Hrect Hv Hl rows frame.
  assert (Hlen : List.length volume_id = List.length layer_id).
  { now rewrite (Hrect _ _ Hv), (Hrect _ _ Hl). }
  set (mask := group_mask volume_id layer_id (nth i pixel_layers (0, 0)%Z)).
  assert (Hcv : column frame "volume_id" = masked mask volume_id).
  { unfold column, frame, layer_frame, assign_layer.
    rewrite get_setitem. cbn [String.eqb Ascii.eqb Bool.eqb andb].
    fold mask. now rewrite get_filter_rows, Hv. }
  assert (Hcl : column frame "layer_id" = masked mask layer_id).
  { unfold column, frame, layer_frame, assign_layer.
    rewrite get_setitem. cbn [String.eqb Ascii.eqb Bool.eqb andb].
    fold mask. now rewrite get_filter_rows, Hl. }
  assert (Hrows : masked mask (combine volume_id layer_id) = rows).
  { unfold mask, group_mask, rows. apply masked_map_filter. }
  rewrite Hcv, Hcl. split; [|split].
  - now rewrite masked_combine.
  - now apply masked_length_eq.
  - unfold column, frame, layer_frame, assign_layer.
    rewrite get_setitem, String.eqb_refl. fold mask. f_equal.
    rewrite <- Hrows, <- masked_combine, length_combine.
    rewrite <- (masked_length_eq mask volume_id layer_id Hlen), Nat.min_id.
    rewrite nrows_filter_rows.
    destruct hits as [|[k0 c0] hits']; [discriminate|].
    apply masked_length_eq.
    rewrite (Hrect "volume_id"%string volume_id Hv).
    cbn [nrows]. reflexivity.
Qed.

(** The value of [layer] that goes with a hit. *)
Definition layer_of (p : R * R) (layer : R) : Prop :=
  exists (i : nat) (g : Z * Z),
    nth_error pixel_layers i = Some g /\ layer = INR i /\
    fst p = IZR (fst g) /\ snd p = IZR (snd g).

(** The entries a mask keeps, by their positions. *)
Lemma masked_as_rows {A B : Type} (f : B -> bool) (d : A) (d' : B) :
  forall (rows : list B) (col : list A),
    List.length col = List.length rows ->
    masked (map f rows) col =
    map (fun i => nth i col d)
        (filter (fun i => f (nth i rows d')) (seq 0 (List.length rows))).
Proof.
  induction rows as [|r rows IH]; intros [|a col] H; cbn in H;
    try discriminate; [reflexivity|].
  cbn [map masked List.length seq filter nth].
  rewrite <- seq_shift, filter_map_swap.
  destruct (f r); cbn [map]; rewrite map_map, <- (IH col) by lia;
    reflexivity.
Qed.

(** The rows of the table that [restrict_to_pixel] keeps, as positions
    in the table and in the order of the result: layer by layer in the
    order of [pixel_layers], and within a layer in the order of the
    table. *)
Definition kept_rows (volume_id layer_id : list R) : list nat :=
  flat_map
    (fun g =>
       filter (fun i => on_layer g (nth i (combine volume_id layer_id) (0, 0)))
              (seq 0 (List.length (combine volume_id layer_id))))
    pixel_layers.

Lemma kept_rows_In (volume_id layer_id : list R) (i : nat) :
  In i (kept_rows volume_id layer_id) <->
  (i < List.length (combine volume_id layer_id))%nat /\
  on_pixel (nth i (combine volume_id layer_id) (0, 0)) = true.
Proof.
  unfold kept_rows, on_pixel. rewrite in_flat_map, existsb_exists. split.
  - intros (g & Hg & Hi). apply filter_In in Hi. destruct Hi as [Hi Hon].
    apply in_seq in Hi. split; [lia|now exists g].
  - intros (Hi & g & Hg & Hon). exists g. split; [exact Hg|].
    apply filter_In. split; [apply in_seq; lia|exact Hon].
Qed.

Lemma kept_rows_NoDup (volume_id layer_id : list R) :
  NoDup (kept_rows volume_id layer_id).
Proof.
  unfold kept_rows. generalize pixel_layers_NoDup.
  generalize (combine volume_id layer_id). intros rows.
  induction 1 as [|g gs Hg _ IH]; cbn [flat_map]; [constructor|].
  apply NoDup_app; [apply NoDup_filter, seq_NoDup|exact IH|].
  intros i Hi Hin. apply filter_In in Hi. destruct Hi as [_ Hi].
  apply in_flat_map in Hin. destruct Hin as (g' & Hg' & Hin).
  apply filter_In in Hin. destruct Hin as [_ Hon].
  rewrite (on_layer_inj g g' _ Hi Hon) in Hg. contradiction.
Qed.

Lemma flat_map_map_out {A B C : Type} (h : B -> C) (F : A -> list B)
    (l : list A) :
  flat_map (fun a => map h (F a)) l = map h (flat_map F l).
Proof.
  induction l as [|a l IH]; cbn [flat_map map]; [reflexivity|].
  now rewrite map_app, IH.
Qed.

Lemma flat_map_of_map {A B C : Type} (g : A -> B) (F : B -> list C)
    (l : list A) :
  flat_map F (map g l) = flat_map (fun a => F (g a)) l.
Proof.
  induction l as [|a l IH]; cbn [flat_map map]; [reflexivity|].
  now rewrite IH.
Qed.

(** The positions of the hits on the layer [g]. *)
Definition rows_on (volume_id layer_id : list R) (g : Z * Z) : list nat :=
  filter (fun i => on_layer g (nth i (combine volume_id layer_id) (0, 0)))
         (seq 0 (List.length (combine volume_id layer_id))).

Lemma layer_frame_column (hits : DataFrame) (volume_id layer_id : list R)
    (i : nat) (c : string) (col : list R) :
  rectangular hits ->
  get hits "volume_id" = Some volume_id ->
  get hits "layer_id" = Some layer_id ->
  c <> "layer"%string ->
  get hits c = Some col ->
  column (layer_frame hits volume_id layer_id i) c =
  map (fun j => nth j col 0)
      (rows_on volume_id layer_id (nth i pixel_layers (0, 0)%Z)).
Proof.
  intros Hrect Hv Hl Hc Hcol.
  unfold column, layer_frame, assign_layer. rewrite get_setitem.
  destruct (String.eqb_spec "layer" c) as [<-|_]; [congruence|].
  rewrite get_filter_rows, Hcol. cbn [option_map].
  unfold group_mask, rows_on.
  apply (masked_as_rows
           (fun p => on_layer (nth i pixel_layers (0, 0)%Z) p) 0 (0, 0)).
  rewrite length_combine, (Hrect _ _ Hcol), (Hrect _ _ Hv), (Hrect _ _ Hl).
  now rewrite Nat.min_id.
Qed.

Lemma layer_frame_layer (hits : DataFrame) (volume_id layer_id : list R)
    (i : nat) :
  rectangular hits ->
  get hits "volume_id" = Some volume_id ->
  get hits "layer_id" = Some layer_id ->
  column (layer_frame hits volume_id layer_id i) "layer" =
  repeat (INR i)
    (List.length (rows_on volume_id layer_id (nth i pixel_layers (0, 0)%Z))).
Proof.
  intros Hrect Hv Hl.
  destruct (layer_frame_columns hits volume_id layer_id i Hrect Hv Hl)
    as (_ & _ & ->).
  f_equal. unfold rows_on.
  rewrite <- (masked_map_filter
                (on_layer (nth i pixel_layers (0, 0)%Z))
                (combine volume_id layer_id)).
  rewrite (masked_as_rows (on_layer (nth i pixel_layers (0, 0)%Z))
             (0, 0) (0, 0) (combine volume_id layer_id)
             (combine volume_id layer_id) eq_refl).
  now rewrite length_map.
Qed.

Lemma rows_on_labelled (volume_id layer_id : list R) (l : list nat) :
  Forall (fun i => (i < n_layers)%nat) l ->
  Forall2 (fun j layer =>
             layer_of (nth j (combine volume_id layer_id) (0, 0)) layer)
    (flat_map (fun i => rows_on volume_id layer_id
                          (nth i pixel_layers (0, 0)%Z)) l)
    (flat_map (fun i =>
                 repeat (INR i)
                   (List.length (rows_on volume_id layer_id
                                   (nth i pixel_layers (0, 0)%Z)))) l).
Proof.
  induction 1 as [|i l Hi _ IH]; cbn [flat_map]; [constructor|].
  apply Forall2_app; [|exact IH].
  set (g := nth i pixel_layers (0, 0)%Z).
  assert (Hg : nth_error pixel_layers i = Some g).
  { unfold g. apply nth_error_nth'. exact Hi. }
  assert (Hon : Forall (fun j => on_layer g (nth j (combine volume_id layer_id)
                                              (0, 0)) = true)
                  (rows_on volume_id layer_id g)).
  { apply Forall_forall. intros j Hj. unfold rows_on in Hj.
    now apply filter_In in Hj. }
  clearbody g. revert Hon.
  generalize (rows_on volume_id layer_id g) as sel.
  induction sel as [|j sel IHs]; intros Hon; cbn [List.length repeat];
    [constructor|].
  inversion Hon as [|? ? Hj Hrest]; subst. constructor; [|now apply IHs].
  exists i, g. split; [exact Hg|]. split; [reflexivity|].
  unfold on_layer in Hj. apply andb_true_iff in Hj.
  now rewrite !Reqb_true_iff in Hj.
Qed.

(** X30.  What [restrict_to_pixel] returns, on a table whose columns have
    one value per row.  The rows of the result are rows of the table:
    every hit on a pixel layer is taken exactly once and no other hit is
    taken, layer by layer in the order of [pixel_layers] and within a
    layer in the order of the table.  Every column of the table other
    than [layer] holds, row by row, the values of the rows taken; the
    column [layer] holds for each row the position (0 to 17) in
    [pixel_layers] of the layer the hit lies on; and the result has no
    other column. *)
Theorem restrict_to_pixel_labels_pixel_hits (hits df : DataFrame)
    (volume_id layer_id : list R) :
  rectangular hits ->
  get hits "volume_id" = Some volume_id ->
  get hits "layer_id" = Some layer_id ->
  restrict_to_pixel hits = Ok df ->
  let rows := combine volume_id layer_id in
  let sel := kept_rows volume_id layer_id in
  NoDup sel /\
  (forall i, In i sel <->
             (i < nrows hits)%nat /\ on_pixel (nth i rows (0, 0)) = true) /\
  (forall c col, c <> "layer"%string -> get hits c = Some col ->
     get df c = Some (map (fun i => nth i col 0) sel)) /\
  (exists layer,
     get df "layer" = Some layer /\
     Forall2 (fun i l => layer_of (nth i rows (0, 0)) l) sel layer) /\
  (forall c, get df c <> None <-> c = "layer"%string \/ get hits c <> None).
Proof.
  intros Hrect Hv Hl. rewrite (restrict_to_pixel_unfold hits _ _ Hv Hl).
  destruct (mapM _ (seq 0 n_layers)) as [frames|e] eqn:Hm; cbn [bind];
    [|discriminate].
  apply mapM_layer_frames in Hm.
  assert (Hfirst : exists fs,
            frames = layer_frame hits volume_id layer_id 0 :: fs).
  { rewrite Hm. cbn [n_layers seq map]. now eexists. }
  destruct Hfirst as (fs & Hfirst).
  assert (Hcat : concat frames =
                 Ok (map (fun kc =>
                            (fst kc, flat_map (fun f => column f (fst kc)) frames))
                         (layer_frame hits volume_id layer_id 0))).
  { rewrite Hfirst. reflexivity. }
  rewrite Hcat. intros H. injection H as <-. cbn zeta.
  assert (Hlen : List.length (combine volume_id layer_id) = nrows hits).
  { rewrite length_combine, (Hrect _ _ Hv), (Hrect _ _ Hl). apply Nat.min_id. }
  assert (Hget : forall c,
            get (map (fun kc =>
                        (fst kc, flat_map (fun f => column f (fst kc)) frames))
                     (layer_frame hits volume_id layer_id 0)) c =
            if String.eqb "layer" c
            then Some (flat_map (fun f => column f c) frames)
            else option_map (fun _ => flat_map (fun f => column f c) frames)
                   (get hits c)).
  { intros c.
    rewrite (get_map_keyed (fun k => flat_map (fun f => column f k) frames)).
    unfold layer_frame, assign_layer. rewrite get_setitem.
    destruct (String.eqb "layer" c); [reflexivity|].
    rewrite get_filter_rows. now destruct (get hits c). }
  split; [apply kept_rows_NoDup|]. split; [|split; [|split]].
  - intros i. rewrite kept_rows_In, Hlen. reflexivity.
  - intros c col Hc Hcol. rewrite Hget, Hcol.
    destruct (String.eqb_spec "layer" c) as [<-|_]; [congruence|].
    cbn [option_map]. f_equal. rewrite Hm, flat_map_of_map.
    rewrite (flat_map_ext _
               (fun i => map (fun j => nth j col 0)
                           (rows_on volume_id layer_id
                              (nth i pixel_layers (0, 0)%Z)))).
    + rewrite flat_map_map_out. reflexivity.
    + intros i. now apply layer_frame_column.
  - eexists. split; [rewrite Hget, String.eqb_refl; reflexivity|].
    rewrite Hm, flat_map_of_map.
    rewrite (flat_map_ext _
               (fun i => repeat (INR i)
                           (List.length
                              (rows_on volume_id layer_id
                                 (nth i pixel_layers (0, 0)%Z))))).
    + apply (rows_on_labelled volume_id layer_id (seq 0 n_layers)).
      apply Forall_forall. intros i Hi. apply in_seq in Hi. lia.
    + intros i. now apply layer_frame_layer.
  - intros c. rewrite Hget.
    destruct (String.eqb_spec "layer" c) as [<-|Hne].
    + split; [now left|discriminate].
    + destruct (get hits c); cbn [option_map]; split; intros H;
        try discriminate; try (now right); destruct H as [H|H]; congruence.
Qed.

End PixelRows.

(** ** The builder on the sample event *)
Section BuilderSample.
Import Py PointCloudBuilder.
Local Open Scope R_scope.

Lemma cached_event_only_loads_witness :
  (PointCloudBuilder.hits_table Sample.loaded_state = Sample.hits /\
   files Sample.loaded_state = Sample.both_artifacts /\
   sector_hit_count Sample.loaded_state = 0%nat /\
   exists ds,
     loaded Sample.loaded_state =
       data_list (Sample.builder 2 false ["data5_s0.pt"%string]) ++ ds /\
     Forall2
       (fun s d =>
          get Sample.both_artifacts
            (artifact_path (Sample.builder 2 false ["data5_s0.pt"%string]) 5 s) =
          Some d)
       (range 2) ds) /\
  (exists s : Z,
     In s (range 2) /\
     get [("out/data5_s0.pt"%string, Sample.artifact)]
       (artifact_path (Sample.builder 2 false ["data5_s0.pt"%string]) 5 s) =
       None /\
     FileNotFoundError "out/data5_s1.pt" =
       FileNotFoundError
         (artifact_path (Sample.builder 2 false ["data5_s0.pt"%string]) 5 s)).
Proof.
  split.
  - destruct (cached_event_only_loads
                (Sample.builder 2 false ["data5_s0.pt"%string]) 5 Sample.hits
                Sample.both_artifacts eq_refl eq_refl) as [Hok _].
    exact (Hok Sample.loaded_state eq_refl).
  - destruct (cached_event_only_loads
                (Sample.builder 2 false ["data5_s0.pt"%string]) 5 Sample.hits
                [("out/data5_s0.pt"%string, Sample.artifact)] eq_refl eq_refl)
      as [_ Herr].
    exact (Herr (FileNotFoundError "out/data5_s1.pt") eq_refl).
Defined.

Lemma sample_has_columns :
  has_columns (required_columns (Sample.builder 2 true [])) Sample.hits.
Proof.
  intros c Hc. cbn in Hc.
  repeat (destruct Hc as [<-|Hc]; [discriminate|]). destruct Hc.
Qed.

Lemma rebuilt_event_loads_back_witness :
  exists (st : sector_loop_state) (ds : list Data),
    process_event_sectors (Sample.builder 2 true []) 5 Sample.hits [] = Ok st /\
    loaded st = ds /\
    List.length ds = 2%nat /\
    process_event_sectors (Sample.builder 2 false ["data5_s0.pt"%string]) 5
      Sample.hits (files st) =
    Ok {| hits_table := Sample.hits; files := files st; loaded := ds;
          sector_hit_count := 0 |}.
Proof.
  destruct (process_event_sectors_succeeds (Sample.builder 2 true []) 5
              Sample.hits [] eq_refl ltac:(discriminate) eq_refl
              sample_has_columns eq_refl) as (st & Hst).
  destruct (rebuilt_event_loads_back (Sample.builder 2 true [])
              (Sample.builder 2 false ["data5_s0.pt"%string]) 5
              Sample.hits Sample.hits [] st eq_refl Hst eq_refl eq_refl eq_refl)
    as (ds & Hl & Hn & Hrun).
  exists st, ds. split; [exact Hst|]. split; [exact Hl|]. split; [exact Hn|].
  exact Hrun.
Defined.

Lemma rebuild_succeeds_witness :
  exists st : sector_loop_state,
    process_event_sectors (Sample.builder 2 true []) 5 Sample.hits [] = Ok st /\
    List.length (loaded st) = 2%nat /\
    forall s, (0 <= s < 2)%Z ->
      exists d,
        get (files st) (artifact_path (Sample.builder 2 true []) 5 s) = Some d /\
        In d (loaded st).
Proof.
  exact (rebuild_succeeds (Sample.builder 2 true []) 5 Sample.hits []
           eq_refl ltac:(discriminate) eq_refl sample_has_columns eq_refl).
Defined.

Lemma init_lists_event_files_in_order_witness :
  prefixes (Sample.builder 2 false ["data5_s0.pt"%string]) =
  ["in/event000000005"%string].
Proof.
  exact (init_lists_event_files_in_order
           ["data5_s0.pt"%string] Sample.infiles "out" "in" 2 false false
           (1 / 10000) (11 / 10) ["u"; "v"]%string [1; 1] false (1 / 2) false
           (Sample.builder 2 false ["data5_s0.pt"%string]) eq_refl).
Defined.

Lemma process_finds_registered_events_witness :
  In "in/event000000005"%string
    (prefixes (Sample.builder 2 false ["data5_s0.pt"%string])) /\
  exists evtid : Z,
    event_id "in/event000000005" = Ok evtid /\
    use_cached (Sample.builder 2 false ["data5_s0.pt"%string]) evtid =
      Ok (listed (artifact_name evtid 0) ["data5_s0.pt"%string] && negb false)%bool.
Proof.
  apply (process_finds_registered_events
           ["data5_s0.pt"%string] Sample.infiles "out" "in" 2 false false
           (1 / 10000) (11 / 10) ["u"; "v"]%string [1; 1] false (1 / 2) false
           (Sample.builder 2 false ["data5_s0.pt"%string])
           "event000000005-hits.csv.gz" eq_refl).
  - now left.
  - reflexivity.
  - cbn. lia.
Defined.

Lemma barrel_hits_miss_a_layer :
  ~ populated [8; 8] [2; 4] (8, 6)%Z.
Proof.
  intros (p & Hin & H1 & H2). cbn in Hin, H2.
  destruct Hin as [<-|[<-|[]]]; cbn in H2; apply eq_IZR in H2; discriminate.
Qed.

Lemma restrict_to_pixel_needs_every_layer_witness :
  exists g : Z * Z,
    In g pixel_layers /\ ~ populated [8; 8] [2; 4] g /\
    restrict_to_pixel Sample.barrel_hits = Raise (KeyError (group_name g)).
Proof.
  destruct (restrict_to_pixel_needs_every_layer Sample.barrel_hits
              [8; 8] [2; 4] eq_refl eq_refl) as [[Hall _] Herr].
  destruct (restrict_to_pixel Sample.barrel_hits) as [df|e].
  - exfalso. apply barrel_hits_miss_a_layer. apply Hall; [now exists df|].
    cbn. tauto.
  - destruct (Herr e eq_refl) as (g & Hg & Hn & ->). now exists g.
Defined.

Lemma pixel_hits_populated (g : Z * Z) :
  In g pixel_layers ->
  populated [7; 7; 7; 7; 7; 7; 7; 8; 8; 8; 8; 9; 9; 9; 9; 9; 9; 9; 13]
            [2; 4; 6; 8; 10; 12; 14; 2; 4; 6; 8; 2; 4; 6; 8; 10; 12; 14; 2] g.
Proof.
  intros Hg. exists (IZR (fst g), IZR (snd g)). split; [|now split].
  cbn in Hg.
  repeat (destruct Hg as [<-|Hg];
          [cbn; repeat first [left; reflexivity | right]|]).
  destruct Hg.
Qed.

Lemma pixel_hits_rectangular : rectangular Sample.pixel_hits.
Proof.
  intros k c. unfold Sample.pixel_hits. cbn [get].
  repeat match goal with
         | |- context [String.eqb ?a k] => destruct (String.eqb a k)
         end;
    intros H; try discriminate; injection H as <-; reflexivity.
Qed.

Lemma strip_hit_not_on_pixel : on_pixel (13, 2) = false.
Proof.
  apply not_true_is_false. intros H. unfold on_pixel in H.
  apply existsb_exists in H. destruct H as (g & Hg & Hon).
  unfold on_layer in Hon. apply andb_true_iff in Hon.
  rewrite !Reqb_true_iff in Hon. destruct Hon as [Hvol _]. cbn [fst] in Hvol.
  apply eq_IZR in Hvol. cbn in Hg.
  repeat (destruct Hg as [<-|Hg]; [discriminate|]). destruct Hg.
Qed.

(** X30 on the sample table: the hit identifiers of the result are those
    of the rows taken, and the strip hit - row 18 - is not among them. *)
Lemma restrict_to_pixel_labels_pixel_hits_witness :
  let volume_id := [7; 7; 7; 7; 7; 7; 7; 8; 8; 8; 8; 9; 9; 9; 9; 9; 9; 9; 13] in
  let layer_id := [2; 4; 6; 8; 10; 12; 14; 2; 4; 6; 8; 2; 4; 6; 8; 10; 12; 14; 2] in
  exists df : DataFrame,
    restrict_to_pixel Sample.pixel_hits = Ok df /\
    NoDup (kept_rows volume_id layer_id) /\
    ~ In 18%nat (kept_rows volume_id layer_id) /\
    get df "hit_id" =
      Some (map (fun i =>
                   nth i [1; 2; 3; 4; 5; 6; 7; 8; 9; 10; 11; 12; 13; 14; 15;
                          16; 17; 18; 19] 0)
                (kept_rows volume_id layer_id)).
Proof.
  cbn zeta.
  destruct (restrict_to_pixel_returns Sample.pixel_hits _ _ eq_refl eq_refl
              pixel_hits_populated) as (df & Hdf).
  destruct (restrict_to_pixel_labels_pixel_hits Sample.pixel_hits df _ _
              pixel_hits_rectangular eq_refl eq_refl Hdf)
    as (Hnd & Hin & Hcol & _ & _).
  exists df. split; [exact Hdf|]. split; [exact Hnd|]. split.
  - intros H. apply Hin in H. destruct H as [_ H]. cbn [combine nth] in H.
    rewrite strip_hit_not_on_pixel in H. discriminate.
  - apply (Hcol "hit_id"%string); [discriminate|reflexivity].
Defined.

End BuilderSample.
